(** * Marco: AST syntax checker and display-hints generator

    A shallow embedding of [src/tools/ast_syntax_checker/main.py]:
    the RON-like notation parser of [ASTSyntaxChecker], its analyses,
    counts and generation command, the [ASTValidator] and the
    [DisplayHintsGenerator].

    Conventions of the embedding.
    - Python values are the inductive [Value]; a [dict] is an association
      list in insertion order (the order [items()] iterates in).
    - Text is a sequence of code points below 256.  [str.lower],
      [str.isupper], [str.strip] and the digit tests of the parser act on
      the 7-bit range, larger code points are opaque there (neither cased,
      digit nor blank).  The conversion of a depth in the coverage pass is
      modelled on the whole range ([str_isdigit], [int_of_text]): there
      [int] raises on a digit that is no decimal digit and on a text of
      more digits than its limit.
    - A Python [float] is an IEEE binary64 value, [spec_float] at
      precision 53.
    - A raised exception is the [Raise] case of [result]; the list
      [self.errors] is the list carried by [Ok].
    - An f-string is kept as its literal pieces and replacement fields
      ([fstring]); [render] evaluates it where [str()] of the field is a
      scalar. *)

From Stdlib Require Import List String Ascii ZArith Bool Lia SpecFloat
  DecimalString.
Import ListNotations.
Local Open Scope string_scope.
Local Open Scope list_scope.

Set Implicit Arguments.
Set Warnings "-register-all".

(** ** Python values *)

Inductive Value : Type :=
| VNone : Value
| VBool : bool -> Value
| VInt : Z -> Value
| VFloat : spec_float -> Value
| VStr : string -> Value
| VList : list Value -> Value
| VDict : list (string * Value) -> Value.

Definition dict : Type := list (string * Value).

Section ValueInduction.
Variable P : Value -> Prop.
Hypothesis HNone : P VNone.
Hypothesis HBool : forall b, P (VBool b).
Hypothesis HInt : forall z, P (VInt z).
Hypothesis HFloat : forall f, P (VFloat f).
Hypothesis HStr : forall s, P (VStr s).
Hypothesis HList : forall l, Forall P l -> P (VList l).
Hypothesis HDict : forall d, Forall (fun kv => P (snd kv)) d -> P (VDict d).

Fixpoint Value_nested_ind (v : Value) : P v :=
  match v with
  | VNone => HNone
  | VBool b => HBool b
  | VInt z => HInt z
  | VFloat f => HFloat f
  | VStr s => HStr s
  | VList l =>
      HList ((fix all (l : list Value) : Forall P l :=
                match l with
                | [] => Forall_nil _
                | x :: r => Forall_cons _ (Value_nested_ind x) (all r)
                end) l)
  | VDict d =>
      HDict ((fix all (d : dict) : Forall (fun kv => P (snd kv)) d :=
                match d with
                | [] => Forall_nil _
                | kv :: r =>
                    Forall_cons kv (Value_nested_ind (snd kv)) (all r)
                end) d)
  end.
End ValueInduction.

(** ** Exceptions *)

Inductive exn : Type := TypeError | AttributeError | ValueError.

Inductive result (A : Type) : Type :=
| Ok : A -> result A
| Raise : exn -> result A.

Arguments Ok {A} _.
Arguments Raise {A} _.

Definition bind {A B} (m : result A) (k : A -> result B) : result B :=
  match m with
  | Ok a => k a
  | Raise e => Raise e
  end.

Notation "'let*' x ':=' m 'in' k" := (bind m (fun x => k))
  (at level 10, x name, m at level 100, k at level 200).

(** ** Strings *)

Definition is_upper (c : ascii) : bool :=
  let n := nat_of_ascii c in (65 <=? n)%nat && (n <=? 90)%nat.

Definition lower_ascii (c : ascii) : ascii :=
  if is_upper c then ascii_of_nat (nat_of_ascii c + 32) else c.

(** [str.lower()] *)
Fixpoint lower (s : string) : string :=
  match s with
  | EmptyString => EmptyString
  | String c r => String (lower_ascii c) (lower r)
  end.

Definition is_digit (c : ascii) : bool :=
  let n := nat_of_ascii c in (48 <=? n)%nat && (n <=? 57)%nat.

Fixpoint all_chars (p : ascii -> bool) (s : string) : bool :=
  match s with
  | EmptyString => true
  | String c r => p c && all_chars p r
  end.

(** [str.isdigit()]: a non-empty run of digits. *)
Definition isdigit (s : string) : bool :=
  negb (String.eqb s "") && all_chars is_digit s.

Definition digit_value (c : ascii) : Z := Z.of_nat (nat_of_ascii c - 48).

Fixpoint digits_value (acc : Z) (s : string) : Z :=
  match s with
  | EmptyString => acc
  | String c r => digits_value (10 * acc + digit_value c) r
  end.

(** [int(s)] on a string of digits. *)
Definition int_of_digits (s : string) : Z := digits_value 0 s.

(** [str.isdigit] on one character of the whole range: the decimal digits
    and the superscripts two, three and one (code points 178, 179 and
    185). *)
Definition is_unicode_digit (c : ascii) : bool :=
  is_digit c || existsb (Nat.eqb (nat_of_ascii c)) [178; 179; 185]%nat.

(** [s.isdigit()] on the whole range. *)
Definition str_isdigit (s : string) : bool :=
  negb (String.eqb s "") && all_chars is_unicode_digit s.

(** The limit of [int] on the number of digits of a text
    ([sys.int_info.default_max_str_digits], CPython 3.11 and later). *)
Definition max_str_digits : nat := 4300.

(** [int(s)] for a text with [s.isdigit()]: a superscript is a digit of no
    decimal literal, and a text of more digits than the limit is refused;
    both raise [ValueError]. *)
Definition int_of_text (s : string) : result Z :=
  if all_chars is_digit s && (String.length s <=? max_str_digits)%nat
  then Ok (int_of_digits s)
  else Raise ValueError.

(** ** Dictionaries *)

(** [d.get(k)] *)
Fixpoint dict_get (k : string) (d : dict) : option Value :=
  match d with
  | [] => None
  | (k', v) :: r => if String.eqb k k' then Some v else dict_get k r
  end.

(** [k in d] *)
Definition dict_has (k : string) (d : dict) : bool :=
  match dict_get k d with Some _ => true | None => false end.

(** [d[k] = v]: an existing key keeps its place. *)
Fixpoint dict_set (k : string) (v : Value) (d : dict) : dict :=
  match d with
  | [] => [(k, v)]
  | (k', v') :: r =>
      if String.eqb k k' then (k, v) :: r else (k', v') :: dict_set k v r
  end.

(** [d.update(e)] *)
Definition dict_update (d e : dict) : dict :=
  fold_left (fun acc kv => dict_set (fst kv) (snd kv) acc) e d.

(** Lookup in continuation form, so that a walk can recurse into the
    value it finds. *)
Definition dict_elim {A} (k : string) (some : Value -> A) (none : A)
  : dict -> A :=
  fix go (d : dict) : A :=
    match d with
    | [] => none
    | (k', v) :: r => if String.eqb k k' then some v else go r
    end.

(** ** Equality, truth and hashing *)

(** Exact comparison of a float with an integer, as [int == float]. *)
Definition float_eq_Z (f : spec_float) (z : Z) : bool :=
  match f with
  | S754_zero _ => (z =? 0)%Z
  | S754_finite s m e =>
      let zm := cond_Zopp s (Zpos m) in
      if (0 <=? e)%Z then (z =? zm * 2 ^ e)%Z
      else ((zm mod 2 ^ (- e) =? 0) && (z =? zm / 2 ^ (- e)))%Z
  | _ => false
  end.

Definition Z_of_bool (b : bool) : Z := if b then 1%Z else 0%Z.

(** [a == b] *)
Fixpoint py_eq (a b : Value) {struct a} : bool :=
  match a, b with
  | VNone, VNone => true
  | VBool x, VBool y => Bool.eqb x y
  | VBool x, VInt z | VInt z, VBool x => (Z_of_bool x =? z)%Z
  | VBool x, VFloat f | VFloat f, VBool x => float_eq_Z f (Z_of_bool x)
  | VInt x, VInt y => (x =? y)%Z
  | VInt z, VFloat f | VFloat f, VInt z => float_eq_Z f z
  | VFloat f, VFloat g => SFeqb f g
  | VStr s, VStr t => String.eqb s t
  | VList l, VList m =>
      (fix go (l m : list Value) : bool :=
         match l, m with
         | [], [] => true
         | x :: l', y :: m' => py_eq x y && go l' m'
         | _, _ => false
         end) l m
  | VDict d, VDict e =>
      (List.length d =? List.length e)%nat &&
      (fix go (d : dict) : bool :=
         match d with
         | [] => true
         | (k, v) :: r =>
             match dict_get k e with
             | Some w => py_eq v w && go r
             | None => false
             end
         end) d
  | _, _ => false
  end.

(** [bool(v)] *)
Definition truthy (v : Value) : bool :=
  match v with
  | VNone => false
  | VBool b => b
  | VInt z => negb (z =? 0)%Z
  | VFloat (S754_zero _) => false
  | VFloat _ => true
  | VStr s => negb (String.eqb s "")
  | VList l => match l with [] => false | _ => true end
  | VDict d => match d with [] => false | _ => true end
  end.

(** Lists and dicts are unhashable: using one as a set member or as a
    dict key raises [TypeError]. *)
Definition hashable (v : Value) : bool :=
  match v with
  | VList _ | VDict _ => false
  | _ => true
  end.

(** [v in {s1, s2, ...}] for a set of string literals. *)
Definition in_str_set (v : Value) (set : list string) : result bool :=
  if hashable v then
    Ok (match v with
        | VStr s => existsb (String.eqb s) set
        | _ => false
        end)
  else Raise TypeError.

(** [d.get(k)], [None] when the key is absent. *)
Definition get (k : string) (d : dict) : Value :=
  match dict_get k d with Some v => v | None => VNone end.

(** [d.get(k, default)] *)
Definition get_default (k : string) (default : Value) (d : dict) : Value :=
  match dict_get k d with Some v => v | None => default end.

(** [v.items()]: only a dict has the method. *)
Definition items (v : Value) : result dict :=
  match v with
  | VDict d => Ok d
  | _ => Raise AttributeError
  end.

(** [v.lower()]: only a str has the method. *)
Definition str_lower (v : Value) : result string :=
  match v with
  | VStr s => Ok (lower s)
  | _ => Raise AttributeError
  end.

(** ** f-strings and diagnostics *)

Inductive piece : Type :=
| Lit : string -> piece
| Fmt : Value -> piece.

Definition fstring : Type := list piece.

(** The list [self.errors] a check appends, or the exception it raises. *)
Definition checks : Type := result (list fstring).

Definition seq (a b : checks) : checks :=
  let* xs := a in let* ys := b in Ok (xs ++ ys).

Notation "a ;; b" := (seq a b) (at level 61, right associativity).

Definition append (msg : fstring) : checks := Ok [msg].
Definition pass : checks := Ok [].

(** [for i, x in enumerate(xs): body] *)
Definition for_enumerate (body : nat -> Value -> checks)
  : list Value -> nat -> checks :=
  fix go (xs : list Value) (i : nat) : checks :=
    match xs with
    | [] => pass
    | x :: r => body i x ;; go r (S i)
    end.

(** [for key, value in d.items(): body] *)
Definition for_items (body : string -> Value -> checks) : dict -> checks :=
  fix go (d : dict) : checks :=
    match d with
    | [] => pass
    | (k, v) :: r => body k v ;; go r
    end.

(** ** The schema model: [syntax_nodes] *)

(** The dict [nodes] of [_extract_syntax_nodes]: its keys are the
    [node_type] values as written and the lower-cased declaration names. *)
Definition nodes_map : Type := list (Value * Value).

Fixpoint nodes_get (k : Value) (m : nodes_map) : option Value :=
  match m with
  | [] => None
  | (k', v) :: r => if py_eq k k' then Some v else nodes_get k r
  end.

Fixpoint nodes_set (k v : Value) (m : nodes_map) : nodes_map :=
  match m with
  | [] => [(k, v)]
  | (k', v') :: r =>
      if py_eq k k' then (k', v) :: r else (k', v') :: nodes_set k v r
  end.

(** [k in nodes] *)
Definition nodes_has (k : Value) (m : nodes_map) : result bool :=
  if hashable k then
    Ok (match nodes_get k m with Some _ => true | None => false end)
  else Raise TypeError.

(** [_get_syntax_definitions]; the same choice between [syntax['root']]
    and [syntax] opens [_extract_syntax_nodes]. *)
Definition _get_syntax_definitions (syntax : dict) : Value :=
  match dict_get "root" syntax with
  | Some data => data
  | None => VDict syntax
  end.

(** One turn of the loop of [_extract_syntax_nodes]. *)
Definition register (nodes : nodes_map) (key : string) (value : Value)
  : result nodes_map :=
  match value with
  | VDict def =>
      match dict_get "node_type" def with
      | Some node_type =>
          if hashable node_type
          then Ok (nodes_set (VStr (lower key)) value
                     (nodes_set node_type value nodes))
          else Raise TypeError
      | None => Ok nodes
      end
  | _ => Ok nodes
  end.

Fixpoint register_all (nodes : nodes_map) (data : dict) : result nodes_map :=
  match data with
  | [] => Ok nodes
  | (key, value) :: r =>
      let* nodes' := register nodes key value in register_all nodes' r
  end.

(** [_extract_syntax_nodes], the same in both classes. *)
Definition _extract_syntax_nodes (syntax : dict) : result nodes_map :=
  let* data := items (_get_syntax_definitions syntax) in
  register_all [] data.

(** ** ASTValidator *)

Module ASTValidator.

Record t : Type := mk {
  syntax : dict;
  ast : dict;
  syntax_nodes : nodes_map
}.

(** [__init__] *)
Definition init (syntax_data ast_data : dict) : result t :=
  let* nodes := _extract_syntax_nodes syntax_data in
  Ok (mk syntax_data ast_data nodes).

Definition common_types : list string :=
  ["root"; "heading"; "paragraph"; "text"; "strong"; "emphasis";
   "blockquote"; "list"; "listItem"; "codeBlock"; "inlineCode";
   "thematicBreak"; "link"; "image"; "delete"].

Definition _is_valid_node_type (self : t) (node_type : Value) : result bool :=
  let* common := in_str_set node_type common_types in
  if common then Ok true else
  let* exact := nodes_has node_type (syntax_nodes self) in
  if exact then Ok true else
  let* lowered := str_lower node_type in
  nodes_has (VStr lowered) (syntax_nodes self).

Definition block_types : list string :=
  ["heading"; "paragraph"; "blockquote"; "list"; "codeBlock";
   "thematicBreak"].

Definition inline_types : list string :=
  ["text"; "strong"; "emphasis"; "inlineCode"; "link"; "image"; "delete"].

Definition _can_be_child_of (child_type parent_type : Value) : result bool :=
  if py_eq parent_type (VStr "root") then in_str_set child_type block_types
  else if py_eq parent_type (VStr "paragraph")
  then in_str_set child_type inline_types
  else
    let* emph := in_str_set parent_type ["strong"; "emphasis"] in
    if emph then in_str_set child_type inline_types
    else if py_eq parent_type (VStr "list")
    then Ok (py_eq child_type (VStr "listItem"))
    else if py_eq parent_type (VStr "listItem")
    then in_str_set child_type block_types
    else if py_eq parent_type (VStr "blockquote")
    then in_str_set child_type block_types
    else Ok true.

Definition frontmatter_msg : fstring :=
  [Lit "Frontmatter node must be first child of Document"].

Definition _validate_position_rules
  (node_type : Value) (parent_type : option Value) (position : nat) : checks :=
  let* lowered := str_lower node_type in
  if String.eqb lowered "frontmatter" && (0 <? position)%nat
  then append frontmatter_msg
  else pass.

Definition missing_attr_msg (kind attr : string) : fstring :=
  [Lit (kind ++ " node missing required '" ++ attr ++ "' attribute")].

Definition _validate_attributes (node_type : Value) (node : dict) : checks :=
  (if py_eq node_type (VStr "heading") && negb (dict_has "depth" node)
   then append (missing_attr_msg "Heading" "depth") else pass) ;;
  (if py_eq node_type (VStr "link") && negb (dict_has "url" node)
   then append (missing_attr_msg "Link" "url") else pass) ;;
  (if py_eq node_type (VStr "image")
   then (if negb (dict_has "url" node)
         then append (missing_attr_msg "Image" "url") else pass) ;;
        (if negb (dict_has "alt" node)
         then append (missing_attr_msg "Image" "alt") else pass)
   else pass).

Definition missing_type_msg (node : dict) : fstring :=
  [Lit "Node missing 'type' field: "; Fmt (VDict node)].

Definition unknown_type_msg (node_type : Value) : fstring :=
  [Lit "Unknown node type: "; Fmt node_type].

(** The parent-child test of step 2: its verdict is dropped ([pass] in
    both branches), only an exception of the test would show. *)
Definition containment (node_type : Value) (parent_type : option Value)
  : checks :=
  match parent_type with
  | Some p =>
      if truthy p
      then let* ok := _can_be_child_of node_type p in pass
      else pass
  | None => pass
  end.

(** [_validate_node].  Its callers pass a mapping; another value is
    outside its domain. *)
Fixpoint _validate_node (self : t) (node : Value)
  (parent_type : option Value) (position : nat) {struct node} : checks :=
  match node with
  | VDict d =>
      match dict_get "type" d with
      | None => append (missing_type_msg d)
      | Some node_type =>
          let* valid := _is_valid_node_type self node_type in
          if negb valid then append (unknown_type_msg node_type) else
          containment node_type parent_type ;;
          _validate_position_rules node_type parent_type position ;;
          dict_elim "children"
            (fun children =>
               match children with
               | VList cs =>
                   for_enumerate
                     (fun i child =>
                        match child with
                        | VDict _ =>
                            _validate_node self child (Some node_type) i
                        | _ => pass
                        end) cs 0
               | _ => pass
               end)
            pass d ;;
          _validate_attributes node_type d
      end
  | _ => Raise TypeError
  end.

(** [collect_nodes], the local function of [_collect_ast_nodes]: the
    appended nodes in order. *)
Fixpoint collect_nodes (node : Value) : list dict :=
  match node with
  | VDict d =>
      (if dict_has "type" d then [d] else []) ++
      flat_map
        (fun kv =>
           match kv with
           | (key, value) =>
               match value with
               | VList cs =>
                   if String.eqb key "children"
                   then flat_map collect_nodes cs
                   else collect_nodes value
               | _ => collect_nodes value
               end
           end) d
  | VList l => flat_map collect_nodes l
  | _ => []
  end.

Definition _collect_ast_nodes (self : t) : list dict :=
  collect_nodes (VDict (ast self)).

Definition coverage_depth_msg (syntax_name : string) (required_depth : Value)
  : fstring :=
  [Lit "Syntax defines "; Fmt (VStr syntax_name);
   Lit " (heading depth "; Fmt required_depth;
   Lit ") but AST has no example heading with depth "; Fmt required_depth].

Definition coverage_type_msg (syntax_name : string) (node_type : Value)
  : fstring :=
  [Lit "Syntax defines "; Fmt (VStr syntax_name);
   Lit " (node_type: "; Fmt node_type;
   Lit ") but AST has no example of this node type"].

(** The conversion of a string-encoded depth of the syntax to an int:
    [if isinstance(required_depth, str) and required_depth.isdigit():
     required_depth = int(required_depth)]. *)
Definition coerce_depth (required_depth : Value) : result Value :=
  match required_depth with
  | VStr s =>
      if str_isdigit s
      then let* depth := int_of_text s in Ok (VInt depth)
      else Ok required_depth
  | _ => Ok required_depth
  end.

Definition found_depth (ast_nodes : list dict) (required_depth : Value)
  : bool :=
  existsb (fun ast_node =>
             py_eq (get "type" ast_node) (VStr "heading") &&
             py_eq (get "depth" ast_node) required_depth) ast_nodes.

Definition found_type (ast_nodes : list dict) (node_type : Value) : bool :=
  existsb (fun ast_node => py_eq (get "type" ast_node) node_type) ast_nodes.

(** The body of the loop of [_validate_syntax_coverage]. *)
Definition coverage_entry (ast_nodes : list dict)
  (syntax_name : string) (syntax_def : Value) : checks :=
  match syntax_def with
  | VDict def =>
      match dict_get "node_type" def with
      | Some node_type =>
          if py_eq node_type (VStr "heading") && dict_has "depth" def then
            let* required_depth := coerce_depth (get "depth" def) in
            if negb (found_depth ast_nodes required_depth)
            then append (coverage_depth_msg syntax_name required_depth)
            else pass
          else
            if negb (found_type ast_nodes node_type)
            then append (coverage_type_msg syntax_name node_type)
            else pass
      | None => pass
      end
  | _ => pass
  end.

Definition _validate_syntax_coverage (self : t) : checks :=
  let ast_nodes := _collect_ast_nodes self in
  let* syntax_definitions := items (_get_syntax_definitions (syntax self)) in
  for_items (coverage_entry ast_nodes) syntax_definitions.

(** The loop of step 1 of [validate] over the items of [ast_root]. *)
Definition validate_top (self : t) (key : string) (value : Value) : checks :=
  match value with
  | VDict node =>
      if dict_has "type" node then _validate_node self value None 0
      else if String.eqb (lower key) "rootnode"
      then _validate_node self value None 0
      else pass
  | _ => pass
  end.

Definition ast_root (self : t) : Value :=
  match dict_get "root" (ast self) with
  | Some r => r
  | None => VDict (ast self)
  end.

Definition structural_walk (self : t) : checks :=
  match ast_root self with
  | VDict d => for_items (validate_top self) d
  | _ => pass
  end.

Definition validate (self : t) : checks :=
  structural_walk self ;; _validate_syntax_coverage self.

End ASTValidator.

(** ** DisplayHintsGenerator *)

Module DisplayHintsGenerator.

Record t : Type := mk {
  syntax : dict;
  ast : dict;
  syntax_nodes : nodes_map
}.

(** [__init__] *)
Definition init (syntax_data ast_data : dict) : result t :=
  let* nodes := _extract_syntax_nodes syntax_data in
  Ok (mk syntax_data ast_data nodes).

Definition block_types : list string :=
  ["heading"; "paragraph"; "blockquote"; "list"; "listItem"; "codeBlock";
   "thematicBreak"].

Definition inline_types : list string :=
  ["text"; "strong"; "emphasis"; "inlineCode"; "link"; "image"; "delete"].

Definition _determine_style (node_type : Value) : result string :=
  if py_eq node_type (VStr "root") then Ok "container" else
  let* block := in_str_set node_type block_types in
  if block then Ok "block" else
  let* inline := in_str_set node_type inline_types in
  if inline then Ok "inline" else Ok "unknown".

Definition info (style decoration markdown_syntax : Value) : dict :=
  [("style", style); ("decoration", decoration);
   ("markdown_syntax", markdown_syntax)].

Definition entry (name style decoration markdown_syntax : string)
  : string * dict :=
  (name, info (VStr style) (VStr decoration) (VStr markdown_syntax)).

Definition display_map : list (string * dict) :=
  [entry "root" "container" "" "";
   entry "heading" "block" "#" "#";
   entry "paragraph" "block" "" "";
   entry "text" "inline" "" "";
   entry "strong" "inline" "**" "**";
   entry "emphasis" "inline" "*" "*";
   entry "blockquote" "block" ">" ">";
   entry "list" "block" "-" "-";
   entry "listItem" "block" "-" "-";
   entry "codeBlock" "block" "```" "```";
   entry "inlineCode" "inline" "`" "`";
   entry "thematicBreak" "block" "---" "---";
   entry "link" "inline" "[]()" "[text](url)";
   entry "image" "inline" "![]()" "![alt](url)";
   entry "delete" "inline" "~~" "~~"].

Fixpoint display_map_get (k : string) (m : list (string * dict))
  : option dict :=
  match m with
  | [] => None
  | (k', i) :: r => if String.eqb k k' then Some i else display_map_get k r
  end.

Definition unknown_info : dict := info (VStr "unknown") (VStr "") (VStr "").

Definition _get_display_info (self : t) (node_type : Value) : result dict :=
  let* known := nodes_has node_type (syntax_nodes self) in
  if known then
    let syntax_info :=
      match nodes_get node_type (syntax_nodes self) with
      | Some i => i
      | None => VNone
      end in
    let* style := _determine_style node_type in
    let* syntax_info := items syntax_info in
    Ok (info (VStr style)
          (get_default "markdown_syntax" (VStr "") syntax_info)
          (get_default "markdown_syntax" (VStr "") syntax_info))
  else
    Ok (match node_type with
        | VStr s =>
            match display_map_get s display_map with
            | Some i => i
            | None => unknown_info
            end
        | _ => unknown_info
        end).

(** [for x in xs: p = f(x); if p: out.append(p)] *)
Definition keep_truthy (f : Value -> result Value)
  : list Value -> result (list Value) :=
  fix go (xs : list Value) : result (list Value) :=
    match xs with
    | [] => Ok []
    | x :: r =>
        let* p := f x in
        let* rest := go r in
        Ok (if truthy p then p :: rest else rest)
    end.

(** [for key, value in d.items(): p = f(value); if p: result[key] = p] *)
Definition keep_truthy_items (f : Value -> result Value)
  : dict -> dict -> result dict :=
  fix go (d : dict) (acc : dict) : result dict :=
    match d with
    | [] => Ok acc
    | (key, value) :: r =>
        let* p := f value in
        go r (if truthy p then dict_set key p acc else acc)
    end.

(** The loop copying the attributes of a node under prefixed keys. *)
Definition copy_attributes (data hints : dict) : dict :=
  fold_left
    (fun hints kv =>
       if String.eqb (fst kv) "type" || String.eqb (fst kv) "children"
       then hints
       else dict_set ("attr_" ++ fst kv) (snd kv) hints)
    data hints.

Fixpoint _generate_simple_hints (self : t) (data : Value) {struct data}
  : result Value :=
  match data with
  | VDict d =>
      match dict_get "type" d with
      | Some node_type =>
          let* display_info := _get_display_info self node_type in
          let hints :=
            [("type", node_type);
             ("style", get_default "style" (VStr "unknown") display_info);
             ("decoration", get_default "decoration" (VStr "") display_info);
             ("markdown_syntax",
              get_default "markdown_syntax" (VStr "") display_info)] in
          let hints := copy_attributes d hints in
          let* hints :=
            dict_elim "children"
              (fun children =>
                 match children with
                 | VList cs =>
                     let* children_hints :=
                       keep_truthy (_generate_simple_hints self) cs in
                     Ok (if truthy (VList children_hints)
                         then dict_set "children" (VList children_hints) hints
                         else hints)
                 | _ => Ok hints
                 end)
              (Ok hints) d in
          Ok (VDict hints)
      | None =>
          let* result :=
            keep_truthy_items (_generate_simple_hints self) d [] in
          Ok (VDict result)
      end
  | VList l =>
      let* result := keep_truthy (_generate_simple_hints self) l in
      Ok (VList result)
  | _ => Ok data
  end.

(** The search loop of [generate]: the first value under a root name,
    or the first node-shaped value. *)
Fixpoint find_root (ast_data : dict) : option Value :=
  match ast_data with
  | [] => None
  | (key, value) :: r =>
      if existsb (String.eqb (lower key)) ["rootnode"; "document"]
         || match value with
            | VDict node => dict_has "type" node
            | _ => false
            end
      then Some value
      else find_root r
  end.

Definition root_node (self : t) : Value :=
  match find_root (ast self) with
  | Some v => if truthy v then v else VDict (ast self)
  | None => VDict (ast self)
  end.

(** [generate]: [None] also stands for the fault its [except] swallows. *)
Definition generate (self : t) : option Value :=
  if negb (truthy (root_node self)) then None else
  match _generate_simple_hints self (root_node self) with
  | Ok hints =>
      if truthy hints then Some (VDict [("display_hints", hints)]) else None
  | Raise _ => None
  end.

End DisplayHintsGenerator.

(** ** Text scanning *)

Definition tab : ascii := ascii_of_nat 9.
Definition newline : ascii := ascii_of_nat 10.
Definition quote : ascii := ascii_of_nat 34.
Definition backslash : ascii := ascii_of_nat 92.

(** [c in chars] for a character [c] *)
Definition in_chars (chars : list ascii) (c : ascii) : bool :=
  existsb (Ascii.eqb c) chars.

(** [str.isspace] on one character. *)
Definition is_space (c : ascii) : bool :=
  let n := nat_of_ascii c in
  ((9 <=? n)%nat && (n <=? 13)%nat) || ((28 <=? n)%nat && (n <=? 32)%nat).

(** The longest prefix whose characters satisfy [p], and what follows:
    [while i < len(s) and p(s[i]): i += 1]. *)
Fixpoint span (p : ascii -> bool) (s : string) : string * string :=
  match s with
  | EmptyString => (EmptyString, EmptyString)
  | String c r =>
      if p c then let (a, b) := span p r in (String c a, b)
      else (EmptyString, s)
  end.

Definition drop_while (p : ascii -> bool) (s : string) : string :=
  snd (span p s).

Fixpoint rstrip_chars (p : ascii -> bool) (s : string) : string :=
  match s with
  | EmptyString => EmptyString
  | String c r =>
      match rstrip_chars p r with
      | EmptyString => if p c then EmptyString else String c EmptyString
      | r' => String c r'
      end
  end.

Definition strip_chars (p : ascii -> bool) (s : string) : string :=
  rstrip_chars p (drop_while p s).

(** [s.strip()] *)
Definition strip (s : string) : string := strip_chars is_space s.

(** [s.strip(q)] with [q] the double quote character *)
Definition strip_quotes (s : string) : string :=
  strip_chars (Ascii.eqb quote) s.

(** [s.split(sep)] for a one-character separator. *)
Fixpoint split_on (sep : ascii) (s : string) : list string :=
  match s with
  | EmptyString => [EmptyString]
  | String c r =>
      if Ascii.eqb c sep then EmptyString :: split_on sep r
      else match split_on sep r with
           | [] => [String c EmptyString]
           | w :: ws => String c w :: ws
           end
  end.

(** [sep.join(parts)] *)
Fixpoint join (sep : string) (parts : list string) : string :=
  match parts with
  | [] => EmptyString
  | [w] => w
  | w :: ws => w ++ sep ++ join sep ws
  end.

(** [c in s] for a character [c] *)
Fixpoint contains_char (c : ascii) (s : string) : bool :=
  match s with
  | EmptyString => false
  | String c' r => Ascii.eqb c c' || contains_char c r
  end.

(** [sub in s] *)
Fixpoint contains (sub s : string) : bool :=
  prefix sub s ||
  match s with
  | EmptyString => false
  | String _ r => contains sub r
  end.

(** [s.find(c)] *)
Fixpoint find (c : ascii) (s : string) : option nat :=
  match s with
  | EmptyString => None
  | String c' r =>
      if Ascii.eqb c c' then Some O else option_map S (find c r)
  end.

(** [s.rfind(c)] *)
Fixpoint rfind (c : ascii) (s : string) : option nat :=
  match s with
  | EmptyString => None
  | String c' r =>
      match rfind c r with
      | Some i => Some (S i)
      | None => if Ascii.eqb c c' then Some O else None
      end
  end.

(** [s[:n]] *)
Fixpoint take (n : nat) (s : string) : string :=
  match n, s with
  | S n', String c r => String c (take n' r)
  | _, _ => EmptyString
  end.

(** [s[n:]] *)
Fixpoint drop (n : nat) (s : string) : string :=
  match n, s with
  | S n', String _ r => drop n' r
  | _, _ => s
  end.

(** [i < len(s) and s[i] == c] *)
Definition starts_with (c : ascii) (s : string) : bool :=
  match s with
  | EmptyString => false
  | String c' _ => Ascii.eqb c' c
  end.

(** [s[a:b]] *)
Definition slice (a b : nat) (s : string) : string :=
  take (b - a) (drop a s).

(** [s[:-1]] as the slice [content[start:i-1]] takes it. *)
Fixpoint drop_last (s : string) : string :=
  match s with
  | EmptyString => EmptyString
  | String c EmptyString => EmptyString
  | String c r => String c (drop_last r)
  end.

(** The scan of a quoted string after its opening quote: the text up to
    the closing quote, a backslash taking the next character with it, and
    what follows the closing quote. *)
Fixpoint scan_string (s : string) : string * string :=
  match s with
  | EmptyString => (EmptyString, EmptyString)
  | String c r =>
      if Ascii.eqb c quote then (EmptyString, r)
      else if Ascii.eqb c backslash then
        match r with
        | EmptyString => (String c EmptyString, EmptyString)
        | String c2 r2 =>
            let (v, rest) := scan_string r2 in (String c (String c2 v), rest)
        end
      else let (v, rest) := scan_string r in (String c v, rest)
  end.

(** The counting scan [while i < len and count > 0] over an opening and a
    closing character: the characters passed, the closing one included,
    and what follows. *)
Fixpoint scan_nested (opening closing : ascii) (count : nat) (s : string)
  : string * string :=
  match s with
  | EmptyString => (EmptyString, EmptyString)
  | String c r =>
      let count' :=
        if Ascii.eqb c opening then S count
        else if Ascii.eqb c closing then pred count
        else count in
      match count' with
      | O => (String c EmptyString, r)
      | _ => let (a, b) := scan_nested opening closing count' r in
             (String c a, b)
      end
  end.

(** The scan of an unrecognised value: up to a comma at brace depth 0. *)
Fixpoint scan_fallback (brace_count : Z) (s : string) : string * string :=
  match s with
  | EmptyString => (EmptyString, EmptyString)
  | String c r =>
      if Ascii.eqb c "{" then
        let (a, b) := scan_fallback (brace_count + 1) r in (String c a, b)
      else if Ascii.eqb c "}" then
        let (a, b) := scan_fallback (brace_count - 1) r in (String c a, b)
      else if Ascii.eqb c "," && (brace_count =? 0)%Z then (EmptyString, s)
      else let (a, b) := scan_fallback brace_count r in (String c a, b)
  end.

(** [float(n / 10^k)], correctly rounded to binary64. *)
Definition decimal_float (negative : bool) (n : Z) (k : nat) : spec_float :=
  match n with
  | Zpos p =>
      SFdiv 53 1024 (S754_finite negative p 0)
        (S754_finite false (Z.to_pos (10 ^ Z.of_nat k)) 0)
  | _ => S754_zero negative
  end.

(** [float(s)] for a text of digits, dots and minus signs. *)
Definition float_of_string (s : string) : result spec_float :=
  let (negative, body) :=
    match s with
    | String "-" r => (true, r)
    | _ => (false, s)
    end in
  let (whole, rest) := span is_digit body in
  match rest with
  | EmptyString =>
      if String.eqb whole "" then Raise ValueError
      else Ok (decimal_float negative (int_of_digits whole) 0)
  | String "." fraction =>
      if all_chars is_digit fraction
         && negb (String.eqb whole "" && String.eqb fraction "")
      then Ok (decimal_float negative (int_of_digits (whole ++ fraction))
                 (String.length fraction))
      else Raise ValueError
  | _ => Raise ValueError
  end.

(** ** ASTSyntaxChecker: the notation parser *)

Module ASTSyntaxChecker.

(** A loop of the parser runs on fuel, one unit for each turn; [None] is
    fuel run out, which the length of the text rules out (see the
    properties of the parser below). *)
Definition comp (A : Type) : Type := option (result A).

Definition blanks : list ascii := [" "%char; tab; newline].
Definition separators : list ascii := [" "%char; tab; newline; ","%char].

(** The value of [Some( ... )]. *)
Definition optional_value (value_content : string) : Value :=
  if isdigit value_content then VInt (int_of_digits value_content)
  else if String.eqb value_content "true" then VBool true
  else if String.eqb value_content "false" then VBool false
  else VStr (strip_quotes value_content).

(** [int(value) if value.isdigit() else float(value)] *)
Definition numeric_value (value : string) : result Value :=
  if isdigit value then Ok (VInt (int_of_digits value))
  else let* f := float_of_string value in Ok (VFloat f).

(** [structure_loop] is the [while] loop of [_parse_ron_structure] on the
    text from index [i] on, [array_loop] the main loop of
    [_parse_ron_array]; [out] and [array_content] are the values built so
    far. *)
Fixpoint structure_loop (fuel : nat) (s : string) (out : dict) {struct fuel}
  : comp dict :=
  match fuel with
  | O => None
  | S fuel' =>
      match drop_while (in_chars separators) s with
      | EmptyString => Some (Ok out)
      | s1 =>
          let (key_text, s2) := span (fun c => negb (Ascii.eqb c ":")) s1 in
          match s2 with
          | EmptyString => Some (Ok out)
          | String _ s3 =>
              let key := strip key_text in
              match drop_while (in_chars blanks) s3 with
              | EmptyString => Some (Ok out)
              | String c r as s4 =>
                  if Ascii.eqb c quote then
                    let (value, rest) := scan_string r in
                    structure_loop fuel' rest (dict_set key (VStr value) out)
                  else if Ascii.eqb c "[" then
                    match array_loop fuel' (drop_while (in_chars blanks) r) []
                    with
                    | None => None
                    | Some (Raise e) => Some (Raise e)
                    | Some (Ok (array_content, rest)) =>
                        structure_loop fuel' rest
                          (dict_set key (VList array_content) out)
                    end
                  else if prefix "Some" s4 then
                    let s5 := drop 4 s4 in
                    if starts_with "(" s5 then
                      let (passed, rest) :=
                        scan_nested "(" ")" 1 (drop 1 s5) in
                      structure_loop fuel' rest
                        (dict_set key (optional_value (drop_last passed)) out)
                    else structure_loop fuel' s5 out
                  else if is_digit c || Ascii.eqb c "-" then
                    let (value, rest) :=
                      span (fun c => is_digit c
                                     || in_chars ["."%char; "-"%char] c) s4 in
                    match numeric_value value with
                    | Ok v => structure_loop fuel' rest (dict_set key v out)
                    | Raise e => Some (Raise e)
                    end
                  else if prefix "true" s4 then
                    structure_loop fuel' (drop 4 s4)
                      (dict_set key (VBool true) out)
                  else if prefix "false" s4 then
                    structure_loop fuel' (drop 5 s4)
                      (dict_set key (VBool false) out)
                  else
                    let (text, rest) := scan_fallback 0 s4 in
                    let value := strip text in
                    structure_loop fuel' rest
                      (if String.eqb value "" then out
                       else dict_set key (VStr value) out)
              end
          end
      end
  end

with array_loop (fuel : nat) (s : string) (array_content : list Value)
  {struct fuel} : comp (list Value * string) :=
  match fuel with
  | O => None
  | S fuel' =>
      match s with
      | EmptyString => Some (Ok (array_content, EmptyString))
      | String c r =>
          if Ascii.eqb c "]" then Some (Ok (array_content, r))
          else if in_chars separators c then array_loop fuel' r array_content
          else if is_upper c then
            let (node_type, s1) :=
              span (fun c => negb (in_chars [" "%char; tab; newline; "{"%char]
                                     c)) s in
            let s2 := drop_while (in_chars blanks) s1 in
            if starts_with "{" s2 then
              let (passed, rest) := scan_nested "{" "}" 1 (drop 1 s2) in
              let node_content := drop_last passed in
              match structure_loop fuel' node_content [] with
              | None => None
              | Some (Raise e) => Some (Raise e)
              | Some (Ok parsed_node) =>
                  array_loop fuel' rest (array_content ++ [VDict parsed_node])
              end
            else array_loop fuel' s2 array_content
          else
            let (text, rest) :=
              span (fun c => negb (in_chars [","%char; "]"%char] c)) s in
            let value := strip_quotes (strip text) in
            array_loop fuel' rest
              (if String.eqb value "" then array_content
               else array_content ++ [VStr value])
      end
  end.

Definition _parse_ron_structure (content : string) : comp dict :=
  structure_loop (S (String.length content)) content [].

(** [_parse_ron_object]: any exception ends in the empty dict. *)
Definition _parse_ron_object (content : string) : option dict :=
  if negb (contains_char "{" content) then Some [] else
  match find "{" content, rfind "}" content with
  | Some brace_start, Some brace_end =>
      let inner_content := strip (slice (brace_start + 1) brace_end content) in
      match _parse_ron_structure inner_content with
      | None => None
      | Some (Ok parsed) => Some parsed
      | Some (Raise _) => Some []
      end
  | _, _ => Some []
  end.

(** One turn of the property loop of [_parse_syntax_node]. *)
Definition parse_property (properties : dict) (prop : string) : dict :=
  let prop := strip prop in
  if contains_char ":" prop then
    let (key, rest) := span (fun c => negb (Ascii.eqb c ":")) prop in
    let value := drop 1 rest in
    dict_set (strip key) (VStr (strip_quotes (strip value))) properties
  else properties.

Definition _parse_syntax_node (node_line : string) : dict :=
  if negb (contains_char "{" node_line) then [] else
  let (name, rest) := span (fun c => negb (Ascii.eqb c "{")) node_line in
  let node_name := strip name in
  let content := drop 1 rest in
  let content :=
    match rfind "}" content with
    | Some i => take i content
    | None => content
    end in
  let properties := fold_left parse_property (split_on "," content) [] in
  [(node_name, VDict properties)].

(** [node_data = _parse_syntax_node(current_node);
     if node_data: result.update(node_data)] *)
Definition flush (out : dict) (current_node : string) : dict :=
  if String.eqb current_node "" then out else
  let node_data := _parse_syntax_node current_node in
  if truthy (VDict node_data) then dict_update out node_data else out.

(** One turn of the line loop of the syntax format: the result and
    [current_node]. *)
Definition syntax_line (state : dict * string) (line : string)
  : dict * string :=
  let (out, current_node) := state in
  let line := strip line in
  if negb (String.eqb line "") && contains_char "{" line
  then (flush out current_node, line)
  else if negb (String.eqb line "") && negb (String.eqb current_node "")
  then (out, (current_node ++ " " ++ line)%string)
  else (out, current_node).

Definition parse_syntax_format (content : string) : dict :=
  let (out, current_node) :=
    fold_left syntax_line (split_on newline content) ([], EmptyString) in
  flush out current_node.

(** The comment filter at the head of [_parse_ron_content]. *)
Definition strip_comments (content : string) : string :=
  strip
    (join (String newline EmptyString)
       (filter (fun line =>
                  negb (String.eqb (strip line) "")
                  && negb (prefix "#" (strip line)))
          (split_on newline content))).

Definition _parse_ron_content (content : string) : option dict :=
  let content := strip_comments content in
  if String.eqb content "" then Some []
  else if prefix "RootNode" content || prefix "Document" content
  then _parse_ron_object content
  else if contains_char "{" content && contains "node_type" content
  then Some (parse_syntax_format content)
  else Some [("raw_content", VStr content)].

End ASTSyntaxChecker.

(** ** Notions used in the statements *)

(** [str(v)] of a scalar; [str] of a float or of a container is not
    modelled. *)
Definition py_str (v : Value) : option string :=
  match v with
  | VNone => Some "None"
  | VBool true => Some "True"
  | VBool false => Some "False"
  | VInt z => Some (NilZero.string_of_int (Z.to_int z))
  | VStr s => Some s
  | _ => None
  end.

(** The text of an f-string. *)
Fixpoint render (m : fstring) : option string :=
  match m with
  | [] => Some EmptyString
  | Lit s :: r => option_map (String.append s) (render r)
  | Fmt v :: r =>
      match py_str v, render r with
      | Some s, Some t => Some (s ++ t)%string
      | _, _ => None
      end
  end.

(** A value whose text can hold the word [w], in any case. *)
Fixpoint value_mentions (w : string) (v : Value) : bool :=
  match v with
  | VStr s => contains w (lower s)
  | VList l => existsb (value_mentions w) l
  | VDict d =>
      existsb (fun kv => contains w (lower (fst kv))
                         || value_mentions w (snd kv)) d
  | _ => false
  end.

(** A diagnostic mentioning the word [w], in any case. *)
Definition mentions (w : string) (m : fstring) : bool :=
  existsb (fun p => match p with
                    | Lit s => contains w (lower s)
                    | Fmt v => value_mentions w v
                    end) m.

(** The loop body of [_validate_node] over the children. *)
Definition child_check (self : ASTValidator.t) (node_type : Value)
  (i : nat) (child : Value) : checks :=
  match child with
  | VDict _ => ASTValidator._validate_node self child (Some node_type) i
  | _ => pass
  end.

(** The walk of [_validate_node] over the children of a node of type
    [node_type]. *)
Definition validate_children (self : ASTValidator.t) (node_type : Value)
  (d : dict) : checks :=
  match dict_get "children" d with
  | Some (VList cs) => for_enumerate (child_check self node_type) cs 0
  | _ => pass
  end.

(** The classification of a type name as the specification words it:
    [root] is a container, the block types are blocks, the inline types
    are inline, anything else is unknown. *)
Definition intrinsic_style (name : string) : string :=
  if String.eqb name "root" then "container"
  else if existsb (String.eqb name)
            ["heading"; "paragraph"; "blockquote"; "list"; "listItem";
             "codeBlock"; "thematicBreak"] then "block"
  else if existsb (String.eqb name)
            ["text"; "strong"; "emphasis"; "inlineCode"; "link"; "image";
             "delete"] then "inline"
  else "unknown".

(** The required attributes as the specification words them: a heading
    requires [depth], a link [url], an image [url] and [alt]; with each
    type the label its diagnostics carry. *)
Definition required_attributes : list (string * (string * list string)) :=
  [("heading", ("Heading", ["depth"]));
   ("link", ("Link", ["url"]));
   ("image", ("Image", ["url"; "alt"]))].

Fixpoint lookup {A} (k : string) (table : list (string * A)) : option A :=
  match table with
  | [] => None
  | (k', a) :: r => if String.eqb k k' then Some a else lookup k r
  end.

(** One diagnostic for each required attribute the node lacks. *)
Definition required_attribute_diags (name : string) (d : dict)
  : list fstring :=
  match lookup name required_attributes with
  | Some (label, attrs) =>
      map (ASTValidator.missing_attr_msg label)
        (filter (fun attr => negb (dict_has attr d)) attrs)
  | None => []
  end.

(** The positional rule as the specification words it. *)
Definition position_diags (name : string) (position : nat) : list fstring :=
  if String.eqb (lower name) "frontmatter" && negb (position =? 0)%nat
  then [ASTValidator.frontmatter_msg] else [].

(** A type name the validator accepts. *)
Definition known_type (self : ASTValidator.t) (name : string) : bool :=
  existsb (String.eqb name) ASTValidator.common_types
  || match nodes_get (VStr name) (ASTValidator.syntax_nodes self) with
     | Some _ => true
     | None =>
         match nodes_get (VStr (lower name)) (ASTValidator.syntax_nodes self)
         with
         | Some _ => true
         | None => false
         end
     end.

(** Every [type] field inside the value is a string. *)
Fixpoint str_types (v : Value) : bool :=
  match v with
  | VDict d =>
      match dict_get "type" d with
      | Some (VStr _) | None => true
      | Some _ => false
      end
      && forallb (fun kv => str_types (snd kv)) d
  | VList l => forallb str_types l
  | _ => true
  end.

(** The schema model holds mappings only. *)
Definition holds_dicts (m : nodes_map) : Prop :=
  Forall (fun kv => exists d, snd kv = VDict d) m.

(** [k in nodes] for a key that can be hashed. *)
Definition nodes_mem (k : Value) (m : nodes_map) : bool :=
  match nodes_get k m with Some _ => true | None => false end.

(** A mapping none of whose values is a mapping. *)
Definition is_flat (d : dict) : bool :=
  forallb (fun kv => match snd kv with VDict _ => false | _ => true end) d.

(** A mapping whose values are all strings, and a mapping of such
    mappings: the shape of a parsed document of the syntax format. *)
Definition all_str (props : dict) : bool :=
  forallb (fun kv => match snd kv with VStr _ => true | _ => false end) props.

Definition plain_defs (d : dict) : bool :=
  forallb (fun kv => match snd kv with
                     | VDict props => all_str props
                     | _ => false
                     end) d.

(** A depth of the syntax that [str.isdigit] accepts and [int] refuses: a
    text of digits with a superscript among them, or of more decimal
    digits than the limit. *)
Definition refused_depth (required_depth : Value) : bool :=
  match required_depth with
  | VStr s =>
      str_isdigit s
      && negb (all_chars is_digit s
               && (String.length s <=? max_str_digits)%nat)
  | _ => false
  end.

(** A declaration of the syntax at which the coverage pass raises: a
    heading with a depth that is refused. *)
Definition refused_entry (syntax_def : Value) : bool :=
  match syntax_def with
  | VDict def =>
      match dict_get "node_type" def with
      | Some node_type =>
          py_eq node_type (VStr "heading") && dict_has "depth" def
          && refused_depth (get "depth" def)
      | None => false
      end
  | _ => false
  end.

Definition refused (defs : dict) : bool :=
  existsb (fun kv => refused_entry (snd kv)) defs.

(** ** Sample documents *)

(** A schema declaring a frontmatter node type. *)
Definition frontmatter_syntax : dict :=
  [("Frontmatter", VDict [("node_type", VStr "frontmatter")])].

Definition frontmatter_nodes : nodes_map :=
  [(VStr "frontmatter", VDict [("node_type", VStr "frontmatter")])].

Definition text_then_frontmatter : list Value :=
  [VDict [("type", VStr "text")]; VDict [("type", VStr "frontmatter")]].

(** A root whose second child is a frontmatter node. *)
Definition late_frontmatter : dict :=
  [("type", VStr "root"); ("children", VList text_then_frontmatter)].

(** The same children below a node of a type the schema does not know. *)
Definition frontmatter_in_section : dict :=
  [("RootNode",
    VDict [("type", VStr "section");
           ("children", VList text_then_frontmatter)])].

(** A node whose [type] is a number. *)
Definition numbered_node : dict :=
  [("RootNode", VDict [("type", VInt 5)])].

(** A schema declaring the paragraph type, and a document with one. *)
Definition paragraph_syntax : dict :=
  [("Paragraph", VDict [("node_type", VStr "paragraph")])].

Definition paragraph_document : dict :=
  [("type", VStr "root");
   ("children", VList [VDict [("type", VStr "paragraph")]])].

(** Two heading entries that differ in depth only, and a document with
    an example of the first. *)
Definition heading_def (depth markdown_syntax : string) : dict :=
  [("node_type", VStr "heading"); ("depth", VStr depth);
   ("markdown_syntax", VStr markdown_syntax)].

Definition two_headings_syntax : dict :=
  [("Heading1", VDict (heading_def "1" "#"));
   ("Heading2", VDict (heading_def "2" "##"))].

Definition one_heading_document : dict :=
  [("type", VStr "root");
   ("children",
    VList [VDict [("type", VStr "heading"); ("depth", VInt 1);
                  ("children", VList [])]])].

(** A schema entry whose node type is written in mixed case. *)
Definition mixed_case_syntax : dict :=
  [("Foo", VDict [("node_type", VStr "myType")])].

Definition mixed_case_nodes : nodes_map :=
  [(VStr "myType", VDict [("node_type", VStr "myType")]);
   (VStr "foo", VDict [("node_type", VStr "myType")])].

(** Documents in the notation; [quoted s] is [s] between double quotes. *)
Definition quoted (s : string) : string :=
  (String quote s ++ String quote EmptyString)%string.

Definition heading_syntax_text : string :=
  ("Heading1 { node_type: " ++ quoted "heading" ++ ", depth: 1, "
   ++ "markdown_syntax: " ++ quoted "#" ++ " }")%string.

(** A syntax document whose heading depth is the superscript two: a digit
    for [str.isdigit], no decimal literal for [int]. *)
Definition superscript_two : ascii := ascii_of_nat 178.

Definition refused_depth_syntax_text : string :=
  ("Heading1 { node_type: " ++ quoted "heading" ++ ", depth: "
   ++ String superscript_two EmptyString ++ ", "
   ++ "markdown_syntax: " ++ quoted "#" ++ " }")%string.

Definition refused_depth_syntax : dict :=
  [("Heading1",
    VDict [("node_type", VStr "heading");
           ("depth", VStr (String superscript_two EmptyString));
           ("markdown_syntax", VStr "#")])].

Definition heading_ast_text : string :=
  ("RootNode { type: " ++ quoted "heading" ++ ", depth: 1, children: [] }")
  %string.

Definition heading_syntax : dict :=
  [("Heading1", VDict (heading_def "1" "#"))].

Definition heading_nodes : nodes_map :=
  [(VStr "heading", VDict (heading_def "1" "#"));
   (VStr "heading1", VDict (heading_def "1" "#"))].

Definition heading_ast : dict :=
  [("type", VStr "heading"); ("depth", VInt 1); ("children", VList [])].

(** The hint of the end-to-end scenario as the specification prints it. *)
Definition four_field_hint : dict :=
  [("type", VStr "heading"); ("style", VStr "block");
   ("decoration", VStr "#"); ("markdown_syntax", VStr "#")].

(** A root node of a type no schema knows, over an example heading. *)
Definition bogus_root_text : string :=
  ("RootNode { type: " ++ quoted "bogus" ++ ", children: [ Heading { type: "
   ++ quoted "heading" ++ ", depth: 1 } ] }")%string.

Definition bogus_root : dict :=
  [("type", VStr "bogus");
   ("children",
    VList [VDict [("type", VStr "heading"); ("depth", VInt 1)]])].

(** Texts with an unterminated string, bracket and optional wrapper. *)
Definition unterminated_string_text : string :=
  ("RootNode { a: " ++ String quote "abc }")%string.

Definition unterminated_bracket_text : string := "RootNode { a: [1, 2 }".

Definition unterminated_optional_text : string := "RootNode { a: Some(12 }".

(** A document of the syntax format holding two top-level nodes. *)
Definition two_top_level_nodes_text : string :=
  ("A { type: text, node_type: a }" ++ String newline EmptyString
   ++ "B { type: frontmatter, node_type: frontmatter }")%string.

Definition two_top_level_nodes : dict :=
  [("A", VDict [("type", VStr "text"); ("node_type", VStr "a")]);
   ("B", VDict [("type", VStr "frontmatter");
                ("node_type", VStr "frontmatter")])].

(** ** ASTSyntaxChecker: the analysis of parsed data *)

Module Analysis.

(** An entry of [structure_info]: [{'count': c, 'max_depth': m}]. *)
Record info : Type := mk_info { count : nat; max_depth : nat }.

(** The dict [structure_info], keyed by node type. *)
Definition structure_map : Type := list (Value * info).

Fixpoint info_get (k : Value) (m : structure_map) : option info :=
  match m with
  | [] => None
  | (k', i) :: r => if py_eq k k' then Some i else info_get k r
  end.

Fixpoint info_set (k : Value) (i : info) (m : structure_map)
  : structure_map :=
  match m with
  | [] => [(k, i)]
  | (k', i') :: r =>
      if py_eq k k' then (k', i) :: r else (k', i') :: info_set k i r
  end.

(** The bookkeeping of [analyze_node] for a node of type [node_type]. *)
Definition record_node (node_type : Value) (current_depth : nat)
  (structure_info : structure_map) : result structure_map :=
  if hashable node_type then
    let i := match info_get node_type structure_info with
             | Some i => i
             | None => mk_info 0 0
             end in
    Ok (info_set node_type
          (mk_info (S (count i)) (Nat.max (max_depth i) current_depth))
          structure_info)
  else Raise TypeError.

(** [for x in xs: body(x)] over the state [structure_info]. *)
Definition for_each (body : Value -> structure_map -> result structure_map)
  : list Value -> structure_map -> result structure_map :=
  fix go (xs : list Value) (m : structure_map) : result structure_map :=
    match xs with
    | [] => Ok m
    | x :: r => let* m' := body x m in go r m'
    end.

(** [for key, value in d.items(): body(key, value)] over the state. *)
Definition for_each_item
  (body : string -> Value -> structure_map -> result structure_map)
  : dict -> structure_map -> result structure_map :=
  fix go (d : dict) (m : structure_map) : result structure_map :=
    match d with
    | [] => Ok m
    | (k, v) :: r => let* m' := body k v m in go r m'
    end.

(** [analyze_node], the local function of [_analyze_ast_structure]. *)
Fixpoint analyze_node (node : Value) (current_depth : nat)
  (structure_info : structure_map) {struct node} : result structure_map :=
  match node with
  | VDict d =>
      let* structure_info :=
        match dict_get "type" d with
        | Some node_type => record_node node_type current_depth structure_info
        | None => Ok structure_info
        end in
      for_each_item
        (fun key value m =>
           match value with
           | VList cs =>
               if String.eqb key "children"
               then for_each
                      (fun child m => analyze_node child (S current_depth) m)
                      cs m
               else analyze_node value current_depth m
           | _ => analyze_node value current_depth m
           end) d structure_info
  | VList l =>
      for_each (fun item m => analyze_node item current_depth m) l
        structure_info
  | _ => Ok structure_info
  end.

Definition _analyze_ast_structure (ast_data : dict) : result structure_map :=
  analyze_node (VDict ast_data) 0 [].

(** The figures [_get_structure_overview] derives from the analysis. *)
Definition total_nodes (structure_info : structure_map) : nat :=
  fold_right (fun kv acc => count (snd kv) + acc)%nat 0%nat structure_info.

Definition max_overall_depth (structure_info : structure_map) : nat :=
  fold_right (fun kv acc => Nat.max (max_depth (snd kv)) acc) 0%nat
    structure_info.

Definition node_types (structure_info : structure_map) : nat :=
  List.length structure_info.

(** [_analyze_syntax_definitions]: the entries that are mappings. *)
Definition _analyze_syntax_definitions (syntax_data : dict) : result dict :=
  let* data_to_analyze := items (_get_syntax_definitions syntax_data) in
  Ok (fold_left
        (fun syntax_info kv =>
           match snd kv with
           | VDict _ => dict_set (fst kv) (snd kv) syntax_info
           | _ => syntax_info
           end) data_to_analyze []).

End Analysis.

(** The number of [children] lists nested inside one another in a
    value. *)
Fixpoint children_depth (v : Value) : nat :=
  match v with
  | VDict d =>
      fold_right Nat.max 0%nat
        (map (fun kv =>
                match snd kv with
                | VList cs =>
                    if String.eqb (fst kv) "children"
                    then S (fold_right Nat.max 0%nat (map children_depth cs))
                    else children_depth (snd kv)
                | _ => children_depth (snd kv)
                end) d)
  | VList l => fold_right Nat.max 0%nat (map children_depth l)
  | _ => 0%nat
  end.

(** ** ASTSyntaxChecker: the counts of the menu *)

Module Menu.

(** The counting loop of [_count_markdown_functions]: the lines that are
    not blank, are no comment and carry the mark. *)
Definition count_lines (mark : string -> bool) (content : string) : nat :=
  List.length
    (filter (fun line =>
               let line := strip line in
               negb (String.eqb line "") && negb (prefix "#" line)
               && mark line)
       (split_on newline content)).

(** [_count_markdown_functions] on the texts of [syntax.ron] and
    [ast.ron]; [None] is a file that is missing or cannot be read.  The
    pair holds [counts['syntax']] and [counts['ast']]. *)
Definition _count_markdown_functions (syntax_file ast_file : option string)
  : nat * nat :=
  (match syntax_file with
   | Some content => count_lines (contains_char "{") content
   | None => 0%nat
   end,
   match ast_file with
   | Some content => count_lines (contains "type:") content
   | None => 0%nat
   end).

End Menu.

(** ** ASTSyntaxChecker: the generation command *)

Module Commands.

(** [load_ron_file] on the text of a file; [None] is a file that is
    missing or cannot be read.  The parser itself always returns. *)
Definition load_ron_file (file : option string) : option dict :=
  match file with
  | Some content => ASTSyntaxChecker._parse_ron_content content
  | None => None
  end.

(** [generate_display_hints] on the texts of [syntax.ron] and [ast.ron]:
    the hints it hands to [save_ron_file], [None] when it returns [False]
    before. *)
Definition generate_display_hints (syntax_file ast_file : option string)
  : result (option Value) :=
  match load_ron_file syntax_file, load_ron_file ast_file with
  | Some syntax_data, Some ast_data =>
      if negb (truthy (VDict syntax_data)) || negb (truthy (VDict ast_data))
      then Ok None else
      let* validator := ASTValidator.init syntax_data ast_data in
      let* validation_errors := ASTValidator.validate validator in
      match validation_errors with
      | _ :: _ => Ok None
      | [] =>
          let* generator := DisplayHintsGenerator.init syntax_data ast_data in
          Ok (DisplayHintsGenerator.generate generator)
      end
  | _, _ => Ok None
  end.

End Commands.

(** ** ASTSyntaxChecker: the failed functions of the detailed view *)

Module Report.

(** [s.split(sep)] for a separator text that is not empty; [skip] counts
    the characters of a separator just found that are still to pass. *)
Fixpoint split_text (sep : string) (skip : nat) (s : string) {struct s}
  : list string :=
  match s with
  | EmptyString => [EmptyString]
  | String c r =>
      match skip with
      | S n => split_text sep n r
      | O =>
          if prefix sep s
          then EmptyString :: split_text sep (String.length sep - 1) r
          else match split_text sep 0 r with
               | w :: ws => String c w :: ws
               | [] => [String c EmptyString]
               end
      end
  end.

Definition split (sep s : string) : list string := split_text sep 0 s.

(** The result of an indexing [parts[1]]: the item, or [IndexError]. *)
Inductive indexed (A : Type) : Type :=
| Found : A -> indexed A
| IndexError : indexed A.
Arguments Found {A} _.
Arguments IndexError {A}.

(** [error.split(sep)[1].split(paren)[0]] with the two separators of the
    source; the first piece of a split always exists. *)
Definition func_name (error : string) : indexed string :=
  match split "Syntax defines " error with
  | _ :: part :: _ =>
      match split " (" part with
      | name :: _ => Found name
      | [] => IndexError
      end
  | _ => IndexError
  end.

(** [failed_functions.add(x)], the set kept as a list without repeats. *)
Definition set_add (x : string) (s : list string) : list string :=
  if existsb (String.eqb x) s then s else s ++ [x].

(** The loop of [show_detailed_info] that extracts the failed function
    names from the validation errors. *)
Fixpoint failed_functions (validation_errors : list string)
  (failed : list string) : indexed (list string) :=
  match validation_errors with
  | [] => Found failed
  | error :: r =>
      if contains "Syntax defines" error
         && contains "but AST has no example" error
      then
        if contains_char "(" error then
          match func_name error with
          | Found name => failed_functions r (set_add name failed)
          | IndexError => IndexError
          end
        else failed_functions r failed
      else failed_functions r failed
  end.

End Report.

(** ** Notions of the further properties *)

(** [inside u v]: the value [u] is [v] or lies somewhere within it, as a
    value of a mapping or an element of a list. *)
Inductive inside (u : Value) : Value -> Prop :=
| inside_here : inside u u
| inside_entry : forall (d : dict) k v,
    In (k, v) d -> inside u v -> inside u (VDict d)
| inside_item : forall (l : list Value) v,
    In v l -> inside u v -> inside u (VList l).

(** What a run of [analyze_node] does to [structure_info]: it adds [n] to
    the counts, keeps every count positive and records no depth above
    [deepest]. *)
Definition counts_positive (m : Analysis.structure_map) : Prop :=
  Forall (fun kv => (1 <= Analysis.count (snd kv))%nat) m.

Definition depths_below (bound : nat) (m : Analysis.structure_map) : Prop :=
  Forall (fun kv => (Analysis.max_depth (snd kv) <= bound)%nat) m.

Definition grows (n deepest : nat) (m m' : Analysis.structure_map) : Prop :=
  Analysis.total_nodes m' = (Analysis.total_nodes m + n)%nat
  /\ (counts_positive m -> counts_positive m')
  /\ (forall bound, depths_below bound m -> (deepest <= bound)%nat ->
      depths_below bound m').

(** Every node of the flat list has a type that can be hashed. *)
Definition hashable_types (v : Value) : Prop :=
  forall n, In n (ASTValidator.collect_nodes v) ->
            hashable (get "type" n) = true.

(** A node the structural walk has nothing to say about: its type is a
    string the validator knows, a frontmatter node stands first, the
    attributes its type requires are there, and the mappings among the
    items of its [children] list are such nodes again, each at its index. *)
Inductive conforming (self : ASTValidator.t) : nat -> dict -> Prop :=
| conforming_node : forall (position : nat) (d : dict) (name : string),
    dict_get "type" d = Some (VStr name) ->
    known_type self name = true ->
    (lower name = "frontmatter" -> position = 0%nat) ->
    (forall label attrs,
        lookup name required_attributes = Some (label, attrs) ->
        forall attr, In attr attrs -> dict_has attr d = true) ->
    (forall cs, dict_get "children" d = Some (VList cs) ->
     forall i c, nth_error cs i = Some (VDict c) -> conforming self i c) ->
    conforming self position d.

(** A diagnostic of the coverage pass about the declaration [name]. *)
Definition coverage_report (name : string) (m : fstring) : Prop :=
  (exists node_type, m = ASTValidator.coverage_type_msg name node_type)
  \/ (exists depth, m = ASTValidator.coverage_depth_msg name depth).

(** A declaration name that holds neither an opening parenthesis after a
    space nor the opening words of a coverage diagnostic. *)
Definition plain_name (name : string) : Prop :=
  contains " (" name = false
  /\ contains "Syntax defines " (name ++ " ")%string = false.

(** The separator of the lines of a text. *)
Definition nl : string := String newline EmptyString.

(** The test of the comment filter of [_parse_ron_content] on a line. *)
Definition kept (line : string) : bool :=
  negb (String.eqb (strip line) "") && negb (prefix "#" (strip line)).

(** The lines of a text with an opening brace, and whether its first
    line has one. *)
Definition has_brace (s : string) : bool := contains_char "{" s.

Definition brace_lines (t : string) : nat :=
  List.length (filter has_brace (split_on newline t)).

Definition head_brace (t : string) : bool :=
  has_brace (hd EmptyString (split_on newline t)).

Definition bit (b : bool) : nat := if b then 1%nat else 0%nat.

(** A definition of the syntax format still to be parsed. *)
Definition pending (current_node : string) : nat :=
  if String.eqb current_node "" then 0%nat else 1%nat.

(** The AST has a node of the type. *)
Definition exemplified (ast_data : dict) (node_type : Value) : Prop :=
  exists node, In node (ASTValidator.collect_nodes (VDict ast_data))
               /\ py_eq (get "type" node) node_type = true.

(** A mapping in which no key stands twice, as in any Python dict. *)
Definition unique_keys (d : dict) : Prop := NoDup (map fst d).

(** The body of the loop of [_analyze_syntax_definitions]. *)
Definition keep_mappings (syntax_info : dict) (kv : string * Value) : dict :=
  match snd kv with
  | VDict _ => dict_set (fst kv) (snd kv) syntax_info
  | _ => syntax_info
  end.

(** A field with a string value as the notation writes it: the key, a
    colon and the value between double quotes. *)
Definition field_text (field : string * string) : string :=
  (fst field ++ ": " ++ String quote (snd field ++ String quote ""))%string.

(** A root object with the fields, separated by commas. *)
Definition object_text (fields : list (string * string)) : string :=
  ("RootNode { " ++ join ", " (map field_text fields) ++ " }")%string.

(** A key that is written as it is read: no blank at its ends, no comma
    at its head, no colon, on one line. *)
Definition plain_key (k : string) : Prop :=
  strip k = k
  /\ starts_with "," k = false
  /\ contains_char ":" k = false
  /\ contains_char newline k = false.

(** A value that needs no escape: no double quote, no backslash, on one
    line. *)
Definition plain_text (v : string) : Prop :=
  contains_char quote v = false
  /\ contains_char backslash v = false
  /\ contains_char newline v = false.

Definition plain_field (field : string * string) : Prop :=
  plain_key (fst field) /\ plain_text (snd field).

(** The mapping with the fields in order, the values as strings. *)
Definition string_fields (fields : list (string * string)) : dict :=
  map (fun field => (fst field, VStr (snd field))) fields.

(** The text that follows a field: nothing, or the next fields after a
    comma and a space. *)
Definition rest_text (fields : list (string * string)) : string :=
  match fields with
  | [] => ""
  | _ => (", " ++ join ", " (map field_text fields))%string
  end.

(** [result[key] = value] for a string value. *)
Definition store (out : dict) (field : string * string) : dict :=
  dict_set (fst field) (VStr (snd field)) out.


(** The shape of the values of a parsed root document.  An item of a list
    is a string that is not empty or a mapping of values; a value is a
    string, a number, a boolean or a list of items. *)
Fixpoint ron_item (v : Value) : bool :=
  match v with
  | VStr s => negb (String.eqb s "")
  | VDict d =>
      forallb (fun kv =>
                 match snd kv with
                 | VBool _ | VInt _ | VFloat _ | VStr _ => true
                 | VList l => forallb ron_item l
                 | _ => false
                 end) d
  | _ => false
  end.

Definition ron_value (v : Value) : bool :=
  match v with
  | VBool _ | VInt _ | VFloat _ | VStr _ => true
  | VList l => forallb ron_item l
  | _ => false
  end.

Definition ron_mapping (d : dict) : bool :=
  forallb (fun kv => ron_value (snd kv)) d.

(** * Properties *)

(** ** Dictionaries and the result monad *)

Lemma dict_elim_get A (k : string) (some : Value -> A) (none : A) (d : dict) :
  dict_elim k some none d =
  match dict_get k d with Some v => some v | None => none end.
Proof.
  induction d as [|[k' v] r IH]; simpl; [reflexivity|].
  destruct (String.eqb k k'); [reflexivity | exact IH].
Qed.

Lemma seq_ok (xs ys : list fstring) : (Ok xs ;; Ok ys) = Ok (xs ++ ys).
Proof. reflexivity. Qed.

Lemma seq_pass_l (c : checks) : (pass ;; c) = c.
Proof. destruct c; reflexivity. Qed.

Lemma seq_pass_r (c : checks) : (c ;; pass) = c.
Proof.
  destruct c as [xs|e]; simpl; [|reflexivity].
  unfold seq; simpl. now rewrite app_nil_r.
Qed.

Lemma seq_inv (a b : checks) (zs : list fstring) :
  (a ;; b) = Ok zs -> exists xs ys, a = Ok xs /\ b = Ok ys /\ zs = xs ++ ys.
Proof.
  destruct a as [xs|e]; [|discriminate].
  destruct b as [ys|e]; [|discriminate].
  unfold seq; simpl. intros [= <-]. now exists xs, ys.
Qed.

Lemma dict_has_get (k : string) (d : dict) :
  dict_has k d = true <-> exists v, dict_get k d = Some v.
Proof.
  unfold dict_has. destruct (dict_get k d) as [v|].
  - split; [now exists v | reflexivity].
  - split; [discriminate | now intros [v ?]].
Qed.

(** The unfolding of [_validate_node] on a mapping, with its loop over
    the children named. *)
Lemma _validate_node_eq self (d : dict) parent_type position :
  ASTValidator._validate_node self (VDict d) parent_type position =
  match dict_get "type" d with
  | None => append (ASTValidator.missing_type_msg d)
  | Some node_type =>
      let* valid := ASTValidator._is_valid_node_type self node_type in
      if negb valid then append (ASTValidator.unknown_type_msg node_type) else
      ASTValidator.containment node_type parent_type ;;
      ASTValidator._validate_position_rules node_type parent_type position ;;
      validate_children self node_type d ;;
      ASTValidator._validate_attributes node_type d
  end.
Proof.
  unfold validate_children. cbn [ASTValidator._validate_node].
  destruct (dict_get "type" d) as [node_type|]; [|reflexivity].
  now rewrite dict_elim_get.
Qed.

(** ** The schema model holds mappings only *)

Lemma nodes_set_holds_dicts k (d : dict) m :
  holds_dicts m -> holds_dicts (nodes_set k (VDict d) m).
Proof.
  unfold holds_dicts. induction m as [|[k' v'] r IH]; simpl; intros H.
  - constructor; [now exists d | constructor].
  - inversion H as [|? ? Hv Hr]; subst.
    destruct (py_eq k k'); constructor; simpl; eauto.
Qed.

Lemma nodes_get_holds_dicts k m v :
  holds_dicts m -> nodes_get k m = Some v -> exists d, v = VDict d.
Proof.
  unfold holds_dicts. induction m as [|[k' v'] r IH]; simpl; intros H E.
  - discriminate.
  - inversion H as [|? ? Hv Hr]; subst.
    destruct (py_eq k k'); [injection E as <-; exact Hv | now apply IH].
Qed.

Lemma register_holds_dicts nodes key value nodes' :
  holds_dicts nodes -> register nodes key value = Ok nodes' ->
  holds_dicts nodes'.
Proof.
  unfold register. intros H.
  destruct value as [| | | | |l|d]; try (intros [= <-]; exact H).
  destruct (dict_get "node_type" d) as [nt|]; [|intros [= <-]; exact H].
  destruct (hashable nt); [|discriminate].
  intros [= <-]. now do 2 apply nodes_set_holds_dicts.
Qed.

Lemma register_all_holds_dicts data : forall nodes nodes',
  holds_dicts nodes -> register_all nodes data = Ok nodes' ->
  holds_dicts nodes'.
Proof.
  induction data as [|[key value] r IH]; simpl; intros nodes nodes' H E.
  - now injection E as <-.
  - destruct (register nodes key value) as [n1|e] eqn:R; [|discriminate].
    simpl in E. eapply IH; [|exact E]. eapply register_holds_dicts; eauto.
Qed.

Lemma _extract_syntax_nodes_holds_dicts syntax_data nodes :
  _extract_syntax_nodes syntax_data = Ok nodes -> holds_dicts nodes.
Proof.
  unfold _extract_syntax_nodes.
  destruct (items (_get_syntax_definitions syntax_data)) as [data|e];
    [|discriminate].
  simpl. apply register_all_holds_dicts. constructor.
Qed.

(** ** Style classification *)

Lemma _determine_style_intrinsic (name : string) :
  DisplayHintsGenerator._determine_style (VStr name)
  = Ok (intrinsic_style name).
Proof.
  unfold DisplayHintsGenerator._determine_style, intrinsic_style.
  cbn [py_eq in_str_set hashable bind].
  destruct (String.eqb name "root"); [reflexivity|].
  change DisplayHintsGenerator.block_types with
    ["heading"; "paragraph"; "blockquote"; "list"; "listItem"; "codeBlock";
     "thematicBreak"].
  destruct (existsb _ _); [reflexivity|].
  change DisplayHintsGenerator.inline_types with
    ["text"; "strong"; "emphasis"; "inlineCode"; "link"; "image"; "delete"].
  destruct (existsb _ _); reflexivity.
Qed.

Ltac try_name name :=
  match goal with
  | |- context [String.eqb name ?k] =>
      let E := fresh "E" in
      destruct (String.eqb name k) eqn:E;
      [apply String.eqb_eq in E; subst name; reflexivity|]
  end.

Lemma display_map_style (name : string) :
  dict_get "style"
    match DisplayHintsGenerator.display_map_get name
            DisplayHintsGenerator.display_map with
    | Some i => i
    | None => DisplayHintsGenerator.unknown_info
    end
  = Some (VStr (intrinsic_style name)).
Proof.
  unfold intrinsic_style, DisplayHintsGenerator.display_map,
    DisplayHintsGenerator.entry.
  cbn [DisplayHintsGenerator.display_map_get existsb].
  repeat try_name name.
  reflexivity.
Qed.

(** C10.  Whatever the schema model holds, the style resolved for a type
    name is its intrinsic classification -- container for [root], block
    for the block types, inline for the inline types, unknown for anything
    else -- and it is the classification [_determine_style] computes: the
    built-in fallback table and the schema path agree on every name. *)
Theorem style_independent_of_schema syntax_data ast_data self (name : string) :
  DisplayHintsGenerator.init syntax_data ast_data = Ok self ->
  exists display_info,
    DisplayHintsGenerator._get_display_info self (VStr name) = Ok display_info
    /\ dict_get "style" display_info = Some (VStr (intrinsic_style name))
    /\ DisplayHintsGenerator._determine_style (VStr name)
       = Ok (intrinsic_style name).
Proof.
  unfold DisplayHintsGenerator.init. intros Hinit.
  destruct (_extract_syntax_nodes syntax_data) as [nodes|e] eqn:X;
    [|discriminate].
  injection Hinit as <-. apply _extract_syntax_nodes_holds_dicts in X.
  unfold DisplayHintsGenerator._get_display_info, nodes_has.
  cbn [hashable bind DisplayHintsGenerator.syntax_nodes].
  destruct (nodes_get (VStr name) nodes) as [v|] eqn:G.
  - destruct (nodes_get_holds_dicts _ X G) as [d ->].
    cbv zeta. rewrite _determine_style_intrinsic. cbn [items bind].
    eexists. repeat split; reflexivity.
  - eexists. split; [reflexivity|]. split; [apply display_map_style|].
    apply _determine_style_intrinsic.
Qed.

Lemma style_independent_of_schema_witness :
  exists display_info,
    DisplayHintsGenerator._get_display_info
      (DisplayHintsGenerator.mk
         [("Heading1", VDict [("node_type", VStr "heading");
                              ("depth", VStr "1");
                              ("markdown_syntax", VStr "#")])]
         []
         [(VStr "heading", VDict [("node_type", VStr "heading");
                                  ("depth", VStr "1");
                                  ("markdown_syntax", VStr "#")]);
          (VStr "heading1", VDict [("node_type", VStr "heading");
                                   ("depth", VStr "1");
                                   ("markdown_syntax", VStr "#")])])
      (VStr "heading") = Ok display_info
    /\ dict_get "style" display_info = Some (VStr (intrinsic_style "heading"))
    /\ DisplayHintsGenerator._determine_style (VStr "heading")
       = Ok (intrinsic_style "heading").
Proof.
  eapply (@style_independent_of_schema
            [("Heading1", VDict [("node_type", VStr "heading");
                                 ("depth", VStr "1");
                                 ("markdown_syntax", VStr "#")])]
            [] _ "heading").
  reflexivity.
Defined.

(** ** The checks of one node *)

Lemma _is_valid_node_type_str self (name : string) :
  ASTValidator._is_valid_node_type self (VStr name)
  = Ok (known_type self name).
Proof.
  unfold ASTValidator._is_valid_node_type, known_type, nodes_has.
  cbn [in_str_set hashable bind str_lower].
  destruct (existsb (String.eqb name) ASTValidator.common_types);
    [reflexivity|].
  destruct (nodes_get (VStr name) _); [reflexivity|].
  simpl. now destruct (nodes_get (VStr (lower name)) _).
Qed.

Lemma in_str_set_str (name : string) set :
  in_str_set (VStr name) set = Ok (existsb (String.eqb name) set).
Proof. reflexivity. Qed.

Lemma _can_be_child_of_str (child parent : string) :
  exists b, ASTValidator._can_be_child_of (VStr child) (VStr parent) = Ok b.
Proof.
  unfold ASTValidator._can_be_child_of.
  repeat rewrite in_str_set_str. cbn [bind py_eq].
  repeat match goal with
         | |- context [if ?c then _ else _] => destruct c
         end; eexists; reflexivity.
Qed.

Lemma containment_str (name : string) (parent : option string) :
  ASTValidator.containment (VStr name) (option_map VStr parent) = pass.
Proof.
  unfold ASTValidator.containment. destruct parent as [p|]; [|reflexivity].
  cbn [option_map]. destruct (truthy (VStr p)); [|reflexivity].
  destruct (_can_be_child_of_str name p) as [b ->]. reflexivity.
Qed.

Lemma _validate_position_rules_str (name : string) parent position :
  ASTValidator._validate_position_rules (VStr name) parent position
  = Ok (position_diags name position).
Proof.
  unfold ASTValidator._validate_position_rules, position_diags.
  cbn [str_lower bind].
  replace (0 <? position)%nat with (negb (position =? 0)%nat)
    by (destruct position; reflexivity).
  now destruct (_ && _).
Qed.

Lemma _validate_attributes_str (name : string) (d : dict) :
  ASTValidator._validate_attributes (VStr name) d
  = Ok (required_attribute_diags name d).
Proof.
  unfold ASTValidator._validate_attributes, required_attribute_diags,
    required_attributes.
  cbn [py_eq lookup].
  destruct (String.eqb name "heading") eqn:H.
  { apply String.eqb_eq in H; subst name. cbn.
    now destruct (dict_has "depth" d). }
  destruct (String.eqb name "link") eqn:L.
  { apply String.eqb_eq in L; subst name. cbn.
    now destruct (dict_has "url" d). }
  destruct (String.eqb name "image") eqn:I.
  { apply String.eqb_eq in I; subst name. cbn.
    now destruct (dict_has "url" d), (dict_has "alt" d). }
  reflexivity.
Qed.

(** The diagnostics of a node of known type: the positional rule, then
    the children, then the required attributes. *)
Lemma _validate_node_known self (d : dict) (name : string)
  (parent : option string) position :
  dict_get "type" d = Some (VStr name) ->
  known_type self name = true ->
  ASTValidator._validate_node self (VDict d) (option_map VStr parent) position
  = (Ok (position_diags name position) ;;
     validate_children self (VStr name) d ;;
     Ok (required_attribute_diags name d)).
Proof.
  intros T K. rewrite _validate_node_eq, T, _is_valid_node_type_str, K.
  cbn [bind negb].
  now rewrite containment_str, seq_pass_l, _validate_position_rules_str,
    _validate_attributes_str.
Qed.

Lemma _validate_node_unknown self (d : dict) (name : string) parent position :
  dict_get "type" d = Some (VStr name) ->
  known_type self name = false ->
  ASTValidator._validate_node self (VDict d) parent position
  = Ok [ASTValidator.unknown_type_msg (VStr name)].
Proof.
  intros T K. now rewrite _validate_node_eq, T, _is_valid_node_type_str, K.
Qed.

(** C9.  The diagnostics of a validated node of known type are those of
    the positional rule, then those of its children, then those of the
    required-attribute rule, one for each missing attribute: a heading
    lacking [depth] yields the diagnostic naming [depth], a link lacking
    [url] the one naming [url], an image lacking both [url] and [alt] two
    diagnostics. *)
Theorem required_attributes_after_children self (d : dict) (name : string)
  (parent : option string) position kids :
  dict_get "type" d = Some (VStr name) ->
  ASTValidator._is_valid_node_type self (VStr name) = Ok true ->
  validate_children self (VStr name) d = Ok kids ->
  ASTValidator._validate_node self (VDict d) (option_map VStr parent) position
  = Ok (position_diags name position ++ kids
        ++ required_attribute_diags name d)
  /\ ASTValidator._validate_attributes (VStr name) d
     = Ok (required_attribute_diags name d)
  /\ (name = "heading" -> dict_has "depth" d = false ->
      required_attribute_diags name d
      = [[Lit "Heading node missing required 'depth' attribute"]])
  /\ (name = "link" -> dict_has "url" d = false ->
      required_attribute_diags name d
      = [[Lit "Link node missing required 'url' attribute"]])
  /\ (name = "image" -> dict_has "url" d = false ->
      dict_has "alt" d = false ->
      required_attribute_diags name d
      = [[Lit "Image node missing required 'url' attribute"];
         [Lit "Image node missing required 'alt' attribute"]]).
Proof.
  intros T V K. rewrite _is_valid_node_type_str in V. injection V as V.
  split; [|split; [apply _validate_attributes_str|]].
  - rewrite (_validate_node_known self d parent position T V), K.
    reflexivity.
  - unfold required_attribute_diags.
    repeat split; intros -> ; cbn; intros; 
      repeat match goal with H : dict_has _ _ = false |- _ =>
               rewrite H; clear H end; reflexivity.
Qed.

Lemma required_attributes_after_children_witness :
  ASTValidator._validate_node (ASTValidator.mk [] [] [])
    (VDict [("type", VStr "image")]) (option_map VStr None) 0
  = Ok (position_diags "image" 0 ++ []
        ++ required_attribute_diags "image" [("type", VStr "image")])
  /\ required_attribute_diags "image" [("type", VStr "image")]
     = [[Lit "Image node missing required 'url' attribute"];
        [Lit "Image node missing required 'alt' attribute"]].
Proof.
  destruct (@required_attributes_after_children
              (ASTValidator.mk [] [] []) [("type", VStr "image")] "image"
              None 0 [] eq_refl eq_refl eq_refl)
    as (E & _ & _ & _ & I).
  split; [exact E | exact (I eq_refl eq_refl eq_refl)].
Defined.

(** ** The walk over the children *)

Lemma for_enumerate_nth body (cs : list Value) : forall k errs i x,
  for_enumerate body cs k = Ok errs ->
  nth_error cs i = Some x ->
  exists xs, body (k + i)%nat x = Ok xs /\ incl xs errs.
Proof.
  induction cs as [|c r IH]; intros k errs i x E N.
  - destruct i; discriminate.
  - cbn [for_enumerate] in E. apply seq_inv in E.
    destruct E as (xs & ys & B & R & ->).
    destruct i as [|i]; cbn in N.
    + injection N as <-. exists xs. rewrite Nat.add_0_r.
      split; [exact B | apply incl_appl, incl_refl].
    + destruct (IH _ _ _ _ R N) as (zs & Bz & I).
      exists zs. rewrite Nat.add_succ_r. split; [exact Bz|].
      now apply incl_appr.
Qed.

Lemma frontmatter_needs_nothing (name : string) (d : dict) :
  lower name = "frontmatter" -> required_attribute_diags name d = [].
Proof.
  intros L. unfold required_attribute_diags, required_attributes.
  cbn [lookup].
  repeat match goal with
         | |- context [String.eqb name ?k] =>
             let E := fresh "E" in
             destruct (String.eqb name k) eqn:E;
             [apply String.eqb_eq in E; subst name; discriminate L|]
         end.
  reflexivity.
Qed.

(** C8, as the code has it.  When the walk validates a node of known type
    whose [children] list holds, at index [i], a mapping of known type
    whose name lower-cases to [frontmatter]: at an index other than 0 the
    diagnostics of the walk contain "Frontmatter node must be first child
    of Document"; at index 0 the positional rule yields nothing and the
    child contributes the diagnostics of its own children only. *)
Theorem frontmatter_position_rule self (p d : dict) (pname name : string)
  (pparent : option string) ppos (cs : list Value) (i : nat) errs :
  dict_get "type" p = Some (VStr pname) ->
  ASTValidator._is_valid_node_type self (VStr pname) = Ok true ->
  dict_get "children" p = Some (VList cs) ->
  nth_error cs i = Some (VDict d) ->
  dict_get "type" d = Some (VStr name) ->
  lower name = "frontmatter" ->
  ASTValidator._is_valid_node_type self (VStr name) = Ok true ->
  ASTValidator._validate_node self (VDict p) (option_map VStr pparent) ppos
  = Ok errs ->
  (i <> 0%nat ->
   In ASTValidator.frontmatter_msg errs
   /\ mentions "frontmatter" ASTValidator.frontmatter_msg = true)
  /\ (i = 0%nat ->
      ASTValidator._validate_position_rules (VStr name) (Some (VStr pname)) i
      = pass
      /\ exists kids,
          validate_children self (VStr name) d = Ok kids
          /\ ASTValidator._validate_node self (VDict d) (Some (VStr pname)) i
             = Ok kids /\ incl kids errs).
Proof.
  intros Tp Vp C N T L V E.
  rewrite _is_valid_node_type_str in Vp, V.
  injection Vp as Vp. injection V as V.
  rewrite (_validate_node_known self p pparent ppos Tp Vp) in E.
  apply seq_inv in E. destruct E as (ps & rest & _ & E & ->).
  apply seq_inv in E. destruct E as (ks & attrs & K & _ & ->).
  unfold validate_children in K. rewrite C in K.
  destruct (for_enumerate_nth _ _ _ i K N) as (xs & B & I).
  cbn [Nat.add child_check] in B.
  pose proof (_validate_node_known self d (Some pname) i T V) as Q.
  cbn [option_map] in Q. rewrite Q in B.
  apply seq_inv in B. destruct B as (pos & rest & P & B & ->).
  apply seq_inv in B. destruct B as (kids & attrs' & Kd & A & ->).
  injection P as <-. injection A as <-.
  rewrite (frontmatter_needs_nothing name d L), app_nil_r in I.
  assert (I' : incl (position_diags name i ++ kids)
                 (ps ++ ks ++ attrs)).
  { intros m Hm. apply in_or_app. right. apply in_or_app. left. now apply I. }
  split.
  - intros Hi. split; [|reflexivity]. apply I'. apply in_or_app. left.
    unfold position_diags. rewrite L.
    destruct i; [contradiction|]. now left.
  - intros ->. rewrite _validate_position_rules_str.
    split; [unfold position_diags; cbn; now rewrite andb_false_r|].
    exists kids. split; [exact Kd|]. split.
    + pose proof (_validate_node_known self d (Some pname) 0 T V) as Q0.
      cbn [option_map] in Q0. rewrite Q0, Kd.
      unfold position_diags. cbn [Nat.eqb negb]. rewrite andb_false_r.
      rewrite (frontmatter_needs_nothing name d L). cbn. now rewrite app_nil_r.
    + intros m Hm. apply I'. apply in_or_app. now right.
Qed.

Lemma frontmatter_position_rule_witness :
  In ASTValidator.frontmatter_msg [ASTValidator.frontmatter_msg]
  /\ mentions "frontmatter" ASTValidator.frontmatter_msg = true.
Proof.
  refine (proj1 (@frontmatter_position_rule
                   (ASTValidator.mk frontmatter_syntax
                      [("RootNode", VDict late_frontmatter)]
                      frontmatter_nodes)
                   late_frontmatter [("type", VStr "frontmatter")]
                   "root" "frontmatter" None 0 text_then_frontmatter 1
                   [ASTValidator.frontmatter_msg]
                   eq_refl eq_refl eq_refl eq_refl eq_refl eq_refl eq_refl
                   eq_refl) _).
  discriminate.
Defined.

(** C8, as stated, fails: a frontmatter node that is the second child of a
    node of unknown type is not reached, and no diagnostic mentions it;
    and the second of two top-level nodes is validated at position 0. *)
Lemma frontmatter_below_unknown_parent_unreported :
  (ASTValidator.init frontmatter_syntax frontmatter_in_section
   = Ok (ASTValidator.mk frontmatter_syntax frontmatter_in_section
           frontmatter_nodes)
   /\ nth_error text_then_frontmatter 1
      = Some (VDict [("type", VStr "frontmatter")])
   /\ ASTValidator.validate
        (ASTValidator.mk frontmatter_syntax frontmatter_in_section
           frontmatter_nodes)
      = Ok [ASTValidator.unknown_type_msg (VStr "section")]
   /\ existsb (mentions "frontmatter")
        [ASTValidator.unknown_type_msg (VStr "section")] = false)
  /\ (ASTSyntaxChecker._parse_ron_content two_top_level_nodes_text
      = Some two_top_level_nodes
      /\ ASTValidator.init frontmatter_syntax two_top_level_nodes
         = Ok (ASTValidator.mk frontmatter_syntax two_top_level_nodes
                 frontmatter_nodes)
      /\ ASTValidator.validate
           (ASTValidator.mk frontmatter_syntax two_top_level_nodes
              frontmatter_nodes) = Ok []).
Proof. repeat split. Qed.

(** ** Validation does not raise on string-typed nodes *)

Lemma dict_get_In (k : string) (d : dict) v :
  dict_get k d = Some v -> In (k, v) d.
Proof.
  induction d as [|[k' v'] r IH]; simpl; [discriminate|].
  destruct (String.eqb k k') eqn:E.
  - apply String.eqb_eq in E. subst k'. intros [= ->]. now left.
  - intros G. right. now apply IH.
Qed.

Lemma str_types_entry (d : dict) k v :
  str_types (VDict d) = true -> In (k, v) d -> str_types v = true.
Proof.
  cbn [str_types]. intros H I. apply andb_prop in H. destruct H as [_ H].
  rewrite forallb_forall in H. exact (H (k, v) I).
Qed.

Lemma str_types_type (d : dict) t :
  str_types (VDict d) = true -> dict_get "type" d = Some t ->
  exists name, t = VStr name.
Proof.
  cbn [str_types]. intros H T. rewrite T in H.
  destruct t; try discriminate H. now eexists.
Qed.

Lemma _validate_node_total self (v : Value) :
  str_types v = true ->
  (forall d, v = VDict d -> forall (parent : option string) position,
      exists errs,
        ASTValidator._validate_node self v (option_map VStr parent) position
        = Ok errs)
  /\ (forall cs, v = VList cs -> forall (pname : string) k,
         exists errs,
           for_enumerate (child_check self (VStr pname)) cs k = Ok errs).
Proof.
  induction v as [| | | | |l IH|d IH] using Value_nested_ind; intros S;
    (split; [intros d' E | intros cs E]); try discriminate E.
  - (* a list of children *)
    injection E as <-. intros pname. cbn [str_types] in S.
    induction l as [|c r IHr]; intros k; [now exists []|].
    cbn [forallb] in S. apply andb_prop in S. destruct S as [Sc Sr].
    inversion IH as [|? ? Pc Pr]; subst.
    destruct (IHr Pr Sr (S k)) as [ys Ey].
    cbn [for_enumerate]. rewrite Ey.
    destruct c as [| | | | |lc|dc];
      try (exists ys; reflexivity).
    destruct (proj1 (Pc Sc) dc eq_refl (Some pname) k) as [xs Ex].
    cbn [option_map] in Ex. cbn [child_check]. rewrite Ex.
    now exists (xs ++ ys).
  - (* a node *)
    injection E as <-. intros parent position.
    rewrite _validate_node_eq.
    destruct (dict_get "type" d) as [t|] eqn:T; [|now eexists].
    destruct (str_types_type d S T) as [name ->].
    rewrite _is_valid_node_type_str. cbn [bind].
    destruct (known_type self name) eqn:K; [|now eexists].
    cbn [negb].
    rewrite containment_str, seq_pass_l, _validate_position_rules_str,
      _validate_attributes_str.
    assert (exists kids, validate_children self (VStr name) d = Ok kids)
      as [kids ->].
    { unfold validate_children.
      destruct (dict_get "children" d) as [c|] eqn:C; [|now exists []].
      destruct c as [| | | | |cs|dc]; try (now exists []).
      apply dict_get_In in C.
      rewrite Forall_forall in IH. specialize (IH _ C). cbn [snd] in IH.
      destruct (IH (str_types_entry _ _ _ S C)) as [_ IHl].
      exact (IHl cs eq_refl name 0%nat). }
    now eexists.
Qed.

Lemma coerce_depth_cases required_depth :
  (refused_depth required_depth = false
   /\ exists depth, ASTValidator.coerce_depth required_depth = Ok depth)
  \/ (refused_depth required_depth = true
      /\ ASTValidator.coerce_depth required_depth = Raise ValueError).
Proof.
  destruct required_depth as [|b|z|f|s|l|d];
    try (left; split; [reflexivity | eexists; reflexivity]).
  unfold refused_depth, ASTValidator.coerce_depth, int_of_text.
  destruct (str_isdigit s);
    [|left; split; [reflexivity | eexists; reflexivity]].
  destruct (all_chars is_digit s && (String.length s <=? max_str_digits)%nat);
    [left; split; [reflexivity | eexists; reflexivity]
    |right; split; reflexivity].
Qed.

Lemma coverage_entry_ok ast_nodes name def :
  refused_entry def = false ->
  exists errs, ASTValidator.coverage_entry ast_nodes name def = Ok errs.
Proof.
  unfold ASTValidator.coverage_entry, refused_entry. intros R.
  destruct def as [| | | | | |def]; try (now eexists).
  destruct (dict_get "node_type" def) as [node_type|]; [|now eexists].
  destruct (py_eq node_type (VStr "heading") && dict_has "depth" def);
    cbn [andb] in R; [|destruct (negb _); now eexists].
  destruct (coerce_depth_cases (get "depth" def))
    as [(_ & depth & ->)|(C & _)]; [|congruence].
  cbn [bind]. destruct (negb _); now eexists.
Qed.

Lemma coverage_entry_raises ast_nodes name def :
  refused_entry def = true ->
  ASTValidator.coverage_entry ast_nodes name def = Raise ValueError.
Proof.
  unfold ASTValidator.coverage_entry, refused_entry. intros R.
  destruct def as [| | | | | |def]; try discriminate R.
  destruct (dict_get "node_type" def) as [node_type|]; [|discriminate R].
  destruct (py_eq node_type (VStr "heading") && dict_has "depth" def);
    cbn [andb] in R; [|discriminate R].
  destruct (coerce_depth_cases (get "depth" def)) as [(C & _)|(_ & ->)];
    [congruence | reflexivity].
Qed.

Lemma for_items_coverage_raises ast_nodes (defs : dict) :
  refused defs = true ->
  for_items (ASTValidator.coverage_entry ast_nodes) defs = Raise ValueError.
Proof.
  unfold refused. induction defs as [|[name def] r IH]; [discriminate|].
  cbn [existsb snd for_items]. destruct (refused_entry def) eqn:R.
  - intros _. now rewrite (coverage_entry_raises ast_nodes name def R).
  - cbn [orb]. intros H.
    destruct (coverage_entry_ok ast_nodes name def R) as [errs ->].
    now rewrite (IH H).
Qed.

Lemma refused_entries (defs : dict) :
  refused defs = false ->
  forall name def, In (name, def) defs -> refused_entry def = false.
Proof.
  unfold refused. intros H name def I.
  destruct (refused_entry def) eqn:R; [|reflexivity].
  assert (existsb (fun kv => refused_entry (snd kv)) defs = true);
    [|congruence].
  apply existsb_exists. now exists (name, def).
Qed.

Lemma for_items_ok body (d : dict) :
  (forall k v, In (k, v) d -> exists errs, body k v = Ok errs) ->
  exists errs, for_items body d = Ok errs.
Proof.
  induction d as [|[k v] r IH]; intros H; [now exists []|].
  destruct (H k v (or_introl eq_refl)) as [xs Ex].
  destruct IH as [ys Ey]; [intros; apply H; now right|].
  cbn [for_items]. rewrite Ex, Ey. now eexists.
Qed.

Lemma validate_top_ok self key value :
  str_types value = true ->
  exists errs, ASTValidator.validate_top self key value = Ok errs.
Proof.
  intros S. unfold ASTValidator.validate_top.
  destruct value as [| | | | |l|d]; try (now exists []).
  destruct (proj1 (_validate_node_total self _ S) d eq_refl None 0%nat)
    as [errs E].
  cbn [option_map] in E. rewrite E.
  destruct (dict_has "type" d); [now eexists|].
  destruct (String.eqb _ _); now eexists.
Qed.

Lemma structural_walk_ok self :
  str_types (VDict (ASTValidator.ast self)) = true ->
  exists errs, ASTValidator.structural_walk self = Ok errs.
Proof.
  intros S. unfold ASTValidator.structural_walk, ASTValidator.ast_root.
  assert (R : str_types
                match dict_get "root" (ASTValidator.ast self) with
                | Some r => r
                | None => VDict (ASTValidator.ast self)
                end = true).
  { destruct (dict_get "root" _) as [r|] eqn:G; [|exact S].
    exact (str_types_entry _ _ _ S (dict_get_In _ _ G)). }
  destruct (match dict_get "root" _ with Some r => r | None => _ end)
    as [| | | | |l|d]; try (now exists []).
  apply for_items_ok. intros k v I. apply validate_top_ok.
  exact (str_types_entry _ _ _ R I).
Qed.

Lemma init_syntax syntax_data ast_data self :
  ASTValidator.init syntax_data ast_data = Ok self ->
  ASTValidator.syntax self = syntax_data
  /\ ASTValidator.ast self = ast_data
  /\ _extract_syntax_nodes syntax_data = Ok (ASTValidator.syntax_nodes self).
Proof.
  unfold ASTValidator.init.
  destruct (_extract_syntax_nodes syntax_data) as [nodes|e]; [|discriminate].
  intros [= <-]. now repeat split.
Qed.

Lemma _validate_syntax_coverage_ok syntax_data ast_data self defs :
  ASTValidator.init syntax_data ast_data = Ok self ->
  items (_get_syntax_definitions syntax_data) = Ok defs ->
  refused defs = false ->
  exists errs, ASTValidator._validate_syntax_coverage self = Ok errs.
Proof.
  intros I D R. destruct (init_syntax _ _ I) as (Hs & _ & _).
  unfold ASTValidator._validate_syntax_coverage. rewrite Hs, D.
  cbn [bind]. apply for_items_ok. intros name def In_defs.
  apply coverage_entry_ok. exact (refused_entries _ R _ _ In_defs).
Qed.

Lemma _validate_syntax_coverage_raises syntax_data ast_data self defs :
  ASTValidator.init syntax_data ast_data = Ok self ->
  items (_get_syntax_definitions syntax_data) = Ok defs ->
  refused defs = true ->
  ASTValidator._validate_syntax_coverage self = Raise ValueError.
Proof.
  intros I D R. destruct (init_syntax _ _ I) as (Hs & _ & _).
  unfold ASTValidator._validate_syntax_coverage. rewrite Hs, D.
  cbn [bind]. now apply for_items_coverage_raises.
Qed.

(** For a validator that [__init__] built, an AST in which every [type]
    field is a string and a syntax without a refused depth, [validate]
    returns the diagnostics of the structural walk followed by those of
    the coverage pass. *)
Lemma validate_ok_on_string_types syntax_data ast_data self defs :
  ASTValidator.init syntax_data ast_data = Ok self ->
  str_types (VDict ast_data) = true ->
  items (_get_syntax_definitions syntax_data) = Ok defs ->
  refused defs = false ->
  exists structural coverage,
    ASTValidator.structural_walk self = Ok structural
    /\ ASTValidator._validate_syntax_coverage self = Ok coverage
    /\ ASTValidator.validate self = Ok (structural ++ coverage).
Proof.
  intros I S D R. destruct (init_syntax _ _ I) as (_ & Ha & _).
  rewrite <- Ha in S.
  destruct (structural_walk_ok self S) as [xs Ex].
  destruct (@_validate_syntax_coverage_ok _ _ _ _ I D R) as [ys Ey].
  exists xs, ys. unfold ASTValidator.validate. rewrite Ex, Ey.
  now repeat split.
Qed.

(** Outside the parser's range: a mapping entry whose [type] is a number,
    which no document parses to, makes [validate] raise [AttributeError]
    (the number has no [lower]). *)
Remark validate_raises_on_numeric_type :
  ASTValidator.init [] numbered_node
  = Ok (ASTValidator.mk [] numbered_node [])
  /\ ASTValidator.validate (ASTValidator.mk [] numbered_node [])
     = Raise AttributeError.
Proof. split; reflexivity. Qed.

(** ** The coverage pass *)

Lemma for_items_concat body (d : dict) : forall errs,
  for_items body d = Ok errs ->
  exists per_entry,
    errs = List.concat per_entry
    /\ Forall2 (fun kv diags => body (fst kv) (snd kv) = Ok diags)
         d per_entry.
Proof.
  induction d as [|[k v] r IH]; intros errs E.
  - injection E as <-. now exists [].
  - cbn [for_items] in E. apply seq_inv in E.
    destruct E as (xs & ys & B & R & ->).
    destruct (IH _ R) as (per & -> & F).
    exists (xs :: per). split; [reflexivity|]. now constructor.
Qed.

Lemma Forall2_In_l A B (R : A -> B -> Prop) (l : list A) (l' : list B) x :
  Forall2 R l l' -> In x l -> exists y, In y l' /\ R x y.
Proof.
  induction 1 as [|a b l l' Hab _ IH]; intros I; [contradiction|].
  destruct I as [<-|I].
  - exists b. split; [now left | exact Hab].
  - destruct (IH I) as (y & Hy & Hr). exists y. split; [now right | exact Hr].
Qed.

(** C1.  When no declaration of the syntax has a refused depth, the
    coverage diagnostics are, entry by entry in declaration order, those
    of [coverage_entry]; with such a declaration the pass raises
    [ValueError] instead.  An entry that declares a [node_type] and no
    [depth] yields no diagnostic if and only if some node of the flat list
    has that type, and otherwise exactly the one diagnostic
    "Syntax defines <name> (node_type: <t>) but AST has no example of this
    node type". *)
Theorem coverage_by_node_type self (defs : dict) (name : string) (def : dict)
  (node_type : Value) :
  items (_get_syntax_definitions (ASTValidator.syntax self)) = Ok defs ->
  In (name, VDict def) defs ->
  dict_get "node_type" def = Some node_type ->
  dict_has "depth" def = false ->
  let ast_nodes := ASTValidator._collect_ast_nodes self in
  let exemplified :=
    exists node, In node ast_nodes
                 /\ py_eq (get "type" node) node_type = true in
  (refused defs = false ->
   exists per_entry,
      ASTValidator._validate_syntax_coverage self = Ok (List.concat per_entry)
      /\ Forall2 (fun kv diags =>
                    ASTValidator.coverage_entry ast_nodes (fst kv) (snd kv)
                    = Ok diags) defs per_entry
      /\ exists diags,
          In diags per_entry
          /\ ASTValidator.coverage_entry ast_nodes name (VDict def)
             = Ok diags)
  /\ (refused defs = true ->
      ASTValidator._validate_syntax_coverage self = Raise ValueError)
  /\ (exemplified <->
      ASTValidator.coverage_entry ast_nodes name (VDict def) = Ok [])
  /\ (~ exemplified <->
      ASTValidator.coverage_entry ast_nodes name (VDict def)
      = Ok [[Lit "Syntax defines "; Fmt (VStr name);
             Lit " (node_type: "; Fmt node_type;
             Lit ") but AST has no example of this node type"]]).
Proof.
  intros I Hin T D ast_nodes exemplified.
  assert (Hex : exemplified <-> ASTValidator.found_type ast_nodes node_type
                                = true).
  { unfold exemplified, ASTValidator.found_type. now rewrite existsb_exists. }
  assert (Hentry : ASTValidator.coverage_entry ast_nodes name (VDict def)
                   = if ASTValidator.found_type ast_nodes node_type
                     then Ok []
                     else Ok [ASTValidator.coverage_type_msg name node_type]).
  { unfold ASTValidator.coverage_entry. rewrite T, D, andb_false_r.
    now destruct (ASTValidator.found_type ast_nodes node_type). }
  split; [|split; [|split]].
  - intros R. unfold ASTValidator._validate_syntax_coverage. rewrite I.
    cbn [bind].
    destruct (for_items_ok (ASTValidator.coverage_entry ast_nodes) defs)
      as [errs E].
    { intros k v In_defs. apply coverage_entry_ok.
      exact (refused_entries _ R _ _ In_defs). }
    fold ast_nodes. rewrite E.
    destruct (for_items_concat _ _ E) as (per & -> & F). exists per.
    split; [reflexivity|]. split; [exact F|].
    destruct (Forall2_In_l _ F Hin) as (diags & Hd & Hr). now exists diags.
  - intros R. unfold ASTValidator._validate_syntax_coverage. rewrite I.
    cbn [bind]. now apply for_items_coverage_raises.
  - rewrite Hex, Hentry.
    destruct (ASTValidator.found_type ast_nodes node_type);
      split; intros; try reflexivity; discriminate.
  - rewrite Hex, Hentry.
    destruct (ASTValidator.found_type ast_nodes node_type);
      split; intros H; try reflexivity; try discriminate;
      try (now contradiction H).
Qed.

Lemma coverage_by_node_type_witness :
  ASTValidator.coverage_entry
    (ASTValidator._collect_ast_nodes
       (ASTValidator.mk paragraph_syntax paragraph_document []))
    "Paragraph" (VDict [("node_type", VStr "paragraph")]) = Ok []
  /\ exists per_entry,
      ASTValidator._validate_syntax_coverage
        (ASTValidator.mk paragraph_syntax paragraph_document [])
      = Ok (List.concat per_entry).
Proof.
  destruct (@coverage_by_node_type
              (ASTValidator.mk paragraph_syntax paragraph_document [])
              paragraph_syntax "Paragraph"
              [("node_type", VStr "paragraph")] (VStr "paragraph")
              eq_refl (or_introl eq_refl) eq_refl eq_refl)
    as (Returns & _ & Zero & _).
  split.
  - apply Zero. exists [("type", VStr "paragraph")]. split; [|reflexivity].
    right. left. reflexivity.
  - destruct (Returns eq_refl) as (per_entry & E & _). now exists per_entry.
Defined.

Lemma coerce_depth_decimal (s : string) :
  isdigit s = true ->
  (String.length s <= max_str_digits)%nat ->
  ASTValidator.coerce_depth (VStr s) = Ok (VInt (int_of_digits s)).
Proof.
  unfold isdigit. intros G L. apply andb_true_iff in G as (N & G).
  unfold ASTValidator.coerce_depth, str_isdigit, int_of_text.
  rewrite N, G. cbn [andb].
  assert (all_chars is_unicode_digit s = true) as ->.
  { clear - G. induction s as [|c r IH]; [reflexivity|].
    cbn [all_chars] in *. apply andb_true_iff in G as (Gc & G).
    rewrite (IH G). unfold is_unicode_digit. now rewrite Gc. }
  apply Nat.leb_le in L. now rewrite L.
Qed.

(** C6.  For a schema of two heading entries whose depths are the texts
    [s1] and [s2] of decimal digits, no longer than [int] reads, and an
    AST whose flat list holds a heading of depth [int(s1)] and no heading
    of depth [int(s2)], the coverage pass yields exactly one diagnostic,
    the one naming the second entry and its depth; the schema depth is
    compared as the integer its digits denote. *)
Theorem heading_depth_coverage self (n1 n2 : string) (def1 def2 : dict)
  (s1 s2 : string) :
  _get_syntax_definitions (ASTValidator.syntax self)
  = VDict [(n1, VDict def1); (n2, VDict def2)] ->
  dict_get "node_type" def1 = Some (VStr "heading") ->
  dict_get "node_type" def2 = Some (VStr "heading") ->
  dict_get "depth" def1 = Some (VStr s1) ->
  dict_get "depth" def2 = Some (VStr s2) ->
  isdigit s1 = true ->
  isdigit s2 = true ->
  (String.length s1 <= max_str_digits)%nat ->
  (String.length s2 <= max_str_digits)%nat ->
  (exists node, In node (ASTValidator._collect_ast_nodes self)
                /\ py_eq (get "type" node) (VStr "heading") = true
                /\ py_eq (get "depth" node) (VInt (int_of_digits s1)) = true) ->
  (forall node, In node (ASTValidator._collect_ast_nodes self) ->
                py_eq (get "type" node) (VStr "heading") = true ->
                py_eq (get "depth" node) (VInt (int_of_digits s2)) = false) ->
  ASTValidator._validate_syntax_coverage self
  = Ok [[Lit "Syntax defines "; Fmt (VStr n2);
         Lit " (heading depth "; Fmt (VInt (int_of_digits s2));
         Lit ") but AST has no example heading with depth ";
         Fmt (VInt (int_of_digits s2))]]
  /\ ASTValidator.coerce_depth (VStr s1) = Ok (VInt (int_of_digits s1))
  /\ ASTValidator.coerce_depth (VStr s2) = Ok (VInt (int_of_digits s2)).
Proof.
  intros Hs T1 T2 D1 D2 G1 G2 L1 L2 Hyes Hno.
  pose proof (coerce_depth_decimal s1 G1 L1) as C1.
  pose proof (coerce_depth_decimal s2 G2 L2) as C2.
  split; [|now split].
  unfold ASTValidator._validate_syntax_coverage. rewrite Hs.
  cbn [items bind for_items]. unfold ASTValidator.coverage_entry.
  rewrite T1, T2. unfold dict_has, get. rewrite D1, D2, C1, C2.
  cbn [py_eq String.eqb Ascii.eqb Bool.eqb andb bind].
  assert (F1 : ASTValidator.found_depth (ASTValidator._collect_ast_nodes self)
                 (VInt (int_of_digits s1)) = true).
  { unfold ASTValidator.found_depth. apply existsb_exists.
    destruct Hyes as (node & I & Ht & Hd). exists node.
    split; [exact I|]. now rewrite Ht, Hd. }
  assert (F2 : ASTValidator.found_depth (ASTValidator._collect_ast_nodes self)
                 (VInt (int_of_digits s2)) = false).
  { unfold ASTValidator.found_depth.
    destruct (existsb _ _) eqn:E; [|reflexivity].
    apply existsb_exists in E. destruct E as (node & I & H).
    apply andb_prop in H. destruct H as [Ht Hd].
    now rewrite (Hno node I Ht) in Hd. }
  rewrite F1, F2. reflexivity.
Qed.

Lemma heading_depth_coverage_witness :
  ASTValidator._validate_syntax_coverage
    (ASTValidator.mk two_headings_syntax one_heading_document [])
  = Ok [ASTValidator.coverage_depth_msg "Heading2" (VInt 2)]
  /\ render (ASTValidator.coverage_depth_msg "Heading2" (VInt 2))
     = Some
         "Syntax defines Heading2 (heading depth 2) but AST has no example heading with depth 2".
Proof.
  split; [|reflexivity].
  refine (proj1 (@heading_depth_coverage
                   (ASTValidator.mk two_headings_syntax one_heading_document
                      [])
                   "Heading1" "Heading2" (heading_def "1" "#")
                   (heading_def "2" "##") "1" "2"
                   eq_refl eq_refl eq_refl eq_refl eq_refl eq_refl eq_refl
                   _ _ _ _)).
  - unfold max_str_digits. cbn. lia.
  - unfold max_str_digits. cbn. lia.
  - exists [("type", VStr "heading"); ("depth", VInt 1);
            ("children", VList [])].
    split; [right; left; reflexivity | split; reflexivity].
  - intros node [<-|[<-|[]]]; [discriminate | reflexivity].
Defined.

(** ** Schema extraction *)

Lemma py_eq_str (a : string) (x : Value) :
  py_eq (VStr a) x = true -> x = VStr a.
Proof.
  destruct x; cbn; try discriminate.
  intros E. apply String.eqb_eq in E. now subst.
Qed.

Lemma nodes_set_keeps k k' v m :
  nodes_mem k m = true -> nodes_mem k (nodes_set k' v m) = true.
Proof.
  unfold nodes_mem. induction m as [|[k2 v2] r IH]; cbn; [discriminate|].
  destruct (py_eq k' k2); cbn; destruct (py_eq k k2); auto.
Qed.

Lemma nodes_set_here (a : string) v m :
  nodes_get (VStr a) (nodes_set (VStr a) v m) = Some v.
Proof.
  induction m as [|[k2 v2] r IH]; cbn [nodes_set nodes_get].
  - cbn. now rewrite String.eqb_refl.
  - destruct (py_eq (VStr a) k2) eqn:E; cbn [nodes_get]; rewrite E;
      [reflexivity | exact IH].
Qed.

Lemma register_keeps k nodes key value nodes' :
  nodes_mem k nodes = true -> register nodes key value = Ok nodes' ->
  nodes_mem k nodes' = true.
Proof.
  unfold register. intros H.
  destruct value as [| | | | |l|d]; try (intros [= <-]; exact H).
  destruct (dict_get "node_type" d) as [nt|]; [|intros [= <-]; exact H].
  destruct (hashable nt); [|discriminate].
  intros [= <-]. now do 2 apply nodes_set_keeps.
Qed.

Lemma register_all_keeps k data : forall nodes nodes',
  nodes_mem k nodes = true -> register_all nodes data = Ok nodes' ->
  nodes_mem k nodes' = true.
Proof.
  induction data as [|[key value] r IH]; cbn; intros nodes nodes' H E.
  - now injection E as <-.
  - destruct (register nodes key value) as [n1|e] eqn:R; [|discriminate].
    cbn in E. eapply IH; [|exact E]. eapply register_keeps; eauto.
Qed.

(** One turn of the loop puts the definition under both names. *)
Lemma register_both nodes key (def : dict) (nt : string) :
  dict_get "node_type" def = Some (VStr nt) ->
  exists nodes',
    register nodes key (VDict def) = Ok nodes'
    /\ nodes_get (VStr nt) nodes' = Some (VDict def)
    /\ nodes_get (VStr (lower key)) nodes' = Some (VDict def).
Proof.
  intros T. unfold register. rewrite T. cbn [hashable].
  eexists. split; [reflexivity|]. split; [|apply nodes_set_here].
  destruct (String.eqb nt (lower key)) eqn:E.
  - apply String.eqb_eq in E. rewrite E. apply nodes_set_here.
  - set (m := nodes_set (VStr nt) (VDict def) nodes).
    assert (G : nodes_get (VStr nt) m = Some (VDict def))
      by apply nodes_set_here.
    clearbody m. induction m as [|[k2 v2] r IH]; [discriminate|].
    cbn [nodes_set nodes_get] in *.
    destruct (py_eq (VStr (lower key)) k2) eqn:E2.
    + apply py_eq_str in E2. subst k2. cbn [nodes_get py_eq] in *.
      rewrite E in *. exact G.
    + cbn [nodes_get]. destruct (py_eq (VStr nt) k2); [exact G | now apply IH].
Qed.

Lemma register_all_adds data : forall nodes nodes' key (def : dict) nt,
  In (key, VDict def) data ->
  dict_get "node_type" def = Some (VStr nt) ->
  register_all nodes data = Ok nodes' ->
  nodes_mem (VStr nt) nodes' = true
  /\ nodes_mem (VStr (lower key)) nodes' = true.
Proof.
  induction data as [|[k v] r IH]; intros nodes nodes' key def nt I T E;
    [contradiction|].
  cbn in E. destruct (register nodes k v) as [n1|e] eqn:R; [|discriminate].
  cbn in E. destruct I as [[= -> ->]|I].
  - destruct (register_both nodes key def T) as (n2 & R2 & G1 & G2).
    rewrite R in R2. injection R2 as <-.
    split; eapply register_all_keeps; try exact E; unfold nodes_mem;
      [now rewrite G1 | now rewrite G2].
  - eapply IH; eauto.
Qed.

(** C7, as the code has it.  Extraction registers each definition that
    holds a [node_type] under two names -- the node type as written and
    the declaration name in lower case -- so that the validator accepts
    the node type as written and every case variant of the declaration
    name; one turn of the loop maps both names to the definition; a value
    that is no mapping or lacks [node_type] leaves the model as it is. *)
Theorem extraction_registers_two_names syntax_data ast_data self (data : dict) :
  ASTValidator.init syntax_data ast_data = Ok self ->
  items (_get_syntax_definitions syntax_data) = Ok data ->
  (forall key (def : dict) (nt : string),
      In (key, VDict def) data ->
      dict_get "node_type" def = Some (VStr nt) ->
      nodes_mem (VStr nt) (ASTValidator.syntax_nodes self) = true
      /\ nodes_mem (VStr (lower key)) (ASTValidator.syntax_nodes self) = true
      /\ ASTValidator._is_valid_node_type self (VStr nt) = Ok true
      /\ (forall variant, lower variant = lower key ->
          ASTValidator._is_valid_node_type self (VStr variant) = Ok true)
      /\ forall nodes, exists nodes',
          register nodes key (VDict def) = Ok nodes'
          /\ nodes_get (VStr nt) nodes' = Some (VDict def)
          /\ nodes_get (VStr (lower key)) nodes' = Some (VDict def))
  /\ (forall nodes key value,
         (forall def, value = VDict def -> dict_get "node_type" def = None) ->
         register nodes key value = Ok nodes).
Proof.
  intros I D. destruct (init_syntax _ _ I) as (_ & _ & X).
  unfold _extract_syntax_nodes in X. rewrite D in X. cbn [bind] in X.
  split.
  - intros key def nt Hin T.
    destruct (register_all_adds _ _ _ _ Hin T X) as [M1 M2].
    split; [exact M1|]. split; [exact M2|].
    unfold nodes_mem in M1, M2.
    split; [|split].
    + rewrite _is_valid_node_type_str. unfold known_type.
      destruct (nodes_get (VStr nt) _); [|discriminate].
      now rewrite orb_true_r.
    + intros variant L. rewrite _is_valid_node_type_str. unfold known_type.
      rewrite L.
      destruct (nodes_get (VStr (lower key)) _); [|discriminate].
      destruct (nodes_get (VStr variant) _); now rewrite orb_true_r.
    + intros nodes. now apply register_both.
  - intros nodes key value H. unfold register.
    destruct value; try reflexivity. now rewrite (H _ eq_refl).
Qed.

Lemma extraction_registers_two_names_witness :
  ASTValidator._is_valid_node_type
    (ASTValidator.mk mixed_case_syntax [] mixed_case_nodes) (VStr "myType")
  = Ok true
  /\ ASTValidator._is_valid_node_type
       (ASTValidator.mk mixed_case_syntax [] mixed_case_nodes) (VStr "FOO")
     = Ok true.
Proof.
  destruct (proj1 (@extraction_registers_two_names
                     mixed_case_syntax []
                     (ASTValidator.mk mixed_case_syntax [] mixed_case_nodes)
                     mixed_case_syntax eq_refl eq_refl)
              "Foo" [("node_type", VStr "myType")] "myType"
              (or_introl eq_refl) eq_refl)
    as (_ & _ & V & W & _).
  split; [exact V | exact (W "FOO" eq_refl)].
Defined.

(** C7, as stated, fails: the node type is registered as written, not
    case-folded, so a case variant of it does not resolve; and the
    generator looks a name up as written only, so there not even a case
    variant of the declaration name resolves. *)
Lemma node_type_not_case_folded :
  _extract_syntax_nodes mixed_case_syntax = Ok mixed_case_nodes
  /\ nodes_get (VStr (lower "myType")) mixed_case_nodes = None
  /\ ASTValidator._is_valid_node_type
       (ASTValidator.mk mixed_case_syntax [] mixed_case_nodes) (VStr "MYTYPE")
     = Ok false
  /\ DisplayHintsGenerator._get_display_info
       (DisplayHintsGenerator.mk mixed_case_syntax [] mixed_case_nodes)
       (VStr "Foo")
     = Ok DisplayHintsGenerator.unknown_info.
Proof. repeat split. Qed.

(** ** The scans never lengthen the text *)

Lemma span_length p (s : string) :
  (String.length (fst (span p s)) + String.length (snd (span p s))
   = String.length s)%nat.
Proof.
  induction s as [|c r IH]; [reflexivity|]. cbn [span].
  destruct (p c); [|reflexivity].
  destruct (span p r) as [a b]. cbn in *. lia.
Qed.

Lemma span_rest_le p (s a b : string) :
  span p s = (a, b) -> (String.length b <= String.length s)%nat.
Proof.
  intros E. pose proof (span_length p s) as H. rewrite E in H. cbn in H. lia.
Qed.

Lemma span_rest_lt p c (r a b : string) :
  p c = true -> span p (String c r) = (a, b) ->
  (String.length b <= String.length r)%nat.
Proof.
  cbn [span]. intros ->. destruct (span p r) as [a' b'] eqn:E.
  intros [= <- <-]. exact (span_rest_le _ _ E).
Qed.

Lemma drop_while_le p (s : string) :
  (String.length (drop_while p s) <= String.length s)%nat.
Proof.
  unfold drop_while. pose proof (span_length p s). lia.
Qed.

Lemma drop_le n : forall s : string,
  (String.length (drop n s) <= String.length s)%nat.
Proof.
  induction n as [|n IH]; intros s; [destruct s; cbn; lia|].
  destruct s as [|c r]; cbn; [lia|]. specialize (IH r). lia.
Qed.

Lemma drop_last_le (s : string) :
  (String.length (drop_last s) <= String.length s)%nat.
Proof.
  induction s as [|c r IH]; [cbn; lia|].
  destruct r as [|c' r']; [cbn; lia|].
  change (drop_last (String c (String c' r')))
    with (String c (drop_last (String c' r'))).
  cbn [String.length] in *. lia.
Qed.

Lemma scan_string_le (s : string) : forall v rest,
  scan_string s = (v, rest) -> (String.length rest <= String.length s)%nat.
Proof.
  induction s as [s IH] using (well_founded_induction
                                 (Wf_nat.well_founded_ltof _ String.length)).
  unfold Wf_nat.ltof in IH. intros v rest E.
  destruct s as [|c r]; cbn [scan_string] in E; [injection E as <- <-; lia|].
  destruct (Ascii.eqb c quote); [injection E as <- <-; cbn; lia|].
  destruct (Ascii.eqb c backslash).
  - destruct r as [|c2 r2]; [injection E as <- <-; cbn; lia|].
    destruct (scan_string r2) as [v' rest'] eqn:E2. injection E as <- <-.
    assert (String.length rest' <= String.length r2)%nat
      by (eapply IH; [cbn; lia | exact E2]).
    cbn. lia.
  - destruct (scan_string r) as [v' rest'] eqn:E2. injection E as <- <-.
    assert (String.length rest' <= String.length r)%nat
      by (eapply IH; [cbn; lia | exact E2]).
    cbn. lia.
Qed.

Lemma scan_nested_length opening closing (s : string) : forall count a b,
  scan_nested opening closing count s = (a, b) ->
  (String.length a + String.length b = String.length s)%nat.
Proof.
  induction s as [|c r IH]; intros count a b E; cbn [scan_nested] in E.
  - now injection E as <- <-.
  - destruct (if Ascii.eqb c opening then S count
              else if Ascii.eqb c closing then pred count else count)
      as [|n]; [injection E as <- <-; reflexivity|].
    destruct (scan_nested opening closing (S n) r) as [a' b'] eqn:E2.
    injection E as <- <-. specialize (IH _ _ _ E2). cbn. lia.
Qed.

Lemma scan_fallback_le (s : string) : forall count a b,
  scan_fallback count s = (a, b) ->
  (String.length b <= String.length s)%nat.
Proof.
  induction s as [|c r IH]; intros count a b E; cbn [scan_fallback] in E.
  - injection E as <- <-. cbn; lia.
  - destruct (Ascii.eqb c "{").
    { destruct (scan_fallback (count + 1) r) as [a' b'] eqn:E2.
      injection E as <- <-. specialize (IH _ _ _ E2). cbn. lia. }
    destruct (Ascii.eqb c "}").
    { destruct (scan_fallback (count - 1) r) as [a' b'] eqn:E2.
      injection E as <- <-. specialize (IH _ _ _ E2). cbn. lia. }
    destruct (Ascii.eqb c "," && (count =? 0)%Z).
    { injection E as <- <-. cbn. lia. }
    destruct (scan_fallback count r) as [a' b'] eqn:E2.
    injection E as <- <-. specialize (IH _ _ _ E2). cbn. lia.
Qed.

(** ** The parser always returns *)

Lemma upper_not_blank_or_brace (c : ascii) :
  is_upper c = true ->
  negb (in_chars [" "%char; tab; newline; "{"%char] c) = true.
Proof.
  intros U. unfold in_chars. cbn [existsb].
  repeat match goal with
         | |- context [Ascii.eqb c ?x] =>
             destruct (Ascii.eqb_spec c x) as [->|_]; [discriminate U|]
         end.
  reflexivity.
Qed.

Lemma plain_not_comma_or_bracket (c : ascii) :
  Ascii.eqb c "]" = false ->
  in_chars ASTSyntaxChecker.separators c = false ->
  negb (in_chars [","%char; "]"%char] c) = true.
Proof.
  unfold in_chars, ASTSyntaxChecker.separators. cbn [existsb].
  intros -> H.
  destruct (Ascii.eqb c " "), (Ascii.eqb c tab), (Ascii.eqb c newline),
    (Ascii.eqb c ","); try discriminate H; reflexivity.
Qed.

Lemma loops_total : forall fuel,
  (forall s out, (String.length s < fuel)%nat ->
     exists r, ASTSyntaxChecker.structure_loop fuel s out = Some r)
  /\ (forall s acc, (String.length s < fuel)%nat ->
        exists r, ASTSyntaxChecker.array_loop fuel s acc = Some r
                  /\ forall a rest, r = Ok (a, rest) ->
                       (String.length rest <= String.length s)%nat).
Proof.
  induction fuel as [|fuel [IHs IHa]]; [split; intros; lia|].
  split.
  - intros s out L. cbn [ASTSyntaxChecker.structure_loop].
    pose proof (drop_while_le (in_chars ASTSyntaxChecker.separators) s) as H1.
    destruct (drop_while (in_chars ASTSyntaxChecker.separators) s)
      as [|a0 s0]; [eexists; reflexivity|].
    destruct (span _ (String a0 s0)) as [key_text s2] eqn:E2.
    apply span_rest_le in E2.
    destruct s2 as [|c2 s3]; [eexists; reflexivity|].
    pose proof (drop_while_le (in_chars ASTSyntaxChecker.blanks) s3) as H3.
    destruct (drop_while (in_chars ASTSyntaxChecker.blanks) s3)
      as [|c r]; [eexists; reflexivity|].
    cbn [String.length] in *.
    destruct (Ascii.eqb c quote).
    { destruct (scan_string r) as [value rest] eqn:E4.
      apply scan_string_le in E4. apply IHs. lia. }
    destruct (Ascii.eqb c "[").
    { pose proof (drop_while_le (in_chars ASTSyntaxChecker.blanks) r) as H5.
      destruct (IHa (drop_while (in_chars ASTSyntaxChecker.blanks) r) [])
        as (ra & -> & Hr); [lia|].
      destruct ra as [[a rest]|e]; [|eexists; reflexivity].
      specialize (Hr _ _ eq_refl). apply IHs. lia. }
    destruct (prefix "Some" (String c r)).
    { cbv zeta. pose proof (drop_le 4 (String c r)) as H6.
      cbn [String.length] in H6.
      destruct (starts_with "(" (drop 4 (String c r))).
      - destruct (scan_nested "(" ")" 1 (drop 1 (drop 4 (String c r))))
          as [passed rest] eqn:E7.
        apply scan_nested_length in E7.
        pose proof (drop_le 1 (drop 4 (String c r))). apply IHs. lia.
      - apply IHs. lia. }
    destruct (is_digit c || Ascii.eqb c "-").
    { destruct (span _ (String c r)) as [value rest] eqn:E8.
      apply span_rest_le in E8. cbn [String.length] in E8.
      destruct (ASTSyntaxChecker.numeric_value value);
        [apply IHs; lia | eexists; reflexivity]. }
    destruct (prefix "true" (String c r)).
    { pose proof (drop_le 4 (String c r)) as H6.
      cbn [String.length] in H6. apply IHs. lia. }
    destruct (prefix "false" (String c r)).
    { pose proof (drop_le 5 (String c r)) as H6.
      cbn [String.length] in H6. apply IHs. lia. }
    destruct (scan_fallback 0 (String c r)) as [text rest] eqn:E9.
    apply scan_fallback_le in E9. cbn [String.length] in E9.
    apply IHs. lia.
  - intros s acc L. cbn [ASTSyntaxChecker.array_loop].
    destruct s as [|c r];
      [eexists; split; [reflexivity | intros ? ? [= <- <-]; lia]|].
    cbn [String.length] in *.
    destruct (Ascii.eqb c "]") eqn:B;
      [eexists; split; [reflexivity | intros ? ? [= <- <-]; lia]|].
    destruct (in_chars ASTSyntaxChecker.separators c) eqn:Sep.
    { destruct (IHa r acc) as (ra & Ea & Hr); [lia|].
      exists ra. split; [exact Ea|]. intros a rest ->.
      specialize (Hr _ _ eq_refl). lia. }
    destruct (is_upper c) eqn:U.
    { destruct (span _ (String c r)) as [node_type s1] eqn:E1.
      apply span_rest_lt in E1; [|now apply upper_not_blank_or_brace].
      cbv zeta.
      pose proof (drop_while_le (in_chars ASTSyntaxChecker.blanks) s1) as H2.
      set (s2 := drop_while (in_chars ASTSyntaxChecker.blanks) s1) in *.
      destruct (starts_with "{" s2).
      - destruct (scan_nested "{" "}" 1 (drop 1 s2)) as [passed rest] eqn:E2.
        apply scan_nested_length in E2.
        pose proof (drop_le 1 s2). pose proof (drop_last_le passed).
        destruct (IHs (drop_last passed) []) as [rs ->]; [lia|].
        destruct rs as [parsed|e].
        + destruct (IHa rest (acc ++ [VDict parsed])) as (ra & Ea & Hr);
            [lia|].
          exists ra. split; [exact Ea|]. intros a rest' ->.
          specialize (Hr _ _ eq_refl). lia.
        + eexists. split; [reflexivity | discriminate].
      - destruct (IHa s2 acc) as (ra & Ea & Hr); [lia|].
        exists ra. split; [exact Ea|]. intros a rest ->.
        specialize (Hr _ _ eq_refl). lia. }
    destruct (span _ (String c r)) as [text rest] eqn:E1.
    apply span_rest_lt in E1; [|now apply plain_not_comma_or_bracket].
    destruct (IHa rest
                (if String.eqb (strip_quotes (strip text)) ""
                 then acc else acc ++ [VStr (strip_quotes (strip text))]))
      as (ra & Ea & Hr); [lia|].
    exists ra. split; [exact Ea|]. intros a rest' ->.
    specialize (Hr _ _ eq_refl). lia.
Qed.

(** C2, as the code has it.  [_parse_ron_content] answers every text with
    a mapping: no loop of the parser fails to end, and no exception leaves
    it (the [ValueError] of a malformed number ends in the empty mapping
    inside [_parse_ron_object]). *)
Theorem _parse_ron_content_total (content : string) :
  exists parsed : dict,
    ASTSyntaxChecker._parse_ron_content content = Some parsed.
Proof.
  unfold ASTSyntaxChecker._parse_ron_content.
  destruct (String.eqb (ASTSyntaxChecker.strip_comments content) "");
    [now eexists|].
  destruct (prefix "RootNode" _ || prefix "Document" _).
  - unfold ASTSyntaxChecker._parse_ron_object.
    destruct (negb (contains_char "{" _)); [now eexists|].
    destruct (find "{" _) as [brace_start|]; [|now eexists].
    destruct (rfind "}" _) as [brace_end|]; [|now eexists].
    unfold ASTSyntaxChecker._parse_ron_structure.
    destruct (proj1 (loops_total (S (String.length
                (strip (slice (brace_start + 1) brace_end
                          (ASTSyntaxChecker.strip_comments content))))))
                (strip (slice (brace_start + 1) brace_end
                          (ASTSyntaxChecker.strip_comments content))) [])
      as [r ->]; [lia|].
    destruct r; now eexists.
  - destruct (contains_char "{" _ && contains "node_type" _); now eexists.
Qed.

(** C2, as stated, fails: a text with an unterminated string, bracket or
    optional wrapper is answered with a partly recovered mapping, and a
    text whose braces never close with the empty mapping. *)
Lemma unterminated_text_is_answered :
  ASTSyntaxChecker._parse_ron_content unterminated_string_text
  = Some [("a", VStr "abc")]
  /\ ASTSyntaxChecker._parse_ron_content unterminated_bracket_text
     = Some [("a", VList [VStr "1"; VStr "2"])]
  /\ ASTSyntaxChecker._parse_ron_content unterminated_optional_text
     = Some [("a", VInt 1)]
  /\ ASTSyntaxChecker._parse_ron_content "RootNode { a: [1, 2" = Some [].
Proof. repeat split; vm_compute; reflexivity. Qed.

(** ** The end-to-end scenario *)

(** C4, as the code has it.  The syntax document [Heading1 { node_type:
    "heading", depth: 1, markdown_syntax: "#" }] and the AST document
    [RootNode { type: "heading", depth: 1, children: [] }] parse to the
    schema and to the heading node; validation returns no diagnostic; and
    generation returns, under the key [display_hints], the hint with type
    [heading], style [block], decoration and markdown syntax [#], the
    copied attribute [attr_depth] and no [children] key. *)
Theorem end_to_end_heading_scenario :
  ASTSyntaxChecker._parse_ron_content heading_syntax_text
  = Some heading_syntax
  /\ ASTSyntaxChecker._parse_ron_content heading_ast_text = Some heading_ast
  /\ ASTValidator.init heading_syntax heading_ast
     = Ok (ASTValidator.mk heading_syntax heading_ast heading_nodes)
  /\ ASTValidator.validate
       (ASTValidator.mk heading_syntax heading_ast heading_nodes) = Ok []
  /\ DisplayHintsGenerator.init heading_syntax heading_ast
     = Ok (DisplayHintsGenerator.mk heading_syntax heading_ast heading_nodes)
  /\ DisplayHintsGenerator.generate
       (DisplayHintsGenerator.mk heading_syntax heading_ast heading_nodes)
     = Some (VDict [("display_hints",
                     VDict (four_field_hint ++ [("attr_depth", VInt 1)]))])
  /\ dict_get "children" (four_field_hint ++ [("attr_depth", VInt 1)]) = None.
Proof. repeat split; vm_compute; reflexivity. Qed.

(** C4, as stated, fails: the hint generated in the scenario is not the
    four-field mapping, it carries the depth of the node as well. *)
Lemma heading_hint_carries_depth :
  DisplayHintsGenerator.generate
    (DisplayHintsGenerator.mk heading_syntax heading_ast heading_nodes)
  <> Some (VDict [("display_hints", VDict four_field_hint)])
  /\ DisplayHintsGenerator.generate
       (DisplayHintsGenerator.mk heading_syntax heading_ast heading_nodes)
     <> Some (VDict four_field_hint)
  /\ DisplayHintsGenerator._generate_simple_hints
       (DisplayHintsGenerator.mk heading_syntax heading_ast heading_nodes)
       (VDict heading_ast)
     = Ok (VDict (four_field_hint ++ [("attr_depth", VInt 1)])).
Proof. repeat split; vm_compute; discriminate. Qed.

(** ** What the parser makes of a root document *)

Lemma dict_set_flat k v (d : dict) :
  (forall d', v <> VDict d') -> is_flat d = true ->
  is_flat (dict_set k v d) = true.
Proof.
  intros Hv. unfold is_flat.
  induction d as [|[k' v'] r IH]; cbn [dict_set forallb snd].
  - intros _. destruct v; try reflexivity. now contradiction (Hv l).
  - intros H. apply andb_prop in H. destruct H as [H1 H2].
    destruct (String.eqb k k'); cbn [forallb snd].
    + rewrite H2, andb_true_r. destruct v; try reflexivity.
      now contradiction (Hv l).
    + now rewrite H1, IH.
Qed.

Ltac flat_step IH :=
  eapply IH; [|eassumption]; try assumption;
  try (apply dict_set_flat; [discriminate | assumption]).

Lemma structure_loop_flat : forall fuel s out parsed,
  is_flat out = true ->
  ASTSyntaxChecker.structure_loop fuel s out = Some (Ok parsed) ->
  is_flat parsed = true.
Proof.
  induction fuel as [|fuel IH]; intros s out parsed F E; [discriminate|].
  cbn [ASTSyntaxChecker.structure_loop] in E.
  destruct (drop_while (in_chars ASTSyntaxChecker.separators) s)
    as [|a0 s0]; [now injection E as <-|].
  destruct (span _ (String a0 s0)) as [key_text s2].
  destruct s2 as [|c2 s3]; [now injection E as <-|].
  destruct (drop_while (in_chars ASTSyntaxChecker.blanks) s3)
    as [|c r]; [now injection E as <-|].
  destruct (Ascii.eqb c quote).
  { destruct (scan_string r) as [value rest]. flat_step IH. }
  destruct (Ascii.eqb c "[").
  { destruct (ASTSyntaxChecker.array_loop fuel _ [])
      as [[[a rest]|e]|]; try discriminate E. flat_step IH. }
  destruct (prefix "Some" (String c r)).
  { cbv zeta in E. destruct (starts_with "(" _).
    - destruct (scan_nested "(" ")" 1 _) as [passed rest].
      eapply IH; [|exact E]. apply dict_set_flat; [|assumption].
      unfold ASTSyntaxChecker.optional_value.
      repeat match goal with
             | |- context [if ?b then _ else _] => destruct b
             end; discriminate.
    - flat_step IH. }
  destruct (is_digit c || Ascii.eqb c "-").
  { destruct (span _ (String c r)) as [value rest].
    destruct (ASTSyntaxChecker.numeric_value value) as [v|e] eqn:N;
      [|discriminate E].
    eapply IH; [|exact E]. apply dict_set_flat; [|assumption].
    unfold ASTSyntaxChecker.numeric_value in N.
    destruct (isdigit value); [injection N as <-; discriminate|].
    destruct (float_of_string value); [|discriminate N].
    injection N as <-. discriminate. }
  destruct (prefix "true" (String c r)); [flat_step IH|].
  destruct (prefix "false" (String c r)); [flat_step IH|].
  destruct (scan_fallback 0 (String c r)) as [text rest].
  destruct (String.eqb (strip text) ""); flat_step IH.
Qed.

Lemma _parse_ron_object_flat content parsed :
  ASTSyntaxChecker._parse_ron_object content = Some parsed ->
  is_flat parsed = true.
Proof.
  unfold ASTSyntaxChecker._parse_ron_object,
    ASTSyntaxChecker._parse_ron_structure.
  destruct (negb (contains_char "{" content)); [now intros [= <-]|].
  destruct (find "{" content); [|now intros [= <-]].
  destruct (rfind "}" content); [|now intros [= <-]].
  destruct (ASTSyntaxChecker.structure_loop _ _ []) as [[d|e]|] eqn:E;
    [|now intros [= <-] | discriminate].
  intros [= <-]. eapply structure_loop_flat; [|exact E]. reflexivity.
Qed.

Lemma validate_top_flat self (d : dict) :
  is_flat d = true -> for_items (ASTValidator.validate_top self) d = Ok [].
Proof.
  unfold is_flat. induction d as [|[k v] r IH]; [reflexivity|].
  cbn [forallb snd for_items]. intros H. apply andb_prop in H.
  destruct H as [Hv Hr]. rewrite (IH Hr).
  destruct v; try reflexivity. discriminate Hv.
Qed.

Lemma structural_walk_flat self :
  is_flat (ASTValidator.ast self) = true ->
  ASTValidator.structural_walk self = Ok [].
Proof.
  intros F. unfold ASTValidator.structural_walk, ASTValidator.ast_root.
  destruct (dict_get "root" (ASTValidator.ast self)) as [r|] eqn:G.
  - apply dict_get_In in G. unfold is_flat in F.
    rewrite forallb_forall in F. specialize (F _ G). cbn [snd] in F.
    destruct r; try reflexivity. discriminate F.
  - now apply validate_top_flat.
Qed.

(** C5, where the code departs from it.  For every AST document of the
    root form ([RootNode { ... }] or [Document { ... }]) the parsed value
    is the root node itself, none of its entries is a mapping, and the
    structural walk -- which looks for nodes among the entries only --
    validates nothing: [validate] is the coverage pass alone. *)
Theorem structural_walk_skips_parsed_root content (ast_data syntax_data : dict)
  self :
  prefix "RootNode" (ASTSyntaxChecker.strip_comments content)
  || prefix "Document" (ASTSyntaxChecker.strip_comments content) = true ->
  ASTSyntaxChecker._parse_ron_content content = Some ast_data ->
  ASTValidator.init syntax_data ast_data = Ok self ->
  ASTValidator.structural_walk self = Ok []
  /\ ASTValidator.validate self = ASTValidator._validate_syntax_coverage self.
Proof.
  intros R P I. destruct (init_syntax _ _ I) as (_ & Ha & _).
  unfold ASTSyntaxChecker._parse_ron_content in P. rewrite R in P.
  assert (F : is_flat ast_data = true).
  { destruct (String.eqb _ ""); [now injection P as <-|].
    now apply _parse_ron_object_flat in P. }
  rewrite <- Ha in F. pose proof (structural_walk_flat self F) as W.
  split; [exact W|]. unfold ASTValidator.validate. rewrite W.
  apply seq_pass_l.
Qed.

Lemma structural_walk_skips_parsed_root_witness :
  ASTSyntaxChecker._parse_ron_content bogus_root_text = Some bogus_root
  /\ ASTValidator.validate
       (ASTValidator.mk heading_syntax bogus_root heading_nodes) = Ok []
  /\ ASTValidator.validate
       (ASTValidator.mk heading_syntax [("RootNode", VDict bogus_root)]
          heading_nodes)
     = Ok [ASTValidator.unknown_type_msg (VStr "bogus")]
  /\ DisplayHintsGenerator.root_node
       (DisplayHintsGenerator.mk heading_syntax bogus_root heading_nodes)
     = VDict bogus_root.
Proof.
  split; [vm_compute; reflexivity|].
  split; [|split; vm_compute; reflexivity].
  rewrite (proj2 (@structural_walk_skips_parsed_root
                    bogus_root_text bogus_root heading_syntax
                    (ASTValidator.mk heading_syntax bogus_root heading_nodes)
                    eq_refl eq_refl eq_refl)).
  reflexivity.
Defined.

(** ** Validation of a parsed document *)

Lemma dict_set_forallb (P : Value -> bool) k v (d : dict) :
  P v = true ->
  forallb (fun kv => P (snd kv)) d = true ->
  forallb (fun kv => P (snd kv)) (dict_set k v d) = true.
Proof.
  intros Hv. induction d as [|[k' v'] r IH]; cbn [dict_set forallb snd].
  - intros _. now rewrite Hv.
  - intros H. apply andb_prop in H. destruct H as [H1 H2].
    destruct (String.eqb k k'); cbn [forallb snd].
    + now rewrite Hv, H2.
    + now rewrite H1, IH.
Qed.

Lemma parse_properties_all_str (props : list string) : forall properties,
  all_str properties = true ->
  all_str (fold_left ASTSyntaxChecker.parse_property props properties) = true.
Proof.
  induction props as [|prop r IH]; intros properties H; [exact H|].
  cbn [fold_left]. apply IH. unfold ASTSyntaxChecker.parse_property.
  destruct (contains_char ":" (strip prop)); [|exact H].
  destruct (span _ (strip prop)) as [key rest].
  unfold all_str.
  now apply (dict_set_forallb
               (fun v => match v with VStr _ => true | _ => false end)).
Qed.

Lemma _parse_syntax_node_plain node_line :
  plain_defs (ASTSyntaxChecker._parse_syntax_node node_line) = true.
Proof.
  unfold ASTSyntaxChecker._parse_syntax_node.
  destruct (negb (contains_char "{" node_line)); [reflexivity|].
  destruct (span _ node_line) as [name rest]. cbv zeta.
  cbn [plain_defs forallb snd]. rewrite andb_true_r.
  now apply parse_properties_all_str.
Qed.

Lemma dict_update_plain (e : dict) : forall out,
  plain_defs out = true -> plain_defs e = true ->
  plain_defs (dict_update out e) = true.
Proof.
  unfold dict_update.
  induction e as [|[k v] r IH]; intros out Ho He; [exact Ho|].
  cbn [fold_left fst snd]. cbn [plain_defs forallb snd] in He.
  apply andb_prop in He. destruct He as [Hv Hr]. apply IH; [|exact Hr].
  unfold plain_defs.
  now apply (dict_set_forallb
               (fun v => match v with
                         | VDict props => all_str props
                         | _ => false
                         end)).
Qed.

Lemma flush_plain out current_node :
  plain_defs out = true ->
  plain_defs (ASTSyntaxChecker.flush out current_node) = true.
Proof.
  intros H. unfold ASTSyntaxChecker.flush.
  destruct (String.eqb current_node ""); [exact H|].
  destruct (truthy _); [|exact H].
  apply dict_update_plain; [exact H | apply _parse_syntax_node_plain].
Qed.

Lemma parse_syntax_format_plain content :
  plain_defs (ASTSyntaxChecker.parse_syntax_format content) = true.
Proof.
  unfold ASTSyntaxChecker.parse_syntax_format.
  assert (H : forall lines state,
             plain_defs (fst state) = true ->
             plain_defs
               (fst (fold_left ASTSyntaxChecker.syntax_line lines state))
             = true).
  { induction lines as [|line r IH]; intros [out cur] Hs; [exact Hs|].
    cbn [fold_left]. apply IH. unfold ASTSyntaxChecker.syntax_line.
    destruct (_ && contains_char "{" _); [now apply flush_plain|].
    now destruct (_ && _). }
  specialize (H (split_on newline content) ([], EmptyString) eq_refl).
  destruct (fold_left _ _ _) as [out cur]. now apply flush_plain.
Qed.

(** What a parsed document looks like: no entry is a mapping, or every
    entry is a mapping of strings. *)
Lemma _parse_ron_content_shape content parsed :
  ASTSyntaxChecker._parse_ron_content content = Some parsed ->
  is_flat parsed = true \/ plain_defs parsed = true.
Proof.
  unfold ASTSyntaxChecker._parse_ron_content.
  destruct (String.eqb _ ""); [intros [= <-]; now left|].
  destruct (prefix "RootNode" _ || prefix "Document" _).
  - intros P. left. now apply _parse_ron_object_flat in P.
  - destruct (_ && _); intros [= <-];
      [right; apply parse_syntax_format_plain | now left].
Qed.

Lemma all_str_str_types (props : dict) :
  all_str props = true -> str_types (VDict props) = true.
Proof.
  intros H. unfold all_str in H. rewrite forallb_forall in H.
  cbn [str_types]. apply andb_true_intro. split.
  - destruct (dict_get "type" props) as [t|] eqn:T; [|reflexivity].
    specialize (H _ (dict_get_In _ _ T)). cbn [snd] in H.
    now destruct t.
  - apply forallb_forall. intros [k v] I. specialize (H _ I). cbn [snd] in *.
    now destruct v.
Qed.

Lemma structural_walk_plain self :
  plain_defs (ASTValidator.ast self) = true ->
  exists errs, ASTValidator.structural_walk self = Ok errs.
Proof.
  intros H. unfold plain_defs in H. rewrite forallb_forall in H.
  unfold ASTValidator.structural_walk, ASTValidator.ast_root.
  destruct (dict_get "root" (ASTValidator.ast self)) as [r|] eqn:G.
  - specialize (H _ (dict_get_In _ _ G)). cbn [snd] in H.
    destruct r as [| | | | |l|props]; try discriminate H.
    apply for_items_ok. intros k v I. apply validate_top_ok.
    exact (str_types_entry _ _ _ (all_str_str_types _ H) I).
  - apply for_items_ok. intros k v I. apply validate_top_ok.
    specialize (H _ I). cbn [snd] in H.
    destruct v as [| | | | |l|props]; try discriminate H.
    now apply all_str_str_types.
Qed.

(** C3.  [validate] can raise.  For every validator that [__init__] built
    on a parsed AST: when a declaration of the syntax is a heading whose
    depth [str.isdigit] accepts and [int] refuses, [validate] raises
    [ValueError]; without such a declaration it returns the diagnostics of
    the structural walk followed by those of the coverage pass. *)
Theorem validate_raises_on_refused_depth content
  (syntax_data ast_data : dict) self (defs : dict) :
  ASTSyntaxChecker._parse_ron_content content = Some ast_data ->
  ASTValidator.init syntax_data ast_data = Ok self ->
  items (_get_syntax_definitions syntax_data) = Ok defs ->
  (refused defs = true -> ASTValidator.validate self = Raise ValueError)
  /\ (refused defs = false ->
      exists structural coverage,
        ASTValidator.structural_walk self = Ok structural
        /\ ASTValidator._validate_syntax_coverage self = Ok coverage
        /\ ASTValidator.validate self = Ok (structural ++ coverage)).
Proof.
  intros P I D. destruct (init_syntax _ _ I) as (_ & Ha & _).
  assert (exists xs, ASTValidator.structural_walk self = Ok xs) as [xs Ex].
  { destruct (_parse_ron_content_shape _ P) as [F|F]; rewrite <- Ha in F.
    - exists []. now apply structural_walk_flat.
    - now apply structural_walk_plain. }
  unfold ASTValidator.validate. rewrite Ex. split; intros R.
  - now rewrite (@_validate_syntax_coverage_raises _ _ _ _ I D R).
  - destruct (@_validate_syntax_coverage_ok _ _ _ _ I D R) as [ys Ey].
    exists xs, ys. rewrite Ey. now repeat split.
Qed.

Lemma validate_raises_on_refused_depth_witness :
  ASTSyntaxChecker._parse_ron_content refused_depth_syntax_text
  = Some refused_depth_syntax
  /\ ASTSyntaxChecker._parse_ron_content heading_ast_text = Some heading_ast
  /\ exists self,
      ASTValidator.init refused_depth_syntax heading_ast = Ok self
      /\ ASTValidator.validate self = Raise ValueError.
Proof.
  split; [vm_compute; reflexivity|]. split; [vm_compute; reflexivity|].
  eexists. split; [reflexivity|].
  apply (proj1 (@validate_raises_on_refused_depth heading_ast_text
                  refused_depth_syntax heading_ast _ refused_depth_syntax
                  eq_refl eq_refl eq_refl)).
  reflexivity.
Defined.

(** ** Containment is advisory *)

Lemma in_str_set_hashable v set :
  hashable v = true -> exists b, in_str_set v set = Ok b.
Proof. unfold in_str_set. intros ->. now eexists. Qed.

Lemma _can_be_child_of_hashable child parent :
  hashable child = true -> hashable parent = true ->
  exists b, ASTValidator._can_be_child_of child parent = Ok b.
Proof.
  intros Hc Hp. unfold ASTValidator._can_be_child_of.
  destruct (in_str_set_hashable child ASTValidator.block_types Hc) as [b1 E1].
  destruct (in_str_set_hashable child ASTValidator.inline_types Hc) as [b2 E2].
  destruct (in_str_set_hashable parent ["strong"; "emphasis"] Hp) as [b3 E3].
  rewrite E1, E2, E3. cbn [bind].
  repeat match goal with
         | |- context [if ?c then _ else _] => destruct c
         end; eexists; reflexivity.
Qed.

Lemma _is_valid_node_type_hashable self node_type b :
  ASTValidator._is_valid_node_type self node_type = Ok b ->
  hashable node_type = true.
Proof.
  unfold ASTValidator._is_valid_node_type, in_str_set.
  destruct (hashable node_type); [reflexivity | discriminate].
Qed.

Lemma containment_hashable node_type parent_type :
  hashable node_type = true ->
  (forall p, parent_type = Some p -> hashable p = true) ->
  ASTValidator.containment node_type parent_type = pass.
Proof.
  intros Hc Hp. unfold ASTValidator.containment.
  destruct parent_type as [p|]; [|reflexivity].
  destruct (truthy p); [|reflexivity].
  destruct (_can_be_child_of_hashable node_type p Hc (Hp p eq_refl)) as [b ->].
  reflexivity.
Qed.

(** X1.  The diagnostics of a node do not depend on the type of its
    parent: whatever [_can_be_child_of] answers, the containment test of
    [_validate_node] adds no diagnostic and raises nothing (a parent type
    is a validated type, so it can be hashed). *)
Theorem _validate_node_ignores_parent self (d : dict)
  (parent1 parent2 : option Value) position :
  (forall p, parent1 = Some p -> hashable p = true) ->
  (forall p, parent2 = Some p -> hashable p = true) ->
  ASTValidator._validate_node self (VDict d) parent1 position
  = ASTValidator._validate_node self (VDict d) parent2 position.
Proof.
  intros H1 H2. rewrite !_validate_node_eq.
  destruct (dict_get "type" d) as [node_type|]; [|reflexivity].
  destruct (ASTValidator._is_valid_node_type self node_type) as [valid|e]
    eqn:V; [|reflexivity].
  cbn [bind]. destruct valid; [|reflexivity]. cbn [negb].
  apply _is_valid_node_type_hashable in V.
  now rewrite (containment_hashable node_type V H1),
    (containment_hashable node_type V H2).
Qed.

Lemma _validate_node_ignores_parent_witness :
  ASTValidator._validate_node (ASTValidator.mk [] [] [])
    (VDict [("type", VStr "heading")]) (Some (VStr "paragraph")) 0
  = ASTValidator._validate_node (ASTValidator.mk [] [] [])
      (VDict [("type", VStr "heading")]) None 0.
Proof.
  apply _validate_node_ignores_parent.
  - intros p [= <-]. reflexivity.
  - intros p H. discriminate H.
Defined.

(** ** The flat list of the coverage pass *)

Lemma collect_nodes_dict (d : dict) :
  ASTValidator.collect_nodes (VDict d)
  = (if dict_has "type" d then [d] else [])
    ++ flat_map (fun kv => ASTValidator.collect_nodes (snd kv)) d.
Proof.
  cbn [ASTValidator.collect_nodes].
  apply (f_equal (app (if dict_has "type" d then [d] else []))).
  apply flat_map_ext. intros [k v]. cbn [snd].
  destruct v; try reflexivity. now destruct (String.eqb k "children").
Qed.

Lemma collect_nodes_sound (v : Value) : forall n,
  In n (ASTValidator.collect_nodes v) ->
  inside (VDict n) v /\ dict_has "type" n = true.
Proof.
  induction v as [| | | | |l IH|d IH] using Value_nested_ind; intros n I;
    try contradiction.
  - cbn [ASTValidator.collect_nodes] in I. apply in_flat_map in I.
    destruct I as (x & Hx & I). rewrite Forall_forall in IH.
    destruct (IH x Hx n I) as [S T]. split; [|exact T].
    now apply inside_item with x.
  - rewrite collect_nodes_dict in I. apply in_app_or in I.
    destruct I as [I|I].
    + destruct (dict_has "type" d) eqn:T; [|contradiction].
      destruct I as [<-|[]]. split; [constructor | exact T].
    + apply in_flat_map in I. destruct I as ([k x] & Hx & I).
      rewrite Forall_forall in IH. destruct (IH _ Hx n I) as [S T].
      split; [|exact T]. now apply inside_entry with k x.
Qed.

Lemma collect_nodes_complete (n : dict) (v : Value) :
  inside (VDict n) v -> dict_has "type" n = true ->
  In n (ASTValidator.collect_nodes v).
Proof.
  intros S T. induction S as [|d k x Hx S IH|l x Hx S IH].
  - rewrite collect_nodes_dict, T. now left.
  - rewrite collect_nodes_dict. apply in_or_app. right.
    apply in_flat_map. now exists (k, x).
  - cbn [ASTValidator.collect_nodes]. apply in_flat_map. now exists x.
Qed.

(** X2.  The flat list of [_collect_ast_nodes] holds exactly the mappings
    with a [type] key found anywhere inside the AST -- under any key, not
    only under [children] -- the AST itself included. *)
Theorem _collect_ast_nodes_exact self (n : dict) :
  In n (ASTValidator._collect_ast_nodes self)
  <-> inside (VDict n) (VDict (ASTValidator.ast self))
      /\ dict_has "type" n = true.
Proof.
  unfold ASTValidator._collect_ast_nodes. split.
  - apply collect_nodes_sound.
  - intros [S T]. now apply collect_nodes_complete.
Qed.

(** ** The size of the coverage report *)

Lemma coverage_entry_cases ast_nodes name def :
  refused_entry def = false ->
  ASTValidator.coverage_entry ast_nodes name def = Ok []
  \/ (exists t,
        ASTValidator.coverage_entry ast_nodes name def
        = Ok [ASTValidator.coverage_type_msg name t])
  \/ (exists depth,
        ASTValidator.coverage_entry ast_nodes name def
        = Ok [ASTValidator.coverage_depth_msg name depth]).
Proof.
  unfold ASTValidator.coverage_entry, refused_entry. intros R.
  destruct def as [| | | | | |def]; try (now left).
  destruct (dict_get "node_type" def) as [t|]; [|now left].
  destruct (py_eq t (VStr "heading") && dict_has "depth" def);
    cbn [andb] in R.
  - destruct (coerce_depth_cases (get "depth" def))
      as [(_ & depth & ->)|(C & _)]; [|congruence].
    cbn [bind]. destruct (negb _); [right; right; now eexists | now left].
  - destruct (negb _); [right; left; now eexists | now left].
Qed.

Lemma for_items_coverage ast_nodes (defs : dict) :
  refused defs = false ->
  exists errs,
    for_items (ASTValidator.coverage_entry ast_nodes) defs = Ok errs
    /\ (List.length errs <= List.length defs)%nat
    /\ Forall (fun e => exists name def,
                  In (name, def) defs
                  /\ ((exists t, e = ASTValidator.coverage_type_msg name t)
                      \/ (exists depth,
                            e = ASTValidator.coverage_depth_msg name depth)))
         errs.
Proof.
  unfold refused. induction defs as [|[name def] r IH]; intros R.
  - exists []. repeat split; [cbn; lia | constructor].
  - cbn [existsb snd] in R. apply orb_false_iff in R as (Rd & Rr).
    destruct (IH Rr) as (errs & E & L & F).
    cbn [for_items]. rewrite E.
    assert (F' : Forall (fun e => exists name0 def0,
                  In (name0, def0) ((name, def) :: r)
                  /\ ((exists t, e = ASTValidator.coverage_type_msg name0 t)
                      \/ (exists depth,
                            e = ASTValidator.coverage_depth_msg name0 depth)))
                  errs).
    { eapply Forall_impl; [|exact F].
      intros e (n0 & d0 & I & H). exists n0, d0. split; [now right | exact H]. }
    destruct (coverage_entry_cases ast_nodes name def Rd)
      as [->|[[t ->]|[depth ->]]]; cbn [seq bind app].
    + exists errs. repeat split; [cbn; lia | exact F'].
    + eexists. split; [reflexivity|]. split; [cbn; lia|].
      constructor; [|exact F'].
      exists name, def. split; [now left | left; now exists t].
    + eexists. split; [reflexivity|]. split; [cbn; lia|].
      constructor; [|exact F'].
      exists name, def. split; [now left | right; now exists depth].
Qed.

(** X3.  Once the syntax definitions are a mapping, the coverage pass
    raises [ValueError] when a declaration is a heading whose depth
    [str.isdigit] accepts and [int] refuses; otherwise it returns, with at
    most one diagnostic for each declaration: each diagnostic is the
    node-type or the heading-depth message of a declared name. *)
Theorem coverage_at_most_one_per_declaration self (defs : dict) :
  items (_get_syntax_definitions (ASTValidator.syntax self)) = Ok defs ->
  (refused defs = true ->
   ASTValidator._validate_syntax_coverage self = Raise ValueError)
  /\ (refused defs = false ->
      exists errs,
        ASTValidator._validate_syntax_coverage self = Ok errs
        /\ (List.length errs <= List.length defs)%nat
        /\ Forall (fun e => exists name def,
                      In (name, def) defs
                      /\ ((exists t,
                              e = ASTValidator.coverage_type_msg name t)
                          \/ (exists depth,
                                e = ASTValidator.coverage_depth_msg name
                                      depth)))
             errs).
Proof.
  intros I. unfold ASTValidator._validate_syntax_coverage. rewrite I.
  cbn [bind]. split; intros R.
  - now apply for_items_coverage_raises.
  - now apply for_items_coverage.
Qed.

Lemma coverage_at_most_one_per_declaration_witness :
  (exists errs,
      ASTValidator._validate_syntax_coverage
        (ASTValidator.mk two_headings_syntax one_heading_document [])
      = Ok errs
      /\ (List.length errs <= 2)%nat)
  /\ ASTValidator._validate_syntax_coverage
       (ASTValidator.mk refused_depth_syntax heading_ast [])
     = Raise ValueError.
Proof.
  split.
  - destruct (proj2 (@coverage_at_most_one_per_declaration
                       (ASTValidator.mk two_headings_syntax
                          one_heading_document [])
                       two_headings_syntax eq_refl) eq_refl)
      as (errs & E & L & _).
    exists errs. split; [exact E | exact L].
  - exact (proj1 (@coverage_at_most_one_per_declaration
                    (ASTValidator.mk refused_depth_syntax heading_ast [])
                    refused_depth_syntax eq_refl) eq_refl).
Defined.

(** ** The constructors on a parsed syntax document *)

Lemma register_all_flat (data : dict) nodes :
  is_flat data = true -> register_all nodes data = Ok nodes.
Proof.
  unfold is_flat. induction data as [|[k v] r IH]; [reflexivity|].
  cbn [forallb snd register_all]. intros H. apply andb_prop in H.
  destruct H as [Hv Hr]. destruct v; try discriminate Hv; cbn; now apply IH.
Qed.

Lemma all_str_flat (props : dict) : all_str props = true -> is_flat props = true.
Proof.
  unfold all_str, is_flat. rewrite !forallb_forall. intros H x I.
  specialize (H x I). now destruct (snd x).
Qed.

Lemma register_all_plain (data : dict) : forall nodes,
  plain_defs data = true -> exists nodes', register_all nodes data = Ok nodes'.
Proof.
  unfold plain_defs. induction data as [|[k v] r IH]; intros nodes H;
    [now eexists|].
  cbn [forallb snd] in H. apply andb_prop in H. destruct H as [Hv Hr].
  destruct v as [| | | | | |props]; try discriminate Hv.
  cbn [register_all register].
  destruct (dict_get "node_type" props) as [t|] eqn:T; cbn [bind];
    [|now apply IH].
  unfold all_str in Hv. rewrite forallb_forall in Hv.
  specialize (Hv _ (dict_get_In _ _ T)). cbn [snd] in Hv.
  destruct t; try discriminate Hv. cbn [hashable bind]. now apply IH.
Qed.

Lemma init_cases content (syntax_data ast_data : dict) :
  ASTSyntaxChecker._parse_ron_content content = Some syntax_data ->
  (exists v,
      dict_get "root" syntax_data = Some v
      /\ (forall d, v <> VDict d)
      /\ ASTValidator.init syntax_data ast_data = Raise AttributeError
      /\ DisplayHintsGenerator.init syntax_data ast_data
         = Raise AttributeError)
  \/ (exists nodes,
         ASTValidator.init syntax_data ast_data
         = Ok (ASTValidator.mk syntax_data ast_data nodes)
         /\ DisplayHintsGenerator.init syntax_data ast_data
            = Ok (DisplayHintsGenerator.mk syntax_data ast_data nodes)
         /\ (is_flat syntax_data = true -> nodes = [])).
Proof.
  intros P. unfold ASTValidator.init, DisplayHintsGenerator.init,
    _extract_syntax_nodes, _get_syntax_definitions.
  destruct (_parse_ron_content_shape _ P) as [F|F].
  - destruct (dict_get "root" syntax_data) as [v|] eqn:G.
    + left. exists v. split; [reflexivity|].
      assert (N : forall d, v <> VDict d).
      { intros d ->. apply dict_get_In in G. unfold is_flat in F.
        rewrite forallb_forall in F. now specialize (F _ G). }
      split; [exact N|].
      destruct v; try (split; reflexivity). now contradiction (N l).
    + right. exists []. cbn [items bind].
      rewrite (register_all_flat syntax_data [] F). now repeat split.
  - destruct (dict_get "root" syntax_data) as [v|] eqn:G.
    + right. exists []. apply dict_get_In in G. unfold plain_defs in F.
      rewrite forallb_forall in F. specialize (F _ G). cbn [snd] in F.
      destruct v as [| | | | | |props]; try discriminate F.
      cbn [items bind].
      rewrite (register_all_flat props [] (all_str_flat props F)).
      now repeat split.
    + right. cbn [items bind].
      destruct (register_all_plain syntax_data [] F) as [nodes E].
      exists nodes. rewrite E. cbn [bind]. repeat split.
      intros Fl. rewrite (register_all_flat syntax_data [] Fl) in E.
      now injection E.
Qed.

Lemma init_raises_on_root (syntax_data ast_data : dict) v :
  dict_get "root" syntax_data = Some v ->
  (forall d, v <> VDict d) ->
  ASTValidator.init syntax_data ast_data = Raise AttributeError
  /\ DisplayHintsGenerator.init syntax_data ast_data = Raise AttributeError.
Proof.
  intros G N. unfold ASTValidator.init, DisplayHintsGenerator.init,
    _extract_syntax_nodes, _get_syntax_definitions. rewrite G.
  destruct v; try (split; reflexivity). now contradiction (N l).
Qed.

(** X4.  On a parsed syntax document both constructors behave alike.  They
    raise [AttributeError] exactly when the document has a [root] entry
    that is no mapping; in every other case they return, with the same
    schema model, and a document none of whose entries is a mapping --
    every document of the root form -- gives the empty schema model. *)
Theorem init_on_parsed_syntax content (syntax_data ast_data : dict) :
  ASTSyntaxChecker._parse_ron_content content = Some syntax_data ->
  let root_is_no_mapping :=
    exists v, dict_get "root" syntax_data = Some v
              /\ forall d, v <> VDict d in
  (ASTValidator.init syntax_data ast_data = Raise AttributeError
   <-> root_is_no_mapping)
  /\ (DisplayHintsGenerator.init syntax_data ast_data = Raise AttributeError
      <-> root_is_no_mapping)
  /\ (~ root_is_no_mapping ->
      exists nodes,
        ASTValidator.init syntax_data ast_data
        = Ok (ASTValidator.mk syntax_data ast_data nodes)
        /\ DisplayHintsGenerator.init syntax_data ast_data
           = Ok (DisplayHintsGenerator.mk syntax_data ast_data nodes)
        /\ (is_flat syntax_data = true -> nodes = [])).
Proof.
  intros P root_is_no_mapping.
  destruct (@init_cases content syntax_data ast_data P)
    as [(v & G & N & Ev & Eg)|(nodes & Ev & Eg & F)].
  - assert (root_is_no_mapping) as R by (exists v; now split).
    repeat split; try (intros _; assumption). intros C. now contradiction C.
  - split; [|split].
    + split; [intros E; congruence|].
      intros (v & G & N).
      now destruct (@init_raises_on_root syntax_data ast_data v G N).
    + split; [intros E; congruence|].
      intros (v & G & N).
      now destruct (@init_raises_on_root syntax_data ast_data v G N).
    + intros _. now exists nodes.
Qed.

Lemma init_on_parsed_syntax_witness :
  ASTSyntaxChecker._parse_ron_content "RootNode { root: 1 }"
  = Some [("root", VInt 1)]
  /\ ASTValidator.init [("root", VInt 1)] [] = Raise AttributeError
  /\ exists nodes,
      ASTValidator.init heading_syntax []
      = Ok (ASTValidator.mk heading_syntax [] nodes).
Proof.
  split; [vm_compute; reflexivity|]. split.
  - apply (proj1 (@init_on_parsed_syntax "RootNode { root: 1 }"
                    [("root", VInt 1)] [] eq_refl)).
    exists (VInt 1). split; [reflexivity | discriminate].
  - destruct (proj2 (proj2 (@init_on_parsed_syntax heading_syntax_text
                              heading_syntax [] eq_refl)))
      as (nodes & E & _).
    + intros (v & G & _). discriminate G.
    + now exists nodes.
Defined.

(** ** The structure analysis *)

Lemma grows_refl m deepest : grows 0 deepest m m.
Proof. unfold grows. repeat split; auto. Qed.

Lemma grows_trans n1 n2 d1 d2 m m1 m2 :
  grows n1 d1 m m1 -> grows n2 d2 m1 m2 ->
  grows (n1 + n2) (Nat.max d1 d2) m m2.
Proof.
  intros (T1 & P1 & B1) (T2 & P2 & B2). unfold grows. repeat split.
  - lia.
  - auto.
  - intros bound Hb Hd. apply B2; [apply B1; [exact Hb|]|]; lia.
Qed.

Lemma grows_weaken n d d' m m' :
  (d <= d')%nat -> grows n d m m' -> grows n d' m m'.
Proof.
  intros Hd (T & P & B). unfold grows. repeat split; auto.
  intros bound Hb Hd'. apply B; [exact Hb | lia].
Qed.

Lemma info_set_grows k (m : Analysis.structure_map) depth :
  grows 1 depth m
    (Analysis.info_set k
       (Analysis.mk_info
          (S (Analysis.count match Analysis.info_get k m with
                             | Some i => i
                             | None => Analysis.mk_info 0 0
                             end))
          (Nat.max (Analysis.max_depth match Analysis.info_get k m with
                                       | Some i => i
                                       | None => Analysis.mk_info 0 0
                                       end) depth)) m).
Proof.
  unfold grows, counts_positive, depths_below.
  induction m as [|[k' i] r (T & P & B)];
    cbn [Analysis.info_get Analysis.info_set].
  - cbn. repeat split.
    + intros _. constructor; [cbn; lia | constructor].
    + intros bound _ Hd. constructor; [cbn; lia | constructor].
  - destruct (py_eq k k').
    + cbn [Analysis.total_nodes fold_right snd Analysis.count
             Analysis.max_depth]. repeat split.
      * lia.
      * intros Hp. inversion Hp; subst. constructor; [cbn; lia | assumption].
      * intros bound Hb Hd. inversion Hb; subst. cbn [snd] in *.
        constructor; [cbn; lia | assumption].
    + unfold Analysis.total_nodes in *. cbn [fold_right snd]. repeat split.
      * lia.
      * intros Hp. inversion Hp; subst. constructor; [assumption | auto].
      * intros bound Hb Hd. inversion Hb; subst.
        constructor; [assumption | auto].
Qed.

Lemma record_node_grows node_type depth m :
  hashable node_type = true ->
  exists m', Analysis.record_node node_type depth m = Ok m'
             /\ grows 1 depth m m'.
Proof.
  intros H. unfold Analysis.record_node. rewrite H.
  eexists. split; [reflexivity | apply info_set_grows].
Qed.

Lemma hashable_types_item (l : list Value) x :
  hashable_types (VList l) -> In x l -> hashable_types x.
Proof.
  intros H I n Hn. apply H. cbn [ASTValidator.collect_nodes].
  apply in_flat_map. now exists x.
Qed.

Lemma hashable_types_entry (d : dict) k x :
  hashable_types (VDict d) -> In (k, x) d -> hashable_types x.
Proof.
  intros H I n Hn. apply H. rewrite collect_nodes_dict.
  apply in_or_app. right. apply in_flat_map. now exists (k, x).
Qed.

(** The loop of [analyze_node] over the items of a list. *)
Lemma for_each_grows (body : Value -> Analysis.structure_map ->
                             result Analysis.structure_map)
  (size deep : Value -> nat) (l : list Value) :
  (forall x, In x l -> forall m,
      exists m', body x m = Ok m' /\ grows (size x) (deep x) m m') ->
  forall m,
    exists m', Analysis.for_each body l m = Ok m'
               /\ grows (fold_right Nat.add 0%nat (map size l))
                    (fold_right Nat.max 0%nat (map deep l)) m m'.
Proof.
  induction l as [|x r IH]; intros H m.
  - exists m. split; [reflexivity | apply grows_refl].
  - destruct (H x (or_introl eq_refl) m) as (m1 & E1 & G1).
    destruct (IH (fun y Hy => H y (or_intror Hy)) m1) as (m2 & E2 & G2).
    exists m2. cbn [Analysis.for_each]. rewrite E1. cbn [bind].
    split; [exact E2 | exact (grows_trans G1 G2)].
Qed.

Lemma for_each_item_grows
  (body : string -> Value -> Analysis.structure_map ->
          result Analysis.structure_map)
  (size deep : string * Value -> nat) (d : dict) :
  (forall k x, In (k, x) d -> forall m,
      exists m', body k x m = Ok m'
                 /\ grows (size (k, x)) (deep (k, x)) m m') ->
  forall m,
    exists m', Analysis.for_each_item body d m = Ok m'
               /\ grows (fold_right Nat.add 0%nat (map size d))
                    (fold_right Nat.max 0%nat (map deep d)) m m'.
Proof.
  induction d as [|[k x] r IH]; intros H m.
  - exists m. split; [reflexivity | apply grows_refl].
  - destruct (H k x (or_introl eq_refl) m) as (m1 & E1 & G1).
    destruct (IH (fun k' y Hy => H k' y (or_intror Hy)) m1)
      as (m2 & E2 & G2).
    exists m2. cbn [Analysis.for_each_item]. rewrite E1. cbn [bind].
    split; [exact E2 | exact (grows_trans G1 G2)].
Qed.

Lemma length_flat_map A B (f : A -> list B) (l : list A) :
  List.length (flat_map f l)
  = fold_right Nat.add 0%nat (map (fun x => List.length (f x)) l).
Proof.
  induction l as [|x r IH]; [reflexivity|].
  cbn [flat_map map fold_right]. now rewrite length_app, IH.
Qed.

Lemma fold_max_map_add (depth : nat) A (deep : A -> nat) (l : list A) :
  (fold_right Nat.max 0 (map (fun x => depth + deep x) l)
   <= depth + fold_right Nat.max 0 (map deep l))%nat.
Proof.
  induction l as [|x r IH]; cbn [map fold_right]; lia.
Qed.

Lemma analyze_node_grows (v : Value) : forall depth m,
  hashable_types v ->
  exists m', Analysis.analyze_node v depth m = Ok m'
             /\ grows (List.length (ASTValidator.collect_nodes v))
                  (depth + children_depth v) m m'.
Proof.
  induction v as [| | | | |l IH|d IH] using Value_nested_ind;
    intros depth m H; try (exists m; split; [reflexivity | apply grows_refl]).
  - (* a list *)
    cbn [Analysis.analyze_node ASTValidator.collect_nodes children_depth].
    rewrite Forall_forall in IH.
    destruct (for_each_grows
                (fun item m => Analysis.analyze_node item depth m)
                (fun x => List.length (ASTValidator.collect_nodes x))
                (fun x => depth + children_depth x)%nat l
                (fun x Hx m0 =>
                   IH x Hx depth m0 (@hashable_types_item l x H Hx))
                m) as (m' & E & G).
    exists m'. split; [exact E|]. rewrite length_flat_map.
    eapply grows_weaken; [|exact G]. apply fold_max_map_add.
  - (* a mapping *)
    cbn [Analysis.analyze_node]. rewrite collect_nodes_dict.
    assert (exists m0,
               match dict_get "type" d with
               | Some t => Analysis.record_node t depth m
               | None => Ok m
               end = Ok m0
               /\ grows (List.length (if dict_has "type" d then [d] else []))
                    depth m m0) as (m0 & -> & G0).
    { unfold dict_has. destruct (dict_get "type" d) as [t|] eqn:T.
      - apply record_node_grows.
        specialize (H d). rewrite collect_nodes_dict in H.
        unfold dict_has, get in H. rewrite T in H. apply H. now left.
      - exists m. split; [reflexivity | apply grows_refl]. }
    cbn [bind]. rewrite Forall_forall in IH.
    destruct (for_each_item_grows
                (fun key value m =>
                   match value with
                   | VList cs =>
                       if String.eqb key "children"
                       then Analysis.for_each
                              (fun child m =>
                                 Analysis.analyze_node child (S depth) m)
                              cs m
                       else Analysis.analyze_node value depth m
                   | _ => Analysis.analyze_node value depth m
                   end)
                (fun kv => List.length (ASTValidator.collect_nodes (snd kv)))
                (fun kv =>
                   depth
                   + match snd kv with
                     | VList cs =>
                         if String.eqb (fst kv) "children"
                         then S (fold_right Nat.max 0%nat
                                   (map children_depth cs))
                         else children_depth (snd kv)
                     | _ => children_depth (snd kv)
                     end)%nat d) with (m := m0) as (m2 & E2 & G2).
    { intros k x Ix m1. pose proof (IH _ Ix) as Px. cbn [snd fst] in *.
      pose proof (@hashable_types_entry d k x H Ix) as Hx.
      destruct x as [| | | | |cs|dx]; try apply (Px depth m1 Hx).
      destruct (String.eqb k "children"); [|apply (Px depth m1 Hx)].
      destruct (Px (S depth) m1 Hx) as (m' & E' & G').
      exists m'. split; [exact E'|].
      eapply grows_weaken; [|exact G']. cbn [children_depth]. lia. }
    exists m2. split; [exact E2|]. rewrite length_app, length_flat_map.
    eapply grows_weaken; [|exact (grows_trans G0 G2)].
    cbn [children_depth].
    pose proof (fold_max_map_add depth
                  (fun kv : string * Value =>
                     match snd kv with
                     | VList cs =>
                         if String.eqb (fst kv) "children"
                         then S (fold_right Nat.max 0%nat
                                   (map children_depth cs))
                         else children_depth (snd kv)
                     | _ => children_depth (snd kv)
                     end) d).
    lia.
Qed.

Lemma positive_total (m : Analysis.structure_map) :
  counts_positive m -> (Analysis.node_types m <= Analysis.total_nodes m)%nat.
Proof.
  unfold counts_positive, Analysis.node_types, Analysis.total_nodes.
  induction 1 as [|[k i] r Hi _ IH]; cbn [List.length fold_right snd] in *;
    lia.
Qed.

Lemma below_overall (bound : nat) (m : Analysis.structure_map) :
  depths_below bound m -> (Analysis.max_overall_depth m <= bound)%nat.
Proof.
  unfold depths_below, Analysis.max_overall_depth.
  induction 1 as [|[k i] r Hi _ IH]; cbn [fold_right snd] in *; lia.
Qed.

(** X5.  When the type of every node of the AST can be hashed, the
    structure analysis returns; the total of its counts is the number of
    nodes of the flat list the coverage pass uses, it knows no more node
    types than nodes, and its maximum depth is at most the number of
    nested [children] lists. *)
Theorem _analyze_ast_structure_counts (ast_data : dict) :
  hashable_types (VDict ast_data) ->
  exists structure_info,
    Analysis._analyze_ast_structure ast_data = Ok structure_info
    /\ Analysis.total_nodes structure_info
       = List.length (ASTValidator.collect_nodes (VDict ast_data))
    /\ (Analysis.node_types structure_info
        <= Analysis.total_nodes structure_info)%nat
    /\ (Analysis.max_overall_depth structure_info
        <= children_depth (VDict ast_data))%nat.
Proof.
  intros H. unfold Analysis._analyze_ast_structure.
  destruct (@analyze_node_grows (VDict ast_data) 0%nat [] H)
    as (m & E & T & P & B).
  exists m. split; [exact E|]. split; [exact T|]. split.
  - apply positive_total, P. constructor.
  - apply below_overall, B; [constructor | cbn; lia].
Qed.

Lemma _analyze_ast_structure_counts_witness :
  exists structure_info,
    Analysis._analyze_ast_structure one_heading_document = Ok structure_info
    /\ Analysis.total_nodes structure_info = 2%nat.
Proof.
  destruct (@_analyze_ast_structure_counts one_heading_document)
    as (m & E & T & _).
  - intros n [<-|[<-|[]]]; reflexivity.
  - exists m. split; [exact E | exact T].
Defined.

(** ** The hints of a node *)

Lemma dict_get_set_same k v (d : dict) : dict_get k (dict_set k v d) = Some v.
Proof.
  induction d as [|[k' v'] r IH]; cbn [dict_set dict_get].
  - now rewrite String.eqb_refl.
  - destruct (String.eqb k k') eqn:E; cbn [dict_get].
    + now rewrite String.eqb_refl.
    + now rewrite E.
Qed.

Lemma dict_get_set_other k k' v (d : dict) :
  k <> k' -> dict_get k (dict_set k' v d) = dict_get k d.
Proof.
  intros N. apply String.eqb_neq in N.
  induction d as [|[k0 v0] r IH]; cbn [dict_set dict_get].
  - now rewrite N.
  - destruct (String.eqb k' k0) eqn:E; cbn [dict_get].
    + apply String.eqb_eq in E. subst k0. now rewrite N.
    + now rewrite IH.
Qed.

Lemma dict_has_set k k' v (d : dict) :
  dict_has k (dict_set k' v d) = String.eqb k k' || dict_has k d.
Proof.
  unfold dict_has. destruct (String.eqb k k') eqn:E.
  - apply String.eqb_eq in E. subst k'. now rewrite dict_get_set_same.
  - apply String.eqb_neq in E. now rewrite (dict_get_set_other _ _ E).
Qed.

Lemma attr_injective (a b : string) :
  ("attr_" ++ a)%string = ("attr_" ++ b)%string -> a = b.
Proof. cbn. now intros [= ->]. Qed.

(** The attribute loop touches no key without the prefix. *)
Lemma copy_attributes_other k (data : dict) : forall hints,
  (forall a, k <> ("attr_" ++ a)%string) ->
  dict_get k (DisplayHintsGenerator.copy_attributes data hints)
  = dict_get k hints.
Proof.
  unfold DisplayHintsGenerator.copy_attributes.
  induction data as [|[k0 v0] r IH]; intros hints N; cbn [fold_left fst snd];
    [reflexivity|].
  rewrite (IH _ N).
  destruct (String.eqb k0 "type" || String.eqb k0 "children");
    [reflexivity | apply dict_get_set_other, N].
Qed.

Lemma copy_attributes_absent k (data : dict) : forall hints,
  ~ In k (map fst data) ->
  dict_get ("attr_" ++ k) (DisplayHintsGenerator.copy_attributes data hints)
  = dict_get ("attr_" ++ k) hints.
Proof.
  unfold DisplayHintsGenerator.copy_attributes.
  induction data as [|[k0 v0] r IH]; intros hints N; cbn [fold_left fst snd];
    [reflexivity|].
  rewrite IH by (intros I; apply N; now right).
  destruct (String.eqb k0 "type" || String.eqb k0 "children");
    [reflexivity|].
  apply dict_get_set_other. intros E. apply attr_injective in E.
  apply N. now left.
Qed.

Lemma copy_attributes_attr (data : dict) : forall hints k v,
  NoDup (map fst data) -> In (k, v) data -> k <> "type" -> k <> "children" ->
  dict_get ("attr_" ++ k) (DisplayHintsGenerator.copy_attributes data hints)
  = Some v.
Proof.
  induction data as [|[k0 v0] r IH]; intros hints k v U I T C; [destruct I|].
  cbn [map fst] in U. inversion U as [|? ? Hk Hr]; subst.
  destruct I as [[= -> ->]|I].
  - change (DisplayHintsGenerator.copy_attributes ((k, v) :: r) hints)
      with (DisplayHintsGenerator.copy_attributes r
              (if String.eqb k "type" || String.eqb k "children"
               then hints else dict_set ("attr_" ++ k) v hints)).
    apply String.eqb_neq in T, C. rewrite T, C. cbn [orb].
    rewrite (@copy_attributes_absent k r _ Hk). apply dict_get_set_same.
  - change (DisplayHintsGenerator.copy_attributes ((k0, v0) :: r) hints)
      with (DisplayHintsGenerator.copy_attributes r
              (if String.eqb k0 "type" || String.eqb k0 "children"
               then hints else dict_set ("attr_" ++ k0) v0 hints)).
    now apply IH.
Qed.

(** The keys the attribute loop leaves are the keys it found or the
    prefixed keys of the node. *)
Lemma copy_attributes_keys k (data : dict) : forall hints,
  dict_has k (DisplayHintsGenerator.copy_attributes data hints) = true ->
  dict_has k hints = true
  \/ exists a, k = ("attr_" ++ a)%string /\ In a (map fst data)
               /\ a <> "type" /\ a <> "children".
Proof.
  unfold DisplayHintsGenerator.copy_attributes.
  induction data as [|[k0 v0] r IH]; intros hints H; cbn [fold_left fst snd] in H;
    [now left|].
  destruct (IH _ H) as [H1|(a & -> & Ia & Na)].
  - destruct (String.eqb k0 "type" || String.eqb k0 "children") eqn:Skip;
      [now left|].
    rewrite dict_has_set in H1. apply orb_true_iff in H1 as [E|H1];
      [|now left].
    apply String.eqb_eq in E. right. exists k0.
    apply orb_false_iff in Skip as (St & Sc).
    apply String.eqb_neq in St, Sc.
    split; [exact E|]. split; [now left | now split].
  - right. exists a. split; [reflexivity|]. split; [now right | exact Na].
Qed.

(** X6.  The hints of a typed node keep its type, carry the three display
    fields, and hold every other attribute of the node, [children] apart,
    under its name prefixed with [attr_]; they have no further key but
    [children]: neither [type] nor [children] is copied under the
    prefix. *)
Theorem hints_keep_type_and_attributes self (d : dict) node_type h :
  NoDup (map fst d) ->
  dict_get "type" d = Some node_type ->
  DisplayHintsGenerator._generate_simple_hints self (VDict d) = Ok h ->
  exists hints,
    h = VDict hints
    /\ dict_get "type" hints = Some node_type
    /\ dict_has "style" hints = true
    /\ dict_has "decoration" hints = true
    /\ dict_has "markdown_syntax" hints = true
    /\ (forall k v, In (k, v) d -> k <> "type" -> k <> "children" ->
        dict_get ("attr_" ++ k) hints = Some v)
    /\ (forall k, dict_has k hints = true ->
        In k ["type"; "style"; "decoration"; "markdown_syntax"; "children"]
        \/ exists a, k = ("attr_" ++ a)%string /\ dict_has a d = true
                     /\ a <> "type" /\ a <> "children").
Proof.
  intros U T G. cbn [DisplayHintsGenerator._generate_simple_hints] in G.
  rewrite T in G.
  destruct (DisplayHintsGenerator._get_display_info self node_type)
    as [display_info|e]; [|discriminate].
  cbn [bind] in G. rewrite dict_elim_get in G.
  set (fixed := [("type", node_type);
                 ("style", get_default "style" (VStr "unknown") display_info);
                 ("decoration",
                  get_default "decoration" (VStr "") display_info);
                 ("markdown_syntax",
                  get_default "markdown_syntax" (VStr "") display_info)])
    in G.
  set (copied := DisplayHintsGenerator.copy_attributes d fixed) in G.
  assert (exists hints,
             h = VDict hints
             /\ (hints = copied
                 \/ exists cs, hints = dict_set "children" cs copied))
    as (hints & -> & Hh).
  { destruct (dict_get "children" d) as [[| | | | |cs|]|];
      try (injection G as <-; eexists; split; [reflexivity | now left]).
    destruct (DisplayHintsGenerator.keep_truthy _ cs) as [children_hints|];
      [|discriminate].
    cbn [bind] in G. injection G as <-.
    destruct children_hints as [|c0 cr]; cbn [truthy];
      eexists; (split; [reflexivity|]); [now left | right; now eexists]. }
  assert (forall k, k <> "children" ->
                    dict_get k hints = dict_get k copied) as Same.
  { intros k N. destruct Hh as [->|(cs & ->)];
      [reflexivity | now apply dict_get_set_other]. }
  assert (forall k, (forall a, k <> ("attr_" ++ a)%string) ->
                    k <> "children" ->
                    dict_get k hints = dict_get k fixed) as Fixed.
  { intros k N C. rewrite (Same k C). now apply copy_attributes_other. }
  exists hints. split; [reflexivity|]. split; [|split; [|split; [|split;
    [|split]]]].
  - rewrite Fixed; [reflexivity | intros a; cbn; discriminate | discriminate].
  - unfold dict_has. rewrite Fixed;
      [reflexivity | intros a; cbn; discriminate | discriminate].
  - unfold dict_has. rewrite Fixed;
      [reflexivity | intros a; cbn; discriminate | discriminate].
  - unfold dict_has. rewrite Fixed;
      [reflexivity | intros a; cbn; discriminate | discriminate].
  - intros k v I Nt Nc. rewrite Same by (cbn; discriminate).
    now apply copy_attributes_attr.
  - intros k H.
    assert (k = "children" \/ dict_has k copied = true) as [->|Hc].
    { destruct Hh as [->|(cs & ->)]; [now right|].
      rewrite dict_has_set in H. apply orb_true_iff in H as [E|H];
        [left; now apply String.eqb_eq | now right]. }
    + left. cbn. tauto.
    + destruct (copy_attributes_keys _ _ _ Hc) as [Hf|(a & -> & Ia & Na)].
      * left. unfold dict_has, fixed in Hf. cbn [dict_get] in Hf.
        repeat match type of Hf with
               | context [String.eqb k ?s] =>
                   let E := fresh "E" in
                   destruct (String.eqb k s) eqn:E;
                   [apply String.eqb_eq in E; rewrite E; cbn; tauto|]
               end.
        discriminate.
      * right. exists a. split; [reflexivity|]. split; [|exact Na].
        clear Na. apply in_map_iff in Ia as ([a' v] & <- & Ia). cbn [fst].
        unfold dict_has.
        destruct (dict_get a' d) eqn:E; [reflexivity|].
        exfalso. clear - Ia E.
        induction d as [|[k0 v0] r IH]; [destruct Ia|].
        cbn [dict_get] in E. destruct (String.eqb a' k0) eqn:K;
          [discriminate|].
        destruct Ia as [[= -> ->]|Ia]; [now rewrite String.eqb_refl in K|].
        now apply IH.
Qed.

Lemma hints_keep_type_and_attributes_witness :
  exists hints,
    DisplayHintsGenerator._generate_simple_hints
      (DisplayHintsGenerator.mk [] [] [])
      (VDict [("type", VStr "heading"); ("depth", VInt 1)])
    = Ok (VDict hints)
    /\ dict_get "attr_depth" hints = Some (VInt 1)
    /\ dict_has "attr_type" hints = false.
Proof.
  destruct (@hints_keep_type_and_attributes
              (DisplayHintsGenerator.mk [] [] [])
              [("type", VStr "heading"); ("depth", VInt 1)]
              (VStr "heading") _
              ltac:(repeat constructor; cbn; intuition discriminate)
              eq_refl eq_refl)
    as (hints & E & _ & _ & _ & _ & A & K).
  exists hints. split; [|split].
  - now rewrite <- E.
  - apply (A "depth" (VInt 1)); [cbn; tauto | discriminate | discriminate].
  - destruct (dict_has "attr_type" hints) eqn:H; [|reflexivity].
    destruct (K "attr_type" H) as [I|(a & Ea & _ & Nt & _)].
    + cbn in I. intuition discriminate.
    + apply attr_injective in Ea. now subst a.
Defined.

(** ** Generation returns on hashable types *)

Lemma _determine_style_hashable node_type :
  hashable node_type = true ->
  exists style, DisplayHintsGenerator._determine_style node_type = Ok style.
Proof.
  intros H. unfold DisplayHintsGenerator._determine_style, in_str_set.
  rewrite H. cbn [bind].
  repeat match goal with
         | |- context [if ?c then _ else _] => destruct c
         end; eexists; reflexivity.
Qed.

Lemma _get_display_info_hashable self node_type :
  holds_dicts (DisplayHintsGenerator.syntax_nodes self) ->
  hashable node_type = true ->
  exists display_info,
    DisplayHintsGenerator._get_display_info self node_type = Ok display_info.
Proof.
  intros D H. unfold DisplayHintsGenerator._get_display_info, nodes_has.
  rewrite H. cbn [bind].
  destruct (nodes_get node_type (DisplayHintsGenerator.syntax_nodes self))
    as [v|] eqn:E; [|eexists; reflexivity].
  destruct (@nodes_get_holds_dicts _ _ _ D E) as [i ->].
  destruct (_determine_style_hashable _ H) as [style ->].
  eexists; reflexivity.
Qed.

Lemma keep_truthy_ok (f : Value -> result Value) (l : list Value) :
  (forall x, In x l -> exists y, f x = Ok y) ->
  exists ys, DisplayHintsGenerator.keep_truthy f l = Ok ys.
Proof.
  induction l as [|x r IH]; intros H; cbn [DisplayHintsGenerator.keep_truthy].
  - eexists; reflexivity.
  - destruct (H x (or_introl eq_refl)) as [y ->].
    destruct (IH (fun z Hz => H z (or_intror Hz))) as [ys ->].
    eexists; reflexivity.
Qed.

Lemma keep_truthy_items_ok (f : Value -> result Value) (d : dict) :
  (forall k x, In (k, x) d -> exists y, f x = Ok y) ->
  forall acc,
    exists out, DisplayHintsGenerator.keep_truthy_items f d acc = Ok out.
Proof.
  induction d as [|[k x] r IH]; intros H acc;
    cbn [DisplayHintsGenerator.keep_truthy_items].
  - eexists; reflexivity.
  - destruct (H k x (or_introl eq_refl)) as [y ->]. cbn [bind].
    apply IH. intros k' z Hz. apply (H k' z). now right.
Qed.

Lemma _generate_simple_hints_hashable self (v : Value) :
  holds_dicts (DisplayHintsGenerator.syntax_nodes self) ->
  hashable_types v ->
  exists h, DisplayHintsGenerator._generate_simple_hints self v = Ok h.
Proof.
  intros D.
  induction v as [| | | | |l IH|d IH] using Value_nested_ind; intros H;
    try (eexists; reflexivity).
  - cbn [DisplayHintsGenerator._generate_simple_hints].
    rewrite Forall_forall in IH.
    destruct (keep_truthy_ok
                (DisplayHintsGenerator._generate_simple_hints self) l
                (fun x Hx => IH x Hx (@hashable_types_item l x H Hx)))
      as [ys ->].
    eexists; reflexivity.
  - cbn [DisplayHintsGenerator._generate_simple_hints].
    rewrite Forall_forall in IH.
    destruct (dict_get "type" d) as [node_type|] eqn:T.
    + assert (hashable node_type = true) as Hn.
      { specialize (H d). rewrite collect_nodes_dict in H.
        unfold dict_has, get in H. rewrite T in H. apply H. now left. }
      destruct (_get_display_info_hashable self node_type D Hn)
        as [display_info ->].
      cbn [bind]. rewrite dict_elim_get.
      destruct (dict_get "children" d) as [[| | | | |cs|]|] eqn:C;
        try (eexists; reflexivity).
      apply dict_get_In in C.
      pose proof (IH _ C (@hashable_types_entry d "children" (VList cs) H C))
        as [h E].
      cbn [snd DisplayHintsGenerator._generate_simple_hints] in E.
      destruct (DisplayHintsGenerator.keep_truthy
                  (DisplayHintsGenerator._generate_simple_hints self) cs)
        as [children_hints|]; [|discriminate].
      eexists; reflexivity.
    + destruct (keep_truthy_items_ok
                  (DisplayHintsGenerator._generate_simple_hints self) d
                  (fun k x Hx =>
                     IH (k, x) Hx (@hashable_types_entry d k x H Hx)) [])
        as [out ->].
      eexists; reflexivity.
Qed.

(** X7.  When the AST, or the first node-shaped value found in it, is a
    mapping with a [type] key and every type inside it can be hashed,
    [generate] does not give up: it returns the hints of that node under
    [display_hints], and they carry the node's own type. *)
Theorem generate_returns_typed_root syntax_data ast_data self (d : dict)
  node_type :
  DisplayHintsGenerator.init syntax_data ast_data = Ok self ->
  DisplayHintsGenerator.root_node self = VDict d ->
  dict_get "type" d = Some node_type ->
  hashable_types (VDict d) ->
  exists hints,
    DisplayHintsGenerator.generate self
    = Some (VDict [("display_hints", VDict hints)])
    /\ DisplayHintsGenerator._generate_simple_hints self (VDict d)
       = Ok (VDict hints)
    /\ dict_get "type" hints = Some node_type.
Proof.
  intros I R T H.
  assert (holds_dicts (DisplayHintsGenerator.syntax_nodes self)) as D.
  { unfold DisplayHintsGenerator.init in I.
    destruct (_extract_syntax_nodes syntax_data) as [nodes|] eqn:E;
      [|discriminate].
    injection I as <-. exact (_extract_syntax_nodes_holds_dicts _ E). }
  destruct (@_generate_simple_hints_hashable self (VDict d) D H) as [h G].
  pose proof G as G'.
  cbn [DisplayHintsGenerator._generate_simple_hints] in G'.
  rewrite T in G'.
  destruct (DisplayHintsGenerator._get_display_info self node_type)
    as [display_info|]; [|discriminate].
  cbn [bind] in G'. rewrite dict_elim_get in G'.
  assert (exists hints, h = VDict hints
                        /\ dict_get "type" hints = Some node_type)
    as (hints & -> & Ht).
  { assert (forall hints,
               dict_get "type"
                 (DisplayHintsGenerator.copy_attributes d
                    (("type", node_type) :: hints)) = Some node_type) as K.
    { intros hints. rewrite copy_attributes_other;
        [reflexivity | intros a; cbn; discriminate]. }
    destruct (dict_get "children" d) as [[| | | | |cs|]|];
      try (injection G' as <-; eexists; split; [reflexivity | apply K]).
    destruct (DisplayHintsGenerator.keep_truthy _ cs) as [children_hints|];
      [|discriminate].
    cbn [bind] in G'. injection G' as <-.
    destruct children_hints as [|c0 cr]; cbn [truthy];
      eexists; (split; [reflexivity|]); [apply K|].
    rewrite dict_get_set_other; [apply K | discriminate]. }
  exists hints. split; [|split; [exact G | exact Ht]].
  unfold DisplayHintsGenerator.generate. rewrite R, G.
  assert (truthy (VDict d) = true) as ->.
  { destruct d; [discriminate T | reflexivity]. }
  cbn [negb].
  assert (truthy (VDict hints) = true) as ->.
  { destruct hints; [discriminate Ht | reflexivity]. }
  reflexivity.
Qed.

Lemma generate_returns_typed_root_witness :
  exists hints,
    DisplayHintsGenerator.generate
      (DisplayHintsGenerator.mk [] one_heading_document [])
    = Some (VDict [("display_hints", VDict hints)])
    /\ dict_get "type" hints = Some (VStr "root").
Proof.
  destruct (@generate_returns_typed_root [] one_heading_document
              (DisplayHintsGenerator.mk [] one_heading_document [])
              one_heading_document (VStr "root")
              eq_refl eq_refl eq_refl)
    as (hints & E & _ & T).
  - intros n [<-|[<-|[]]]; reflexivity.
  - exists hints. split; [exact E | exact T].
Defined.

(** ** Documents without a structural diagnostic *)

Lemma position_diags_nil (name : string) position :
  position_diags name position = []
  <-> (lower name = "frontmatter" -> position = 0%nat).
Proof.
  unfold position_diags.
  destruct (String.eqb (lower name) "frontmatter") eqn:E; cbn [andb].
  - apply String.eqb_eq in E. destruct position as [|p]; cbn.
    + tauto.
    + split; [discriminate | intros H; now specialize (H E)].
  - apply String.eqb_neq in E. tauto.
Qed.

Lemma required_attribute_diags_nil (name : string) (d : dict) :
  required_attribute_diags name d = []
  <-> (forall label attrs,
          lookup name required_attributes = Some (label, attrs) ->
          forall attr, In attr attrs -> dict_has attr d = true).
Proof.
  unfold required_attribute_diags.
  destruct (lookup name required_attributes) as [[label attrs]|].
  - split.
    + intros H label' attrs' [= <- <-] attr I.
      destruct (dict_has attr d) eqn:E; [reflexivity|].
      apply map_eq_nil in H.
      assert (In attr (filter (fun attr => negb (dict_has attr d)) attrs))
        as F by (apply filter_In; now rewrite E).
      rewrite H in F. destruct F.
    + intros H. specialize (H label attrs eq_refl).
      assert (filter (fun attr => negb (dict_has attr d)) attrs = []) as ->;
        [|reflexivity].
      induction attrs as [|a r IH]; [reflexivity|]. cbn [filter].
      rewrite (H a (or_introl eq_refl)). cbn [negb].
      apply IH. intros attr I. apply H. now right.
  - split; [discriminate | reflexivity].
Qed.

Lemma for_enumerate_silent body (cs : list Value) : forall k,
  (forall i x, nth_error cs i = Some x -> body (k + i)%nat x = Ok []) ->
  for_enumerate body cs k = Ok [].
Proof.
  induction cs as [|c r IH]; intros k H; cbn [for_enumerate];
    [reflexivity|].
  pose proof (H 0%nat c eq_refl) as H0. rewrite Nat.add_0_r in H0.
  rewrite H0, IH; [reflexivity|].
  intros i x N. replace (S k + i)%nat with (k + S i)%nat by lia.
  now apply H.
Qed.

(** A node whose type is no string gets no verdict: the walk raises. *)
Lemma _validate_node_verdict_str self (d : dict) parent position errs :
  ASTValidator._validate_node self (VDict d) parent position = Ok errs ->
  dict_get "type" d = None
  \/ exists name, dict_get "type" d = Some (VStr name).
Proof.
  rewrite _validate_node_eq.
  destruct (dict_get "type" d) as [node_type|]; [|now left].
  intros E. right.
  destruct node_type as [| b| z| f| name| l| dt];
    try (now exists name); exfalso;
    unfold ASTValidator._is_valid_node_type, in_str_set, nodes_has in E;
    cbn [hashable bind str_lower] in E; try discriminate;
    match type of E with
    | context [nodes_get ?k ?m] => destruct (nodes_get k m)
    end; cbn [bind negb] in E; try discriminate;
    unfold seq, ASTValidator._validate_position_rules in E;
    cbn [str_lower bind] in E;
    destruct (ASTValidator.containment _ parent); discriminate.
Qed.

(** X8.  [_validate_node] returns without a diagnostic exactly for the
    conforming nodes: the type of the node and of every mapping reached
    through [children] lists is a known string, no frontmatter node stands
    after the first position, and no required attribute is missing. *)
Theorem silent_iff_conforming self (d : dict) (parent : option string)
  position :
  ASTValidator._validate_node self (VDict d) (option_map VStr parent) position
  = Ok []
  <-> conforming self position d.
Proof.
  split.
  - revert parent position.
    enough (forall v,
               (forall d, v = VDict d -> forall (parent : option string)
                                                position,
                   ASTValidator._validate_node self v (option_map VStr parent)
                     position = Ok [] ->
                   conforming self position d)
               /\ (forall cs, v = VList cs ->
                   forall i c, nth_error cs i = Some (VDict c) ->
                   forall (parent : option string) position,
                     ASTValidator._validate_node self (VDict c)
                       (option_map VStr parent) position = Ok [] ->
                     conforming self position c)) as K
        by (intros parent position; now apply (K (VDict d))).
    clear d. intros v.
    induction v as [| | | | |l IH|d IH] using Value_nested_ind;
      split; try discriminate.
    + intros cs [= <-] i c N parent position E.
      rewrite Forall_forall in IH. apply nth_error_In in N.
      exact (proj1 (IH _ N) c eq_refl parent position E).
    + intros d' [= <-] parent position E.
      destruct (_validate_node_verdict_str _ _ _ _ E) as [T|[name T]].
      { rewrite _validate_node_eq, T in E. discriminate. }
      destruct (known_type self name) eqn:Kn.
      2:{ rewrite (_validate_node_unknown _ _ _ _ T Kn) in E. discriminate. }
      rewrite (_validate_node_known _ _ parent position T Kn) in E.
      apply seq_inv in E as (ps & rest & [= <-] & E & Z).
      apply seq_inv in E as (chs & attrs & Ech & [= <-] & ->).
      symmetry in Z. apply app_eq_nil in Z as (Zp & Z).
      apply app_eq_nil in Z as (-> & Za).
      apply (@conforming_node self position d name T Kn).
      * now apply position_diags_nil.
      * now apply required_attribute_diags_nil.
      * intros cs C i c N. unfold validate_children in Ech. rewrite C in Ech.
        destruct (for_enumerate_nth _ _ _ i Ech N) as (xs & B & I).
        assert (xs = []) as -> by (destruct xs as [|x ?];
                                   [reflexivity | destruct (I x); now left]).
        rewrite Forall_forall in IH. apply dict_get_In in C.
        exact (proj2 (IH _ C) cs eq_refl i c N (Some name) i B).
  - intros C. revert parent.
    induction C as [position d name T Kn Hp Ha Hc IH]. intros parent.
    rewrite (_validate_node_known _ _ parent position T Kn).
    rewrite (proj2 (position_diags_nil name position) Hp).
    rewrite (proj2 (required_attribute_diags_nil name d) Ha).
    assert (validate_children self (VStr name) d = Ok []) as ->;
      [|reflexivity].
    unfold validate_children.
    destruct (dict_get "children" d) as [[| | | | |cs|]|] eqn:Ch;
      try reflexivity.
    apply for_enumerate_silent. intros i x N.
    destruct x as [| | | | | |c]; try reflexivity.
    exact (IH cs eq_refl i c N (Some name)).
Qed.

(** ** The failed functions of the detailed view *)

Section SplitText.
Local Open Scope string_scope.

Lemma prefix_cons (x y : ascii) (s t : string) :
  prefix (String x s) (String y t) = Ascii.eqb x y && prefix s t.
Proof.
  cbn [prefix]. destruct (Ascii.ascii_dec x y) as [->|N].
  - now rewrite Ascii.eqb_refl.
  - apply Ascii.eqb_neq in N. now rewrite N.
Qed.

Lemma prefix_nil (s : string) : prefix "" s = true.
Proof. now destruct s. Qed.

Lemma prefix_fits (c : ascii) (sep : string) : forall a b,
  contains_char c sep = false ->
  prefix sep (a ++ String c b) = true -> prefix sep a = true.
Proof.
  induction sep as [|x sep IH]; intros a b N P.
  - now destruct a.
  - cbn [contains_char] in N. apply orb_false_iff in N as (Nx & N).
    destruct a as [|y a].
    + cbn [String.append] in P. rewrite prefix_cons in P.
      apply andb_true_iff in P as (E & _).
      apply Ascii.eqb_eq in E. subst x. now rewrite Ascii.eqb_refl in Nx.
    + cbn [String.append] in P. rewrite prefix_cons in *.
      apply andb_true_iff in P as (E & P). rewrite E. cbn [andb].
      exact (IH a b N P).
Qed.

Lemma prefix_app (sep rest : string) : prefix sep (sep ++ rest) = true.
Proof.
  induction sep as [|x sep IH]; [apply prefix_nil|].
  cbn [String.append]. now rewrite prefix_cons, Ascii.eqb_refl, IH.
Qed.

Lemma split_text_skip (sep : string) (a : string) : forall b,
  Report.split_text sep (String.length a) (a ++ b)
  = Report.split_text sep 0 b.
Proof.
  induction a as [|y a IH]; intros b; [now destruct b|].
  cbn [String.append String.length Report.split_text]. apply IH.
Qed.

Lemma split_text_at_sep (x : ascii) (sep rest : string) :
  Report.split_text (String x sep) 0 (String x sep ++ rest)
  = EmptyString :: Report.split_text (String x sep) 0 rest.
Proof.
  pose proof (prefix_app (String x sep) rest) as P.
  cbn [String.append] in *. cbn [Report.split_text]. rewrite P.
  cbn [String.length Nat.sub]. rewrite Nat.sub_0_r.
  now rewrite split_text_skip.
Qed.

Lemma split_text_keeps (c : ascii) (sep : string) :
  contains_char c sep = false ->
  forall a b, contains sep a = false ->
  exists w ws,
    Report.split_text sep 0 (a ++ String c b) = (a ++ String c w) :: ws.
Proof.
  intros N a. induction a as [|y a IH]; intros b H.
  - cbn [contains] in H. apply orb_false_iff in H as (H & _).
    destruct sep as [|x sep]; [discriminate H|].
    cbn [contains_char] in N. apply orb_false_iff in N as (Nx & _).
    cbn [String.append Report.split_text]. rewrite prefix_cons.
    rewrite Ascii.eqb_sym, Nx. cbn [andb].
    destruct (Report.split_text (String x sep) 0 b) as [|w ws];
      eexists; eexists; reflexivity.
  - cbn [contains] in H. apply orb_false_iff in H as (H & Ha).
    cbn [String.append Report.split_text].
    destruct (prefix sep (String y (a ++ String c b))) eqn:P.
    + change (String y (a ++ String c b)) with (String y a ++ String c b) in P.
      apply (prefix_fits _ _ _ _ N) in P. congruence.
    + destruct (IH b Ha) as (w & ws & ->). eexists; eexists; reflexivity.
Qed.

Lemma split_paren_first (name : string) : forall w,
  contains " (" name = false ->
  exists ws, Report.split " (" (name ++ " (" ++ w) = name :: ws.
Proof.
  unfold Report.split. induction name as [|y n IH]; intros w H.
  - eexists. cbn [String.append Report.split_text].
    rewrite !prefix_cons, prefix_nil. cbn. reflexivity.
  - cbn [contains] in H. apply orb_false_iff in H as (H & Hn).
    cbn [String.append Report.split_text].
    assert (prefix " (" (String y (n ++ String " " (String "(" w))) = false)
      as ->.
    { rewrite prefix_cons in *. destruct (Ascii.eqb " " y); [|reflexivity].
      cbn [andb] in *. destruct n as [|z n]; [reflexivity|].
      cbn [String.append]. rewrite prefix_cons in *.
      apply andb_false_iff in H as [H|H];
        [now rewrite H | now rewrite prefix_nil in H]. }
    destruct (IH w Hn) as (ws & E). cbn [String.append] in E. rewrite E.
    eexists; reflexivity.
Qed.

Lemma append_assoc' (a b c : string) : ((a ++ b) ++ c = a ++ b ++ c)%string.
Proof. induction a as [|x a IH]; cbn; [reflexivity | now rewrite IH]. Qed.

Lemma contains_prefix (sub s : string) :
  prefix sub s = true -> contains sub s = true.
Proof. intros H. destruct s; cbn [contains]; now rewrite H. Qed.

Lemma contains_app_r (sub : string) (a b : string) :
  contains sub b = true -> contains sub (a ++ b) = true.
Proof.
  intros H. induction a as [|y a IH]; [exact H|].
  cbn [String.append contains]. rewrite IH. apply orb_true_r.
Qed.

Lemma contains_char_app_r (c : ascii) (a b : string) :
  contains_char c b = true -> contains_char c (a ++ b) = true.
Proof.
  intros H. induction a as [|y a IH]; [exact H|].
  cbn [String.append contains_char]. rewrite IH. apply orb_true_r.
Qed.

Lemma func_name_of_report (name tail : string) :
  contains " (" name = false ->
  contains "Syntax defines " (name ++ " ") = false ->
  Report.func_name ("Syntax defines " ++ name ++ " (" ++ tail)
  = Report.Found name.
Proof.
  intros H1 H2. unfold Report.func_name, Report.split.
  destruct (@split_text_keeps "(" "Syntax defines " eq_refl
              (name ++ " ") tail H2) as (w & ws & E).
  replace ((name ++ " ") ++ String "(" tail) with (name ++ " (" ++ tail) in E
    by (symmetry; exact (append_assoc' name " " (String "(" tail))).
  rewrite (split_text_at_sep "S" "yntax defines "), E.
  replace ((name ++ " ") ++ String "(" w) with (name ++ " (" ++ w)
    by (symmetry; exact (append_assoc' name " " (String "(" w))).
  destruct (split_paren_first name w H1) as (ws' & E'). unfold Report.split in E'.
  now rewrite E'.
Qed.

Lemma coverage_report_text (name : string) (m : fstring) (text : string) :
  coverage_report name m -> render m = Some text ->
  exists tail,
    text = "Syntax defines " ++ name ++ " (" ++ tail
    /\ contains "but AST has no example" tail = true.
Proof.
  intros [[node_type ->]|[depth ->]] R;
    unfold ASTValidator.coverage_type_msg, ASTValidator.coverage_depth_msg in R;
    cbn [render py_str option_map] in R.
  - destruct (py_str node_type) as [s|]; [|discriminate].
    cbn [option_map] in R. injection R as <-.
    exists ("node_type: " ++ s
            ++ ") but AST has no example of this node type" ++ "").
    split; [reflexivity|].
    now do 2 apply contains_app_r.
  - destruct (py_str depth) as [s|]; [|discriminate].
    cbn [option_map] in R. injection R as <-.
    exists ("heading depth " ++ s
            ++ ") but AST has no example heading with depth " ++ s ++ "").
    split; [reflexivity|].
    apply contains_app_r, contains_app_r.
    change (") but AST has no example heading with depth " ++ s ++ "")
      with (") " ++ "but AST has no example"
                 ++ " heading with depth " ++ s ++ "").
    apply contains_app_r, contains_prefix, prefix_app.
Qed.

Lemma set_add_In (x y : string) (s : list string) :
  In y (Report.set_add x s) <-> y = x \/ In y s.
Proof.
  unfold Report.set_add. destruct (existsb (String.eqb x) s) eqn:E.
  - apply existsb_exists in E as (z & I & E). apply String.eqb_eq in E.
    subst z. split; [now right | now intros [->|?]].
  - rewrite in_app_iff. cbn [In]. intuition congruence.
Qed.

Lemma failed_functions_names (reports : list (string * fstring)) :
  forall errors failed,
  Forall2 (fun r text => plain_name (fst r)
                         /\ coverage_report (fst r) (snd r)
                         /\ render (snd r) = Some text) reports errors ->
  exists failed',
    Report.failed_functions errors failed = Report.Found failed'
    /\ forall name, In name failed'
                    <-> In name failed \/ In name (map fst reports).
Proof.
  induction reports as [|[name m] r IH]; intros errors failed F;
    inversion F as [|? text ? errs ((P1 & P2) & C & R) F']; subst.
  - exists failed. split; [reflexivity | cbn; tauto].
  - cbn [fst snd] in *.
    destruct (coverage_report_text C R) as (tail & -> & B).
    cbn [Report.failed_functions].
    assert (contains "Syntax defines"
              ("Syntax defines " ++ name ++ " (" ++ tail) = true) as ->.
    { change ("Syntax defines " ++ name ++ " (" ++ tail)
        with ("Syntax defines" ++ " " ++ name ++ " (" ++ tail).
      apply contains_prefix, prefix_app. }
    assert (contains "but AST has no example"
              ("Syntax defines " ++ name ++ " (" ++ tail) = true) as ->.
    { apply contains_app_r, contains_app_r, contains_app_r, B. }
    assert (contains_char "("
              ("Syntax defines " ++ name ++ " (" ++ tail) = true) as ->.
    { apply contains_char_app_r, contains_char_app_r. reflexivity. }
    cbn [andb]. rewrite (@func_name_of_report name tail P1 P2).
    destruct (IH errs (Report.set_add name failed) F') as (failed' & -> & I).
    exists failed'. split; [reflexivity|]. intros n. rewrite I, set_add_In.
    cbn [map fst In]. intuition congruence.
Qed.

End SplitText.

(** X9.  The detailed view finds the failed functions by cutting the
    coverage diagnostics apart again.  When the validation errors are the
    texts of coverage diagnostics about plain declaration names, the loop
    raises nothing and the set it builds holds exactly the names the
    diagnostics are about. *)
Theorem failed_functions_are_reported_names
  (reports : list (string * fstring)) (errors : list string) :
  Forall2 (fun r text => plain_name (fst r)
                         /\ coverage_report (fst r) (snd r)
                         /\ render (snd r) = Some text) reports errors ->
  exists failed,
    Report.failed_functions errors [] = Report.Found failed
    /\ forall name, In name failed <-> In name (map fst reports).
Proof.
  intros F. destruct (failed_functions_names [] F) as (failed & E & I).
  exists failed. split; [exact E|]. intros name. rewrite I. cbn [In]. tauto.
Qed.

Lemma failed_functions_are_reported_names_witness :
  exists failed,
    Report.failed_functions
      ["Syntax defines Heading2 (node_type: heading) but AST has no example of this node type"]
      [] = Report.Found failed
    /\ forall name, In name failed <-> In name ["Heading2"].
Proof.
  apply (@failed_functions_are_reported_names
           [("Heading2",
             ASTValidator.coverage_type_msg "Heading2" (VStr "heading"))]).
  constructor; [|constructor]. cbn [fst snd]. split; [|split].
  - split; reflexivity.
  - left. now exists (VStr "heading").
  - reflexivity.
Defined.

(** A name with a parenthesis after a space is cut short. *)
Remark func_name_cuts_at_parenthesis :
  Report.func_name
    "Syntax defines Heading (big) (node_type: heading) but AST has no example of this node type"
  = Report.Found "Heading".
Proof. reflexivity. Qed.

(** ** The lines of a text *)

Lemma split_on_cons (sep : ascii) (s : string) :
  exists w ws, split_on sep s = w :: ws.
Proof.
  destruct s as [|c r]; cbn [split_on]; [now eexists; eexists|].
  destruct (Ascii.eqb c sep); [now eexists; eexists|].
  destruct (split_on sep r); now eexists; eexists.
Qed.

Lemma split_on_app (sep : ascii) (a b : string) :
  split_on sep (a ++ String sep b)%string = split_on sep a ++ split_on sep b.
Proof.
  induction a as [|c a IH]; cbn [String.append split_on].
  - now rewrite Ascii.eqb_refl.
  - rewrite IH. destruct (Ascii.eqb c sep); [reflexivity|].
    destruct (split_on_cons sep a) as (w & ws & ->). reflexivity.
Qed.

Lemma split_on_join (sep : ascii) (l : string) (ls : list string) :
  split_on sep (join (String sep EmptyString) (l :: ls))
  = List.concat (map (split_on sep) (l :: ls)).
Proof.
  revert l. induction ls as [|l' ls IH]; intros l.
  - cbn. now rewrite app_nil_r.
  - change (join (String sep "") (l :: l' :: ls))
      with (l ++ String sep (join (String sep "") (l' :: ls)))%string.
    rewrite split_on_app, IH. reflexivity.
Qed.

Lemma split_on_plain (sep : ascii) (s : string) :
  contains_char sep s = false -> split_on sep s = [s].
Proof.
  induction s as [|c r IH]; cbn [contains_char split_on]; [reflexivity|].
  intros H. apply orb_false_iff in H as (E & H).
  rewrite Ascii.eqb_sym, E, (IH H). reflexivity.
Qed.


Lemma split_on_lines_plain (sep : ascii) (s : string) :
  Forall (fun l => contains_char sep l = false) (split_on sep s).
Proof.
  induction s as [|c r IH]; cbn [split_on]; [now repeat constructor|].
  destruct (Ascii.eqb c sep) eqn:E; [now constructor|].
  destruct (split_on sep r) as [|w ws]; [repeat constructor|].
  - cbn [contains_char]. now rewrite Ascii.eqb_sym, E.
  - inversion IH; subst. constructor; [|assumption].
    cbn [contains_char]. now rewrite Ascii.eqb_sym, E.
Qed.

Lemma concat_split_plain (sep : ascii) (ls : list string) :
  Forall (fun l => contains_char sep l = false) ls ->
  List.concat (map (split_on sep) ls) = ls.
Proof.
  induction 1 as [|l ls Hl _ IH]; [reflexivity|].
  cbn [map List.concat]. now rewrite (split_on_plain _ _ Hl), IH.
Qed.

Lemma drop_while_cons p (c : ascii) (r : string) :
  drop_while p (String c r) = if p c then drop_while p r else String c r.
Proof.
  unfold drop_while. cbn [span]. destruct (p c); [|reflexivity].
  now destruct (span p r).
Qed.

Lemma space_not_brace (x : ascii) :
  is_space x = true -> Ascii.eqb "{" x = false.
Proof.
  intros H. destruct (Ascii.eqb "{" x) eqn:E; [|reflexivity].
  apply Ascii.eqb_eq in E. subst x. discriminate H.
Qed.

Lemma has_brace_drop_while (s : string) :
  has_brace (drop_while is_space s) = has_brace s.
Proof.
  induction s as [|x r IH]; [reflexivity|]. rewrite drop_while_cons.
  destruct (is_space x) eqn:E; [|reflexivity].
  rewrite IH. unfold has_brace. cbn [contains_char].
  now rewrite (space_not_brace _ E).
Qed.

Lemma has_brace_rstrip (s : string) :
  has_brace (rstrip_chars is_space s) = has_brace s.
Proof.
  unfold has_brace. induction s as [|x r IH]; [reflexivity|].
  cbn [rstrip_chars contains_char].
  destruct (rstrip_chars is_space r) as [|y r'].
  - rewrite <- IH. destruct (is_space x) eqn:E; cbn [contains_char].
    + now rewrite (space_not_brace _ E).
    + reflexivity.
  - cbn [contains_char] in *. now rewrite IH.
Qed.

Lemma has_brace_strip (s : string) : has_brace (strip s) = has_brace s.
Proof.
  unfold strip, strip_chars. now rewrite has_brace_rstrip, has_brace_drop_while.
Qed.

(** The lines of [String x t] from those of [t]. *)
Lemma profile_cons (x : ascii) (t : string) :
  head_brace (String x t)
  = (if Ascii.eqb x newline then false
     else Ascii.eqb "{" x || head_brace t)
  /\ (brace_lines (String x t) + bit (head_brace t)
      = brace_lines t
        + bit (if Ascii.eqb x newline then head_brace t
               else Ascii.eqb "{" x || head_brace t))%nat.
Proof.
  unfold head_brace, brace_lines. cbn [split_on].
  destruct (split_on_cons newline t) as (w & ws & ->).
  destruct (Ascii.eqb x newline); cbn [hd filter List.length has_brace].
  - unfold has_brace. cbn [contains_char]. split; [reflexivity|].
    destruct (contains_char "{" w); cbn [bit List.length]; lia.
  - unfold has_brace. cbn [contains_char]. split; [reflexivity|].
    destruct (Ascii.eqb "{" x), (contains_char "{" w);
      cbn [orb bit List.length]; lia.
Qed.

Lemma profile_cons_eq (x : ascii) (t1 t2 : string) :
  head_brace t1 = head_brace t2 -> brace_lines t1 = brace_lines t2 ->
  head_brace (String x t1) = head_brace (String x t2)
  /\ brace_lines (String x t1) = brace_lines (String x t2).
Proof.
  intros H C.
  destruct (profile_cons x t1) as (H1 & C1), (profile_cons x t2) as (H2 & C2).
  rewrite H in *. rewrite C in *. split; [congruence | lia].
Qed.

Lemma brace_lines_space (x : ascii) (t : string) :
  is_space x = true -> brace_lines (String x t) = brace_lines t.
Proof.
  intros E. destruct (profile_cons x t) as (_ & C).
  rewrite (space_not_brace _ E) in C. cbn [orb] in C.
  destruct (Ascii.eqb x newline); lia.
Qed.

Lemma profile_space_only (x : ascii) :
  is_space x = true ->
  head_brace (String x "") = false /\ brace_lines (String x "") = 0%nat.
Proof.
  intros E. unfold head_brace, brace_lines, has_brace. cbn [split_on].
  destruct (Ascii.eqb x newline); cbn [hd filter contains_char];
    [now split|].
  rewrite (space_not_brace _ E). now split.
Qed.

Lemma brace_lines_drop_while (t : string) :
  brace_lines (drop_while is_space t) = brace_lines t.
Proof.
  induction t as [|x r IH]; [reflexivity|]. rewrite drop_while_cons.
  destruct (is_space x) eqn:E; [|reflexivity].
  now rewrite (brace_lines_space x r E), IH.
Qed.

Lemma profile_rstrip (t : string) :
  head_brace (rstrip_chars is_space t) = head_brace t
  /\ brace_lines (rstrip_chars is_space t) = brace_lines t.
Proof.
  induction t as [|x r (H & C)]; [now split|]. cbn [rstrip_chars].
  destruct (rstrip_chars is_space r) as [|y r'] eqn:R.
  - destruct (is_space x) eqn:E.
    + destruct (profile_cons_eq x "" r H C) as (H1 & C1).
      destruct (profile_space_only x E) as (H0 & C0).
      rewrite <- H1, <- C1, H0, C0. now split.
    + now apply profile_cons_eq.
  - now apply profile_cons_eq.
Qed.

Lemma brace_lines_strip (t : string) : brace_lines (strip t) = brace_lines t.
Proof.
  unfold strip, strip_chars.
  now rewrite (proj2 (profile_rstrip _)), brace_lines_drop_while.
Qed.

Lemma filter_filter A (f g : A -> bool) (l : list A) :
  filter f (filter g l) = filter (fun x => g x && f x) l.
Proof.
  induction l as [|x r IH]; [reflexivity|]. cbn [filter].
  destruct (g x); cbn [filter andb]; now rewrite IH.
Qed.

Lemma brace_lines_join (ls : list string) :
  Forall (fun l => contains_char newline l = false) ls ->
  brace_lines (join nl ls) = List.length (filter has_brace ls).
Proof.
  intros F. unfold brace_lines. destruct ls as [|l ls]; [reflexivity|].
  unfold nl. now rewrite split_on_join, (@concat_split_plain newline _ F).
Qed.

Lemma Forall_filter A (P : A -> Prop) (f : A -> bool) (l : list A) :
  Forall P l -> Forall P (filter f l).
Proof.
  induction 1 as [|x r Hx _ IH]; [constructor|]. cbn [filter].
  destruct (f x); [now constructor | exact IH].
Qed.

(** The definitions counted in the text and in what is left of it after
    the comments are gone. *)
Lemma brace_lines_strip_comments (content : string) :
  brace_lines (ASTSyntaxChecker.strip_comments content)
  = Menu.count_lines (contains_char "{") content.
Proof.
  unfold ASTSyntaxChecker.strip_comments. fold kept. fold nl.
  rewrite brace_lines_strip, brace_lines_join
    by apply Forall_filter, split_on_lines_plain.
  rewrite filter_filter. unfold Menu.count_lines. f_equal.
  apply filter_ext. intros l. unfold kept.
  change (contains_char "{" (strip l)) with (has_brace (strip l)).
  now rewrite has_brace_strip.
Qed.

Lemma dict_set_length k v (d : dict) :
  (List.length (dict_set k v d) <= S (List.length d))%nat.
Proof.
  induction d as [|[k' v'] r IH]; cbn [dict_set List.length]; [lia|].
  destruct (String.eqb k k'); cbn [List.length]; lia.
Qed.

Lemma flush_length (out : dict) (current_node : string) :
  (List.length (ASTSyntaxChecker.flush out current_node)
   <= List.length out + pending current_node)%nat.
Proof.
  unfold ASTSyntaxChecker.flush, pending.
  destruct (String.eqb current_node ""); [lia|].
  unfold ASTSyntaxChecker._parse_syntax_node.
  destruct (negb (contains_char "{" current_node)); [cbn; lia|].
  destruct (span _ current_node) as [name rest]. cbn [truthy].
  unfold dict_update. cbn [fold_left fst snd].
  pose proof (dict_set_length (strip name)
                (VDict (fold_left ASTSyntaxChecker.parse_property
                          (split_on ","
                             match rfind "}" (drop 1 rest) with
                             | Some i => take i (drop 1 rest)
                             | None => drop 1 rest
                             end) [])) out).
  lia.
Qed.

Lemma syntax_lines_length (lines : list string) : forall out current_node,
  (List.length (fst (fold_left ASTSyntaxChecker.syntax_line lines
                       (out, current_node)))
   + pending (snd (fold_left ASTSyntaxChecker.syntax_line lines
                     (out, current_node)))
   <= List.length out + pending current_node
      + List.length (filter has_brace lines))%nat.
Proof.
  induction lines as [|line r IH]; intros out cur; [cbn; lia|].
  cbn [fold_left filter]. rewrite <- (has_brace_strip line).
  unfold ASTSyntaxChecker.syntax_line at 2 4.
  fold (has_brace (strip line)).
  destruct (String.eqb (strip line) "") eqn:E; cbn [negb andb].
  - apply String.eqb_eq in E. rewrite E. cbn [has_brace contains_char].
    apply IH.
  - destruct (has_brace (strip line)).
    + pose proof (IH (ASTSyntaxChecker.flush out cur) (strip line)) as H.
      pose proof (flush_length out cur) as F.
      unfold pending at 2 in H. rewrite E in H. cbn [List.length]. lia.
    + destruct (String.eqb cur "") eqn:C; cbn [negb]; [apply IH|].
      pose proof (IH out (cur ++ " " ++ strip line)%string) as H.
      assert (pending (cur ++ " " ++ strip line)%string = pending cur) as P.
      { unfold pending. rewrite C. destruct cur; [discriminate C|reflexivity]. }
      lia.
Qed.

Lemma parse_syntax_format_length (content : string) :
  (List.length (ASTSyntaxChecker.parse_syntax_format content)
   <= brace_lines content)%nat.
Proof.
  unfold ASTSyntaxChecker.parse_syntax_format, brace_lines.
  pose proof (syntax_lines_length (split_on newline content) [] "") as H.
  destruct (fold_left _ _ _) as [out cur]. cbn [fst snd] in H.
  pose proof (flush_length out cur). change (pending "") with 0%nat in H.
  cbn [List.length] in H. lia.
Qed.

Lemma kept_lines_of_join (ls : list string) :
  filter kept (split_on newline (join nl ls))
  = filter kept (List.concat (map (split_on newline) ls)).
Proof.
  destruct ls as [|l ls]; [reflexivity|]. unfold nl. now rewrite split_on_join.
Qed.

(** X10.  A text read in the syntax format gives at most as many
    definitions as the menu counts for it with [_count_markdown_functions]:
    each counted line opens one definition, and definitions of one name
    merge. *)
Theorem syntax_count_bounds_definitions (content : string)
  (ast_file : option string) :
  prefix "RootNode" (ASTSyntaxChecker.strip_comments content)
  || prefix "Document" (ASTSyntaxChecker.strip_comments content) = false ->
  contains_char "{" (ASTSyntaxChecker.strip_comments content)
  && contains "node_type" (ASTSyntaxChecker.strip_comments content) = true ->
  exists defs,
    ASTSyntaxChecker._parse_ron_content content = Some defs
    /\ (List.length defs
        <= fst (Menu._count_markdown_functions (Some content) ast_file))%nat.
Proof.
  intros R S. unfold ASTSyntaxChecker._parse_ron_content. rewrite R, S.
  assert (String.eqb (ASTSyntaxChecker.strip_comments content) "" = false)
    as ->.
  { destruct (ASTSyntaxChecker.strip_comments content); [discriminate S|].
    reflexivity. }
  eexists. split; [reflexivity|]. cbn [Menu._count_markdown_functions fst].
  rewrite <- brace_lines_strip_comments. apply parse_syntax_format_length.
Qed.

Lemma syntax_count_bounds_definitions_witness :
  exists defs,
    ASTSyntaxChecker._parse_ron_content heading_syntax_text = Some defs
    /\ (List.length defs
        <= fst (Menu._count_markdown_functions (Some heading_syntax_text)
                  None))%nat.
Proof.
  apply (@syntax_count_bounds_definitions heading_syntax_text None);
    reflexivity.
Defined.

(** X11.  A line that is blank or a comment changes nothing: put between
    any lines of a text, before them or after them, it leaves the result of
    [_parse_ron_content] as it was. *)
Theorem comment_lines_are_ignored (before after : list string)
  (comment : string) :
  contains_char newline comment = false ->
  strip comment = "" \/ prefix "#" (strip comment) = true ->
  ASTSyntaxChecker._parse_ron_content (join nl (before ++ comment :: after))
  = ASTSyntaxChecker._parse_ron_content (join nl (before ++ after)).
Proof.
  intros N C.
  assert (ASTSyntaxChecker.strip_comments
            (join nl (before ++ comment :: after))
          = ASTSyntaxChecker.strip_comments (join nl (before ++ after))) as E.
  { unfold ASTSyntaxChecker.strip_comments. fold kept. fold nl.
    rewrite !kept_lines_of_join, !map_app, !concat_app, !filter_app.
    cbn [map List.concat]. rewrite filter_app, (split_on_plain _ _ N).
    assert (filter kept [comment] = []) as ->; [|reflexivity].
    cbn [filter]. unfold kept.
    destruct C as [->| ->]; [reflexivity | now rewrite andb_false_r]. }
  unfold ASTSyntaxChecker._parse_ron_content. now rewrite E.
Qed.

Lemma comment_lines_are_ignored_witness :
  ASTSyntaxChecker._parse_ron_content
    (join nl ([] ++ "  # the headings" :: [heading_syntax_text]))
  = ASTSyntaxChecker._parse_ron_content (join nl ([] ++ [heading_syntax_text])).
Proof.
  apply (@comment_lines_are_ignored [] [heading_syntax_text]
           "  # the headings" eq_refl).
  right. reflexivity.
Defined.

(** ** The generation command *)

Lemma py_eq_to_str (x : Value) (a : string) :
  py_eq x (VStr a) = true -> x = VStr a.
Proof.
  destruct x; cbn; try discriminate.
  intros E. apply String.eqb_eq in E. now subst.
Qed.

Lemma concat_nil_all A (ls : list (list A)) (l : list A) :
  List.concat ls = [] -> In l ls -> l = [].
Proof.
  induction ls as [|x r IH]; [intros _ []|]. cbn [List.concat].
  intros E. apply app_eq_nil in E as (-> & E).
  intros [<-|I]; [reflexivity | now apply IH].
Qed.

Lemma coverage_entry_silent ast_data name (def : dict) node_type :
  ASTValidator.coverage_entry (ASTValidator.collect_nodes (VDict ast_data))
    name (VDict def) = Ok [] ->
  dict_get "node_type" def = Some node_type ->
  exemplified ast_data node_type.
Proof.
  intros E T. unfold ASTValidator.coverage_entry in E. rewrite T in E.
  destruct (py_eq node_type (VStr "heading") && dict_has "depth" def) eqn:H.
  - apply andb_true_iff in H as (H & _). apply py_eq_to_str in H. subst.
    destruct (ASTValidator.coerce_depth (get "depth" def))
      as [required_depth|]; [|discriminate E].
    cbn [bind] in E.
    destruct (ASTValidator.found_depth _ _) eqn:F; [|discriminate E].
    apply existsb_exists in F as (node & I & F).
    apply andb_true_iff in F as (F & _). now exists node.
  - destruct (ASTValidator.found_type _ _) eqn:F; [|discriminate E].
    apply existsb_exists in F as (node & I & F). now exists node.
Qed.

(** X12.  [generate_display_hints] hands hints to [save_ron_file] only for
    a fully covered syntax: both files were read, every declaration of the
    syntax with a [node_type] has a node of that type somewhere in the AST,
    and the hints are those of [generate]. *)
Theorem saved_hints_mean_full_coverage (syntax_file ast_file : option string)
  (display_hints : Value) :
  Commands.generate_display_hints syntax_file ast_file
  = Ok (Some display_hints) ->
  exists syntax_data ast_data defs generator,
    Commands.load_ron_file syntax_file = Some syntax_data
    /\ Commands.load_ron_file ast_file = Some ast_data
    /\ items (_get_syntax_definitions syntax_data) = Ok defs
    /\ (forall name def node_type,
           In (name, VDict def) defs ->
           dict_get "node_type" def = Some node_type ->
           exemplified ast_data node_type)
    /\ DisplayHintsGenerator.init syntax_data ast_data = Ok generator
    /\ DisplayHintsGenerator.generate generator = Some display_hints.
Proof.
  unfold Commands.generate_display_hints. intros G.
  destruct (Commands.load_ron_file syntax_file) as [syntax_data|];
    [|discriminate G].
  destruct (Commands.load_ron_file ast_file) as [ast_data|];
    [|discriminate G].
  destruct (negb (truthy (VDict syntax_data))
            || negb (truthy (VDict ast_data))); [discriminate G|].
  destruct (ASTValidator.init syntax_data ast_data) as [validator|] eqn:I;
    [|discriminate G].
  cbn [bind] in G.
  destruct (ASTValidator.validate validator) as [[|e es]|] eqn:V;
    try discriminate G.
  cbn [bind] in G.
  destruct (DisplayHintsGenerator.init syntax_data ast_data)
    as [generator|] eqn:I'; [|discriminate G].
  cbn [bind] in G. injection G as G.
  destruct (init_syntax _ _ I) as (Hs & Ha & _).
  unfold ASTValidator.validate in V.
  apply seq_inv in V as (structural & coverage & _ & C & Z).
  symmetry in Z. apply app_eq_nil in Z as (_ & ->).
  unfold ASTValidator._validate_syntax_coverage,
    ASTValidator._collect_ast_nodes in C.
  rewrite Hs, Ha in C.
  destruct (items (_get_syntax_definitions syntax_data)) as [defs|] eqn:D;
    [|discriminate C].
  cbn [bind] in C.
  exists syntax_data, ast_data, defs, generator.
  repeat split; try reflexivity; try assumption.
  intros name def node_type In_defs T.
  destruct (for_items_concat _ _ C) as (per_entry & Z & F).
  destruct (Forall2_In_l _ F In_defs) as (diags & Id & B).
  cbn [fst snd] in B. symmetry in Z.
  rewrite (concat_nil_all _ _ Z Id) in B.
  exact (coverage_entry_silent _ _ _ B T).
Qed.

Lemma saved_hints_mean_full_coverage_witness :
  exists display_hints syntax_data ast_data defs generator,
    Commands.load_ron_file (Some heading_syntax_text) = Some syntax_data
    /\ Commands.load_ron_file (Some heading_ast_text) = Some ast_data
    /\ items (_get_syntax_definitions syntax_data) = Ok defs
    /\ (forall name def node_type,
           In (name, VDict def) defs ->
           dict_get "node_type" def = Some node_type ->
           exemplified ast_data node_type)
    /\ DisplayHintsGenerator.init syntax_data ast_data = Ok generator
    /\ DisplayHintsGenerator.generate generator = Some display_hints.
Proof.
  eexists.
  apply (@saved_hints_mean_full_coverage (Some heading_syntax_text)
           (Some heading_ast_text)).
  vm_compute. reflexivity.
Defined.

(** ** The analysis of the syntax definitions *)

Lemma dict_has_In_keys k (d : dict) :
  dict_has k d = true <-> In k (map fst d).
Proof.
  unfold dict_has. induction d as [|[k' v'] r IH]; cbn [dict_get map fst In].
  - split; [discriminate | tauto].
  - destruct (String.eqb k k') eqn:E.
    + apply String.eqb_eq in E. subst. tauto.
    + apply String.eqb_neq in E. rewrite IH. intuition congruence.
Qed.

Lemma dict_set_fresh k v (d : dict) :
  dict_has k d = false -> dict_set k v d = d ++ [(k, v)].
Proof.
  unfold dict_has. induction d as [|[k' v'] r IH]; cbn [dict_get dict_set app];
    [reflexivity|].
  destruct (String.eqb k k'); [discriminate|]. intros H. now rewrite IH.
Qed.

Lemma dict_set_keys k v (d : dict) :
  map fst (dict_set k v d)
  = if dict_has k d then map fst d else map fst d ++ [k].
Proof.
  unfold dict_has. induction d as [|[k' v'] r IH]; cbn [dict_get dict_set map fst app];
    [reflexivity|].
  destruct (String.eqb k k') eqn:E; cbn [map fst].
  - apply String.eqb_eq in E. now subst.
  - rewrite IH. now destruct (dict_get k r).
Qed.

Lemma dict_set_unique k v (d : dict) :
  unique_keys d -> unique_keys (dict_set k v d).
Proof.
  unfold unique_keys. intros U. rewrite dict_set_keys.
  destruct (dict_has k d) eqn:H; [exact U|].
  apply NoDup_app; [exact U | repeat constructor; intros [] |].
  intros x Ix [<-|[]]. apply dict_has_In_keys in Ix. congruence.
Qed.

Lemma flush_unique out current_node :
  unique_keys out -> unique_keys (ASTSyntaxChecker.flush out current_node).
Proof.
  intros U. unfold ASTSyntaxChecker.flush.
  destruct (String.eqb current_node ""); [exact U|].
  destruct (truthy _); [|exact U].
  unfold dict_update.
  generalize (ASTSyntaxChecker._parse_syntax_node current_node). intros e.
  revert out U. induction e as [|[k v] r IH]; intros out U; [exact U|].
  cbn [fold_left fst snd]. apply IH. now apply dict_set_unique.
Qed.

Lemma parse_syntax_format_unique content :
  unique_keys (ASTSyntaxChecker.parse_syntax_format content).
Proof.
  unfold ASTSyntaxChecker.parse_syntax_format.
  assert (forall lines out cur,
             unique_keys out ->
             unique_keys (fst (fold_left ASTSyntaxChecker.syntax_line lines
                                 (out, cur)))) as K.
  { induction lines as [|line r IH]; intros out cur U; [exact U|].
    cbn [fold_left]. unfold ASTSyntaxChecker.syntax_line at 2.
    destruct (negb (String.eqb (strip line) "")
              && contains_char "{" (strip line)).
    - apply IH. now apply flush_unique.
    - destruct (negb (String.eqb (strip line) "")
                && negb (String.eqb cur "")); now apply IH. }
  specialize (K (split_on newline content) [] "" (NoDup_nil _)).
  destruct (fold_left _ _ _) as [out cur]. now apply flush_unique.
Qed.

Lemma keep_mappings_all (d : dict) : forall acc,
  unique_keys (acc ++ d) -> plain_defs d = true ->
  fold_left keep_mappings d acc = acc ++ d.
Proof.
  induction d as [|[k v] r IH]; intros acc U P; [now rewrite app_nil_r|].
  cbn [plain_defs forallb snd] in P. apply andb_true_iff in P as (Pv & P).
  destruct v as [| | | | | |props]; try discriminate Pv.
  cbn [fold_left]. unfold keep_mappings at 2. cbn [fst snd].
  assert (dict_has k acc = false) as F.
  { destruct (dict_has k acc) eqn:H; [|reflexivity].
    apply dict_has_In_keys in H. unfold unique_keys in U.
    rewrite map_app in U. cbn [map fst] in U.
    apply NoDup_remove_2 in U. exfalso. apply U, in_or_app. now left. }
  rewrite (@dict_set_fresh k (VDict props) acc F), IH;
    [now rewrite <- app_assoc| |exact P].
  now rewrite <- app_assoc.
Qed.

Lemma keep_mappings_none (props : dict) : forall acc,
  all_str props = true -> fold_left keep_mappings props acc = acc.
Proof.
  induction props as [|[k v] r IH]; intros acc P; [reflexivity|].
  cbn [all_str forallb snd] in P. apply andb_true_iff in P as (Pv & P).
  destruct v; try discriminate Pv. cbn [fold_left]. now apply IH.
Qed.

Lemma plain_defs_get k (d : dict) v :
  plain_defs d = true -> dict_get k d = Some v ->
  exists props, v = VDict props /\ all_str props = true.
Proof.
  induction d as [|[k' v'] r IH]; cbn [dict_get]; [discriminate|].
  intros P. cbn [plain_defs forallb snd] in P.
  apply andb_true_iff in P as (Pv & P).
  destruct (String.eqb k k'); [|now apply IH].
  intros [= <-]. destruct v'; try discriminate Pv. now eexists.
Qed.

(** X13.  On a text read in the syntax format
    [_analyze_syntax_definitions] returns every parsed definition, in
    order and unchanged -- unless one of them is named [root]: then it
    analyses the properties of that definition instead and returns the
    empty mapping. *)
Theorem _analyze_syntax_definitions_parsed (content : string) :
  prefix "RootNode" (ASTSyntaxChecker.strip_comments content)
  || prefix "Document" (ASTSyntaxChecker.strip_comments content) = false ->
  contains_char "{" (ASTSyntaxChecker.strip_comments content)
  && contains "node_type" (ASTSyntaxChecker.strip_comments content) = true ->
  exists defs,
    ASTSyntaxChecker._parse_ron_content content = Some defs
    /\ Analysis._analyze_syntax_definitions defs
       = Ok (if dict_has "root" defs then [] else defs).
Proof.
  intros R S. unfold ASTSyntaxChecker._parse_ron_content. rewrite R, S.
  assert (String.eqb (ASTSyntaxChecker.strip_comments content) "" = false)
    as ->.
  { destruct (ASTSyntaxChecker.strip_comments content); [discriminate S|].
    reflexivity. }
  eexists. split; [reflexivity|].
  pose proof (parse_syntax_format_plain
                (ASTSyntaxChecker.strip_comments content)) as P.
  pose proof (parse_syntax_format_unique
                (ASTSyntaxChecker.strip_comments content)) as U.
  set (defs := ASTSyntaxChecker.parse_syntax_format _) in *.
  unfold Analysis._analyze_syntax_definitions, _get_syntax_definitions,
    dict_has.
  fold keep_mappings.
  destruct (dict_get "root" defs) as [v|] eqn:G.
  - destruct (@plain_defs_get "root" defs v P G) as (props & -> & A).
    cbn [items bind]. now rewrite (@keep_mappings_none props [] A).
  - cbn [items bind]. now rewrite (@keep_mappings_all defs [] U P).
Qed.

Lemma _analyze_syntax_definitions_parsed_witness :
  exists defs,
    ASTSyntaxChecker._parse_ron_content heading_syntax_text = Some defs
    /\ Analysis._analyze_syntax_definitions defs
       = Ok (if dict_has "root" defs then [] else defs).
Proof.
  apply (@_analyze_syntax_definitions_parsed heading_syntax_text);
    reflexivity.
Defined.

(** ** Reading back the fields of a root object *)

Lemma span_app p (a : string) (c : ascii) (b : string) :
  all_chars p a = true -> p c = false ->
  span p (a ++ String c b) = (a, String c b).
Proof.
  intros A C. induction a as [|x a IH]; cbn [String.append span].
  - now rewrite C.
  - cbn [all_chars] in A. apply andb_true_iff in A as (-> & A).
    now rewrite (IH A).
Qed.

Lemma all_chars_not (c : ascii) (s : string) :
  contains_char c s = false ->
  all_chars (fun x => negb (Ascii.eqb x c)) s = true.
Proof.
  induction s as [|x s IH]; cbn [contains_char all_chars]; [reflexivity|].
  intros H. apply orb_false_iff in H as (E & H).
  now rewrite Ascii.eqb_sym, E, IH.
Qed.

Lemma scan_string_plain (v tail : string) :
  contains_char quote v = false -> contains_char backslash v = false ->
  scan_string (v ++ String quote tail) = (v, tail).
Proof.
  induction v as [|x v IH]; cbn [contains_char String.append scan_string].
  - now rewrite Ascii.eqb_refl.
  - intros Q B. apply orb_false_iff in Q as (Qx & Q).
    apply orb_false_iff in B as (Bx & B).
    rewrite Ascii.eqb_sym, Qx. rewrite Ascii.eqb_sym, Bx.
    now rewrite (IH Q B).
Qed.

Lemma drop_while_stop p (s : string) :
  match s with String c _ => p c = false | EmptyString => True end ->
  drop_while p s = s.
Proof.
  destruct s as [|c r]; [reflexivity|]. unfold drop_while. cbn [span].
  now intros ->.
Qed.

Lemma strip_head (k : string) (c : ascii) (r : string) :
  strip k = k -> k = String c r -> is_space c = false.
Proof.
  intros S ->. unfold strip, strip_chars, drop_while in S. cbn [span] in S.
  destruct (is_space c) eqn:E; [|reflexivity]. exfalso.
  destruct (span is_space r) as [a b] eqn:Sp. cbn [snd] in S.
  pose proof (span_rest_le _ _ Sp) as L.
  assert (forall p s, (String.length (rstrip_chars p s) <= String.length s)%nat)
    as R.
  { intros p s. induction s as [|x s IH]; [cbn; lia|]. cbn [rstrip_chars].
    destruct (rstrip_chars p s); [destruct (p x)|]; cbn in *; lia. }
  specialize (R is_space b). rewrite S in R. cbn [String.length] in R. lia.
Qed.

Lemma rstrip_app p (a : string) (c : ascii) (b : string) :
  p c = false -> all_chars p b = true ->
  rstrip_chars p (a ++ String c b) = (a ++ String c "")%string.
Proof.
  intros C B.
  assert (rstrip_chars p b = "") as Rb.
  { induction b as [|x b IH]; [reflexivity|]. cbn [all_chars] in B.
    apply andb_true_iff in B as (Bx & B). cbn [rstrip_chars].
    now rewrite (IH B), Bx. }
  induction a as [|x a IH]; cbn [String.append rstrip_chars].
  - now rewrite Rb, C.
  - rewrite IH. now destruct a.
Qed.

Lemma rfind_last (c : ascii) (a : string) :
  rfind c (a ++ String c "") = Some (String.length a).
Proof.
  induction a as [|x a IH]; cbn [String.append rfind String.length].
  - now rewrite Ascii.eqb_refl.
  - now rewrite IH.
Qed.

Lemma take_app (a b : string) : take (String.length a) (a ++ b) = a.
Proof.
  induction a as [|x a IH]; cbn [String.length String.append take].
  - now destruct b.
  - now rewrite IH.
Qed.

Lemma length_append (a b : string) :
  String.length (a ++ b) = (String.length a + String.length b)%nat.
Proof. induction a as [|x a IH]; cbn; [reflexivity | now rewrite IH]. Qed.

Lemma contains_char_app (c : ascii) (a b : string) :
  contains_char c (a ++ b)
  = contains_char c a || contains_char c b.
Proof.
  induction a as [|x a IH]; cbn [String.append contains_char]; [reflexivity|].
  now rewrite IH, orb_assoc.
Qed.

Lemma join_fields (f : string * string) (r : list (string * string)) :
  join ", " (map field_text (f :: r))
  = (field_text f ++ rest_text r)%string.
Proof.
  destruct r as [|g r]; cbn [map join rest_text].
  - induction (field_text f) as [|x s IH]; cbn; [reflexivity | now rewrite <- IH].
  - reflexivity.
Qed.

Lemma key_head_not_separator (k : string) (tail : string) :
  plain_key k ->
  drop_while (in_chars ASTSyntaxChecker.separators)
    (k ++ String ":" tail) = (k ++ String ":" tail)%string.
Proof.
  intros (S & C & _). apply drop_while_stop.
  destruct k as [|c r]; cbn [String.append]; [reflexivity|].
  pose proof (strip_head S eq_refl) as Sp. cbn [starts_with] in C.
  unfold in_chars, ASTSyntaxChecker.separators. cbn [existsb].
  rewrite C, orb_false_r.
  destruct (Ascii.eqb c " ") eqn:E1;
    [apply Ascii.eqb_eq in E1; subst; discriminate Sp|].
  destruct (Ascii.eqb c tab) eqn:E2;
    [apply Ascii.eqb_eq in E2; subst; discriminate Sp|].
  destruct (Ascii.eqb c newline) eqn:E3;
    [apply Ascii.eqb_eq in E3; subst; discriminate Sp|].
  reflexivity.
Qed.

Lemma structure_loop_lead fuel (c : ascii) (s : string) out :
  in_chars ASTSyntaxChecker.separators c = true ->
  ASTSyntaxChecker.structure_loop fuel (String c s) out
  = ASTSyntaxChecker.structure_loop fuel s out.
Proof.
  intros H. destruct fuel as [|fuel]; [reflexivity|].
  cbn [ASTSyntaxChecker.structure_loop]. now rewrite drop_while_cons, H.
Qed.

Lemma structure_loop_fields (fields : list (string * string)) :
  forall fuel out,
    Forall plain_field fields ->
    (List.length fields < fuel)%nat ->
    ASTSyntaxChecker.structure_loop fuel
      (join ", " (map field_text fields)) out
    = Some (Ok (fold_left store fields out))
    /\ ASTSyntaxChecker.structure_loop fuel (rest_text fields) out
       = Some (Ok (fold_left store fields out)).
Proof.
  induction fields as [|[k v] r IH]; intros fuel out F L.
  - destruct fuel as [|fuel]; [cbn in L; lia|]. now split.
  - destruct fuel as [|fuel]; [cbn in L; lia|]. cbn [List.length] in L.
    inversion F as [|? ? ((Ks & Kc & Kn & Kl) & (Vq & Vb & Vl)) F']; subst.
    cbn [fst snd] in *.
    assert (ASTSyntaxChecker.structure_loop (S fuel)
              (join ", " (map field_text ((k, v) :: r))) out
            = Some (Ok (fold_left store ((k, v) :: r) out))) as Main.
    { rewrite join_fields. unfold field_text. cbn [fst snd].
      replace ((k ++ ": " ++ String quote (v ++ String quote ""))
               ++ rest_text r)%string
        with (k ++ String ":" (String " " (String quote
                (v ++ String quote (rest_text r)))))%string.
      2:{ clear. induction k as [|x k IH]; cbn [String.append].
          - f_equal. f_equal. f_equal.
            induction v as [|y v IHv]; cbn [String.append];
              [reflexivity | now rewrite IHv].
          - now rewrite IH. }
      cbn [ASTSyntaxChecker.structure_loop].
      rewrite key_head_not_separator by (repeat split; assumption).
      destruct (k ++ String ":" _)%string as [|a0 s0] eqn:T;
        [destruct k; discriminate T|]. rewrite <- T. clear T a0 s0.
      rewrite (span_app _ k ":" _ (all_chars_not _ _ Kn) eq_refl).
      change (drop_while (in_chars ASTSyntaxChecker.blanks)
                (String " " (String quote (v ++ String quote (rest_text r)))))
        with (String quote (v ++ String quote (rest_text r))).
      cbv beta iota.
      rewrite Ascii.eqb_refl, (@scan_string_plain v (rest_text r) Vq Vb), Ks.
      apply (IH fuel (dict_set k (VStr v) out) F'). lia. }
    split; [exact Main|].
    change (rest_text ((k, v) :: r))
      with (String "," (String " " (join ", " (map field_text ((k, v) :: r))))).
    rewrite <- Main. now rewrite !structure_loop_lead.
Qed.

Lemma store_all (fields : list (string * string)) : forall acc,
  NoDup (map fst acc ++ map fst fields) ->
  fold_left store fields acc = acc ++ string_fields fields.
Proof.
  induction fields as [|[k v] r IH]; intros acc U; [now rewrite app_nil_r|].
  cbn [fold_left string_fields map fst snd] in *. unfold store at 2.
  cbn [fst snd].
  assert (dict_has k acc = false) as F.
  { destruct (dict_has k acc) eqn:H; [|reflexivity].
    apply dict_has_In_keys in H. apply NoDup_remove_2 in U.
    exfalso. apply U, in_or_app. now left. }
  rewrite (@dict_set_fresh k (VStr v) acc F), IH.
  - now rewrite <- app_assoc.
  - rewrite map_app. cbn [map fst]. now rewrite <- app_assoc.
Qed.

Lemma fields_no_newline (fields : list (string * string)) :
  Forall plain_field fields ->
  contains_char newline (join ", " (map field_text fields)) = false.
Proof.
  induction 1 as [|[k v] r ((_ & _ & _ & Kl) & (_ & _ & Vl)) _ IH];
    [reflexivity|].
  rewrite join_fields. cbn [fst snd] in *. unfold field_text. cbn [fst snd].
  rewrite !contains_char_app, Kl. cbn [contains_char orb].
  change (Ascii.eqb newline ":") with false.
  change (Ascii.eqb newline " ") with false.
  change (Ascii.eqb newline quote) with false. cbn [orb].
  rewrite contains_char_app, Vl. cbn [contains_char orb].
  change (Ascii.eqb newline quote) with false. cbn [orb].
  destruct r as [|f r]; [reflexivity|]. cbn [rest_text].
  exact IH.
Qed.

Lemma fields_length (fields : list (string * string)) :
  (List.length fields
   <= String.length (join ", " (map field_text fields)))%nat.
Proof.
  induction fields as [|[k v] r IH]; [cbn; lia|].
  rewrite join_fields, length_append. cbn [List.length].
  assert (1 <= String.length (field_text (k, v)))%nat as K.
  { unfold field_text. rewrite length_append. cbn [String.append String.length].
    lia. }
  assert (List.length r <= String.length (rest_text r))%nat as R.
  { destruct r as [|f r]; [cbn; lia|]. cbn [rest_text].
    rewrite length_append. lia. }
  lia.
Qed.

(** The text of the fields begins with no blank and ends with a quote. *)
Lemma fields_ends (f : string * string) (r : list (string * string)) :
  exists body,
    join ", " (map field_text (f :: r)) = (body ++ String quote "")%string.
Proof.
  revert f. induction r as [|g r IH]; intros [k v].
  - exists (k ++ ": " ++ String quote v)%string. cbn [map join].
    unfold field_text. cbn [fst snd].
    rewrite append_assoc'. reflexivity.
  - destruct (IH g) as (body & E).
    exists (field_text (k, v) ++ ", " ++ body)%string.
    change (join ", " (map field_text ((k, v) :: g :: r)))
      with (field_text (k, v) ++ ", " ++ join ", " (map field_text (g :: r)))%string.
    rewrite E, append_assoc'. reflexivity.
Qed.

Lemma strip_fields (fields : list (string * string)) :
  Forall plain_field fields ->
  strip (" " ++ join ", " (map field_text fields) ++ " ")
  = join ", " (map field_text fields).
Proof.
  intros F. unfold strip, strip_chars. cbn [String.append].
  rewrite drop_while_cons. change (is_space " ") with true. cbv iota.
  destruct fields as [|[k v] r]; [reflexivity|].
  inversion F as [|? ? ((Ks & Kc & Kn & Kl) & _) _]; subst.
  rewrite drop_while_stop.
  - destruct (fields_ends (k, v) r) as (body & ->).
    rewrite append_assoc'. cbn [String.append].
    now apply rstrip_app.
  - rewrite join_fields. unfold field_text. cbn [fst snd] in *.
    destruct k as [|c k']; cbn [String.append]; [reflexivity|].
    exact (strip_head Ks eq_refl).
Qed.

Lemma strip_object (fields : list (string * string)) :
  strip (object_text fields) = object_text fields.
Proof.
  unfold strip, strip_chars, object_text.
  rewrite drop_while_stop by reflexivity.
  replace ("RootNode { " ++ join ", " (map field_text fields) ++ " }")%string
    with (("RootNode { " ++ join ", " (map field_text fields) ++ " ")
            ++ String "}" "")%string.
  - now apply rstrip_app.
  - now rewrite !append_assoc'.
Qed.

(** X14.  String fields are read back as written: the text of a root
    object whose fields have plain keys, all different, and plain string
    values parses to the mapping of those fields, in order. *)
Theorem string_fields_are_read_back (fields : list (string * string)) :
  Forall plain_field fields ->
  NoDup (map fst fields) ->
  ASTSyntaxChecker._parse_ron_content (object_text fields)
  = Some (string_fields fields).
Proof.
  intros F U.
  assert (contains_char newline (object_text fields) = false) as N.
  { unfold object_text. rewrite !contains_char_app, (fields_no_newline F).
    reflexivity. }
  assert (ASTSyntaxChecker.strip_comments (object_text fields)
          = object_text fields) as Sc.
  { unfold ASTSyntaxChecker.strip_comments.
    rewrite (split_on_plain _ _ N). cbn [filter].
    rewrite strip_object.
    assert (negb (String.eqb (object_text fields) "")
            && negb (prefix "#" (object_text fields)) = true) as ->
      by reflexivity.
    cbn [join]. apply strip_object. }
  unfold ASTSyntaxChecker._parse_ron_content. rewrite Sc.
  assert (String.eqb (object_text fields) "" = false) as -> by reflexivity.
  assert (prefix "RootNode" (object_text fields) = true) as ->
    by apply (prefix_app "RootNode").
  cbn [orb]. unfold ASTSyntaxChecker._parse_ron_object.
  assert (contains_char "{" (object_text fields) = true) as -> by reflexivity.
  assert (find "{" (object_text fields) = Some 9%nat) as -> by reflexivity.
  cbn [negb].
  set (J := join ", " (map field_text fields)).
  assert (object_text fields
          = (("RootNode {" ++ " " ++ J ++ " ") ++ String "}" "")%string) as E.
  { unfold object_text. fold J. now rewrite !append_assoc'. }
  rewrite E at 1. rewrite rfind_last.
  assert (slice (9 + 1) (String.length ("RootNode {" ++ " " ++ J ++ " "))
            (object_text fields) = (" " ++ J ++ " ")%string) as ->.
  { unfold slice. rewrite length_append.
    change (String.length "RootNode {") with 10%nat.
    replace (10 + String.length (" " ++ J ++ " ") - (9 + 1))%nat
      with (String.length (" " ++ J ++ " ")) by lia.
    change (drop (9 + 1) (object_text fields))
      with (String " " (J ++ " }"))%string.
    replace (String " " (J ++ " }"))%string
      with ((" " ++ J ++ " ") ++ String "}" "")%string
      by (cbn [String.append]; now rewrite append_assoc').
    apply take_app. }
  unfold J. rewrite (strip_fields F). fold J.
  unfold ASTSyntaxChecker._parse_ron_structure.
  pose proof (fields_length fields) as L. fold J in L.
  destruct (@structure_loop_fields fields (S (String.length J)) [] F)
    as (Q & _); [lia|].
  unfold J in *. rewrite Q.
  now rewrite (@store_all fields [] U).
Qed.

Lemma string_fields_are_read_back_witness :
  ASTSyntaxChecker._parse_ron_content
    (object_text [("type", "root"); ("title", "Hello, world: {1}")])
  = Some (string_fields [("type", "root"); ("title", "Hello, world: {1}")]).
Proof.
  apply (@string_fields_are_read_back
           [("type", "root"); ("title", "Hello, world: {1}")]).
  - repeat constructor.
  - repeat constructor; cbn; intuition discriminate.
Defined.

(** ** The shape of a parsed document *)

Ltac shape_step IH :=
  eapply IH; [|eassumption];
  try (apply (dict_set_forallb ron_value); [reflexivity | assumption]);
  try assumption.

Lemma loops_shape : forall fuel,
  (forall s out parsed,
      ron_mapping out = true ->
      ASTSyntaxChecker.structure_loop fuel s out = Some (Ok parsed) ->
      ron_mapping parsed = true)
  /\ (forall s acc a rest,
         forallb ron_item acc = true ->
         ASTSyntaxChecker.array_loop fuel s acc = Some (Ok (a, rest)) ->
         forallb ron_item a = true).
Proof.
  induction fuel as [|fuel [IHs IHa]]; [split; intros; discriminate|].
  split.
  - intros s out parsed F E.
    cbn [ASTSyntaxChecker.structure_loop] in E.
    destruct (drop_while (in_chars ASTSyntaxChecker.separators) s)
      as [|a0 s0]; [now injection E as <-|].
    destruct (span _ (String a0 s0)) as [key_text s2].
    destruct s2 as [|c2 s3]; [now injection E as <-|].
    destruct (drop_while (in_chars ASTSyntaxChecker.blanks) s3)
      as [|c r]; [now injection E as <-|].
    destruct (Ascii.eqb c quote).
    { destruct (scan_string r) as [value rest]. shape_step IHs. }
    destruct (Ascii.eqb c "[").
    { destruct (ASTSyntaxChecker.array_loop fuel _ [])
        as [[[a rest]|e]|] eqn:A; try discriminate E.
      eapply IHs; [|exact E].
      apply (dict_set_forallb ron_value); [|assumption].
      exact (IHa _ [] _ _ eq_refl A). }
    destruct (prefix "Some" (String c r)).
    { cbv zeta in E. destruct (starts_with "(" _).
      - destruct (scan_nested "(" ")" 1 _) as [passed rest].
        eapply IHs; [|exact E].
        apply (dict_set_forallb ron_value); [|assumption].
        unfold ASTSyntaxChecker.optional_value.
        repeat match goal with
               | |- context [if ?b then _ else _] => destruct b
               end; reflexivity.
      - shape_step IHs. }
    destruct (is_digit c || Ascii.eqb c "-").
    { destruct (span _ (String c r)) as [value rest].
      destruct (ASTSyntaxChecker.numeric_value value) as [v|e] eqn:N;
        [|discriminate E].
      eapply IHs; [|exact E].
      apply (dict_set_forallb ron_value); [|assumption].
      unfold ASTSyntaxChecker.numeric_value in N.
      destruct (isdigit value); [now injection N as <-|].
      destruct (float_of_string value); [|discriminate N].
      now injection N as <-. }
    destruct (prefix "true" (String c r)); [shape_step IHs|].
    destruct (prefix "false" (String c r)); [shape_step IHs|].
    destruct (scan_fallback 0 (String c r)) as [text rest].
    destruct (String.eqb (strip text) ""); shape_step IHs.
  - intros s acc a rest F E. cbn [ASTSyntaxChecker.array_loop] in E.
    destruct s as [|c r]; [now injection E as <- <-|].
    destruct (Ascii.eqb c "]"); [now injection E as <- <-|].
    destruct (in_chars ASTSyntaxChecker.separators c);
      [exact (IHa _ _ _ _ F E)|].
    destruct (is_upper c).
    { destruct (span _ (String c r)) as [node_type s1]. cbv zeta in E.
      destruct (starts_with "{" _); [|exact (IHa _ _ _ _ F E)].
      destruct (scan_nested "{" "}" 1 _) as [passed rest'].
      destruct (ASTSyntaxChecker.structure_loop fuel (drop_last passed) [])
        as [[parsed|e]|] eqn:P; try discriminate E.
      apply (IHa _ _ _ _) in E; [exact E|].
      rewrite forallb_app, F. cbn [forallb andb].
      rewrite andb_true_r. exact (IHs _ [] _ eq_refl P). }
    destruct (span _ (String c r)) as [text rest'].
    apply (IHa _ _ _ _) in E; [exact E|].
    destruct (String.eqb (strip_quotes (strip text)) "") eqn:V; [exact F|].
    rewrite forallb_app, F. cbn [forallb ron_item andb]. now rewrite V.
Qed.

(** X15.  The shape of what the parser returns.  For a text of the root
    form every value of the mapping is a string, a number, a boolean or a
    list, and every item of a list, at any depth, is a string that is not
    empty or again such a mapping: no [None], no mapping as a value, no
    list inside a list.  For any other text the result is a mapping of
    definitions with string properties, the empty mapping, or the text
    itself under [raw_content]. *)
Theorem parsed_document_shape (content : string) (parsed : dict) :
  ASTSyntaxChecker._parse_ron_content content = Some parsed ->
  (prefix "RootNode" (ASTSyntaxChecker.strip_comments content)
   || prefix "Document" (ASTSyntaxChecker.strip_comments content) = true ->
   ron_mapping parsed = true)
  /\ (prefix "RootNode" (ASTSyntaxChecker.strip_comments content)
      || prefix "Document" (ASTSyntaxChecker.strip_comments content) = false ->
      plain_defs parsed = true
      \/ parsed = []
      \/ parsed = [("raw_content",
                    VStr (ASTSyntaxChecker.strip_comments content))]).
Proof.
  unfold ASTSyntaxChecker._parse_ron_content. intros E. split; intros R;
    rewrite R in E.
  - destruct (String.eqb _ ""); [now injection E as <-|].
    unfold ASTSyntaxChecker._parse_ron_object,
      ASTSyntaxChecker._parse_ron_structure in E.
    destruct (negb (contains_char "{" _)); [now injection E as <-|].
    destruct (find "{" _); [|now injection E as <-].
    destruct (rfind "}" _); [|now injection E as <-].
    destruct (ASTSyntaxChecker.structure_loop _ _ []) as [[d|e]|] eqn:L;
      [|now injection E as <- | discriminate].
    injection E as <-. exact (proj1 (loops_shape _) _ [] _ eq_refl L).
  - destruct (String.eqb _ ""); [injection E as <-; tauto|].
    destruct (contains_char "{" _ && contains "node_type" _);
      injection E as <-; [left; apply parse_syntax_format_plain | tauto].
Qed.

Lemma parsed_document_shape_witness : ron_mapping heading_ast = true.
Proof.
  apply (proj1 (@parsed_document_shape heading_ast_text heading_ast eq_refl)).
  reflexivity.
Defined.

(** ** The tables of the two classes *)

(** X16.  The tables of the validator and of the generator agree: the
    common types, which [_is_valid_node_type] accepts without a schema,
    are exactly the types for which [_determine_style] has a style other
    than [unknown]. *)
Theorem common_types_are_the_styled_types (name : string) :
  In name ASTValidator.common_types
  <-> DisplayHintsGenerator._determine_style (VStr name) <> Ok "unknown".
Proof.
  rewrite _determine_style_intrinsic.
  unfold intrinsic_style, ASTValidator.common_types. cbn [existsb In].
  repeat match goal with
         | |- context [String.eqb name ?s] =>
             let E := fresh "E" in
             destruct (String.eqb name s) eqn:E;
             [apply String.eqb_eq in E; subst name; cbn;
              split; [discriminate | tauto]|
              apply String.eqb_neq in E]
         end.
  cbn. split; [|congruence]. intuition congruence.
Qed.
